(** * TrialSense backend: matching, ranking, evaluation and radar services

    A shallow embedding of the decision logic of [src/backend]:
    [matching_engine.py], [llm_service.py], [ct_service.py],
    [clinical_radar_service.py] and the age parser of [ingestion.py],
    followed by the properties of the
    specification that concern them.

    External collaborators (the Gemini models, the ClinicalTrials.gov
    registry, [json.loads], pydantic validation, geopy's [geodesic], the
    SQL session) are interfaces: type classes whose instances are
    universally quantified in the theorems and instantiated by small
    fixtures in the examples. *)

From Stdlib Require Import List String Ascii ZArith QArith Bool Lia.
From Stdlib Require Import Qabs Sorted Permutation DecimalString DecimalNat.
Import ListNotations.

Set Implicit Arguments.
Set Warnings "-register-all".
Local Open Scope string_scope.
Local Open Scope Z_scope.

(* ===================================================================== *)
(** * Part I: the program                                                *)
(* ===================================================================== *)

(** ** Python values and primitives *)

Module Py.

(** Exceptions. All of them derive from [Exception]; only
    [JSONDecodeError] is ever caught selectively. *)
Inductive exn : Type :=
| AttributeError | TypeError | KeyError | IndexError
| JSONDecodeError | ValidationError | MultipleResultsFound | ExternalError.

Inductive result (A : Type) : Type :=
| Ok (a : A)
| Raise (e : exn).
Arguments Ok {A} a.
Arguments Raise {A} e.

Definition rbind {A B} (m : result A) (k : A -> result B) : result B :=
  match m with Ok a => k a | Raise e => Raise e end.

(** *** Strings *)

(** The characters [str.strip()] removes, within ASCII. *)
Definition is_space (c : ascii) : bool :=
  let n := nat_of_ascii c in
  ((9 <=? n) && (n <=? 13) || (28 <=? n) && (n <=? 32))%nat.

Fixpoint lstrip (s : string) : string :=
  match s with
  | String c s' => if is_space c then lstrip s' else s
  | EmptyString => EmptyString
  end.

Fixpoint rstrip (s : string) : string :=
  match s with
  | String c s' =>
      match rstrip s' with
      | EmptyString => if is_space c then EmptyString else String c EmptyString
      | r => String c r
      end
  | EmptyString => EmptyString
  end.

Definition strip (s : string) : string := rstrip (lstrip s).

Definition startswith (s p : string) : bool := String.prefix p s.

Fixpoint drop (n : nat) (s : string) : string :=
  match n, s with
  | O, _ => s
  | S n', String _ s' => drop n' s'
  | S _, EmptyString => EmptyString
  end.

Fixpoint take (n : nat) (s : string) : string :=
  match n, s with
  | S n', String c s' => String c (take n' s')
  | _, _ => EmptyString
  end.

Definition endswith (s p : string) : bool :=
  (String.length p <=? String.length s)%nat &&
  String.eqb (drop (String.length s - String.length p) s) p.

(** [s[:-n]] *)
Definition drop_last (n : nat) (s : string) : string :=
  take (String.length s - n) s.

(** [p in s] *)
Fixpoint contains (s p : string) : bool :=
  String.prefix p s ||
  match s with
  | String _ s' => contains s' p
  | EmptyString => false
  end.

Definition str_truthy (s : string) : bool :=
  match s with EmptyString => false | _ => true end.

Definition str_of_nat (n : nat) : string :=
  NilEmpty.string_of_uint (Nat.to_uint n).

(** *** Lists *)

(** [l[:n]] for a Python [int] [n]: a negative bound counts from the end. *)
Definition slice_to {A} (n : Z) (l : list A) : list A :=
  if 0 <=? n then firstn (Z.to_nat n) l
  else firstn (List.length l - Z.to_nat (- n)) l.

(** *** Floats

    Finite, non-NaN doubles are rationals; comparisons are exact. *)
Definition float := Q.

Definition float_truthy (x : float) : bool := negb (Qeq_bool x 0).

Definition opt_float_truthy (x : option float) : bool :=
  match x with Some q => float_truthy q | None => false end.

(** A float variable that may hold [float('inf')]. *)
Inductive efloat : Type :=
| Fin (q : Q)
| Inf.

Definition efloat_leb (a b : efloat) : bool :=
  match a, b with
  | Fin x, Fin y => Qle_bool x y
  | _, Inf => true
  | Inf, Fin _ => false
  end.

Definition efloat_ltb (a b : efloat) : bool := negb (efloat_leb b a).

(** *** JSON values, as [json.loads] produces them *)

Inductive json : Type :=
| JNull
| JBool (b : bool)
| JInt (z : Z)
| JFloat (q : Q)
| JStr (s : string)
| JArr (l : list json)
| JObj (kv : list (string * json)).

Definition dict := list (string * json).

Definition truthy (v : json) : bool :=
  match v with
  | JNull => false
  | JBool b => b
  | JInt z => negb (z =? 0)
  | JFloat q => float_truthy q
  | JStr s => str_truthy s
  | JArr l => match l with [] => false | _ => true end
  | JObj kv => match kv with [] => false | _ => true end
  end.

Fixpoint lookup (k : string) (d : dict) : option json :=
  match d with
  | [] => None
  | (k', v) :: d' => if String.eqb k k' then Some v else lookup k d'
  end.

(** [d.get(k, default)] on a dict *)
Definition dict_get (d : dict) (k : string) (default : json) : json :=
  match lookup k d with Some v => v | None => default end.

(** [d[k] = v]: replaces in place, or appends a new key *)
Fixpoint dict_set (d : dict) (k : string) (v : json) : dict :=
  match d with
  | [] => [(k, v)]
  | (k', v') :: d' =>
      if String.eqb k k' then (k', v) :: d' else (k', v') :: dict_set d' k v
  end.

(** [v.get(k, default)] on an arbitrary value: only dicts have [.get] *)
Definition get (v : json) (k : string) (default : json) : result json :=
  match v with
  | JObj d => Ok (dict_get d k default)
  | _ => Raise AttributeError
  end.

(** [v[k]] with a string key *)
Definition getitem (v : json) (k : string) : result json :=
  match v with
  | JObj d => match lookup k d with Some x => Ok x | None => Raise KeyError end
  | _ => Raise TypeError
  end.

(** [v[i]] with a non-negative integer index *)
Definition index (v : json) (i : nat) : result json :=
  match v with
  | JArr l => match nth_error l i with Some x => Ok x | None => Raise IndexError end
  | JStr s => match String.get i s with
              | Some c => Ok (JStr (String c EmptyString))
              | None => Raise IndexError
              end
  | JObj _ => Raise KeyError
  | _ => Raise TypeError
  end.

(** [len(v)] *)
Definition len (v : json) : result nat :=
  match v with
  | JArr l => Ok (List.length l)
  | JStr s => Ok (String.length s)
  | JObj kv => Ok (List.length kv)
  | _ => Raise TypeError
  end.

(** [v[:n]] for a positive literal [n] *)
Definition slice (v : json) (n : nat) : result json :=
  match v with
  | JStr s => Ok (JStr (take n s))
  | JArr l => Ok (JArr (firstn n l))
  | _ => Raise TypeError
  end.

(** [for x in v] *)
Definition iter (v : json) : result (list json) :=
  match v with
  | JArr l => Ok l
  | JStr s => Ok (map (fun c => JStr (String c EmptyString)) (list_ascii_of_string s))
  | JObj kv => Ok (map (fun p => JStr (fst p)) kv)
  | _ => Raise TypeError
  end.

(** [str.lower()], within ASCII. *)
Definition lower_char (c : ascii) : ascii :=
  let n := nat_of_ascii c in
  if ((65 <=? n) && (n <=? 90))%nat then ascii_of_nat (n + 32) else c.

Fixpoint lower (s : string) : string :=
  match s with
  | String c s' => String (lower_char c) (lower s')
  | EmptyString => EmptyString
  end.

(** [str.isdigit], within ASCII. *)
Definition isdigit (c : ascii) : bool :=
  let n := nat_of_ascii c in ((48 <=? n) && (n <=? 57))%nat.

(** [''.join(filter(f, s))] *)
Fixpoint filter_chars (f : ascii -> bool) (s : string) : string :=
  match s with
  | String c s' => if f c then String c (filter_chars f s') else filter_chars f s'
  | EmptyString => EmptyString
  end.

(** [int(s)] for a string of ASCII digits; [None] is the ValueError
    raised for the empty string. *)
Definition int_of_digits (s : string) : option Z :=
  match s with
  | EmptyString => None
  | _ =>
      match NilEmpty.uint_of_string s with
      | Some d => Some (Z.of_nat (Nat.of_uint d))
      | None => None
      end
  end.

(** The code-fence removal repeated after every oracle call:
<<
    if text.startswith("```json"): text = text[7:]
    if text.startswith("```"):     text = text[3:]
    if text.endswith("```"):       text = text[:-3]
    text = text.strip()
>> *)
Definition unfence (text : string) : string :=
  let text := if startswith text "```json" then drop 7 text else text in
  let text := if startswith text "```" then drop 3 text else text in
  let text := if endswith text "```" then drop_last 3 text else text in
  strip text.

End Py.

Export Py.

Declare Scope py_scope.
Delimit Scope py_scope with py.
Notation "x <- m ;; k" := (Py.rbind m (fun x => k))
  (at level 61, m at next level, right associativity) : py_scope.

(** ** models.py: the pydantic models *)

Module Models.

Record Location : Type := {
  facility : string;
  city : string;
  state : option string;
  country : string;
  lat : option float;
  lng : option float
}.

Record LocationInput : Type := {
  input_city : string;
  input_country : string;
  input_lat : option float;
  input_lng : option float
}.

Record Trial : Type := {
  trial_nct_id : string;
  trial_title : string;
  trial_phase : string;
  trial_status : string;
  trial_conditions : list string;
  trial_interventions : list string;
  eligibility_criteria_raw : string;
  eligibility_parsed : option dict;
  min_age : option Z;
  max_age : option Z;
  trial_sex : string;
  locations : list Location;
  sponsor : string;
  last_updated : string
}.

Record PatientProfile : Type := {
  condition : string;
  condition_normalized : option string;
  histology : option string;
  stage : option string;
  line_of_therapy : option string;
  prior_treatments : list string;
  current_treatments : option (list string);
  biomarkers : dict;
  ecog : option (Z + string);
  age : option Z;
  sex : option string;
  cns_involvement : option bool;
  metastatic_sites : option (list string);
  comorbidities : option (list string);
  organ_function : option string;
  location : option LocationInput
}.

(** [PatientProfile(condition=c)]: every other field takes its declared
    default. *)
Definition PatientProfile_of_condition (c : string) : PatientProfile := {|
  condition := c;
  condition_normalized := None;
  histology := None;
  stage := None;
  line_of_therapy := None;
  prior_treatments := [];
  current_treatments := None;
  biomarkers := [];
  ecog := None;
  age := None;
  sex := None;
  cns_involvement := None;
  metastatic_sites := None;
  comorbidities := None;
  organ_function := None;
  location := None
|}.

Record TrialMatch : Type := {
  nct_id : string;
  title : string;
  phase : string;
  fit_score : Z;
  fit_category : string;
  nearest_site : option Location;
  distance_km : option float;
  meets_criteria : list string;
  fails_criteria : list string;
  missing_info : list string;
  explanation : string
}.

End Models.

Export Models.

(** ** External collaborators *)

(** [json.loads]: [None] stands for [JSONDecodeError]. *)
Class JsonCodec : Type := {
  json_loads : string -> option json
}.

(** pydantic validation of constructor arguments against the declared field
    types ([str], [int], [List[str]], [Optional[str]]) and of a whole
    [PatientProfile] built from a decoded dict; [None] stands for the raised error. *)
Class Pydantic : Type := {
  validate_str : json -> option string;
  validate_int : json -> option Z;
  validate_str_list : json -> option (list string);
  validate_opt_str : json -> option (option string);
  validate_profile : json -> option PatientProfile
}.

(** [geopy.distance.geodesic(a, b).kilometers]; [None] when it raises. *)
Class Geodesy : Type := {
  geodesic : float * float -> float * float -> option float
}.

(** What the prompts interpolate; the fixed instruction text is left out. *)
Inductive prompt : Type :=
| ProfilePrompt (query : string)
| ImagePrompt (image_bytes : string)
| KeywordsPrompt (patient_profile : PatientProfile)
| EligibilityPrompt (patient_profile : PatientProfile)
    (trial_criteria trial_title trial_phase : string)
| BatchPrompt (patient_profile : PatientProfile)
    (trials_text : list (json * json * json * json)).

Inductive http_outcome : Type :=
| NetworkError
| HttpResponse (status : Z) (body : string).

(** Calls that leave the process, in the order they are made. *)
Inductive event : Type :=
| Generate (p : prompt)
| RegistryGet (query_cond : json) (page_size : Z).

Definition trace := list event.

(** The Gemini model and the registry. A reply may depend on everything
    that happened before, so nothing is assumed about repeated calls.
    [generate_content] returns [None] when the call, or reading
    [response.text], raises. *)
Class Oracle : Type := {
  image_open : string -> bool;
  generate_content : trace -> prompt -> option string
}.

Class Registry : Type := {
  registry_get : trace -> json -> Z -> http_outcome
}.

(** ** Computations that call out: a trace-passing exception monad *)

Module Run.

Definition M (A : Type) : Type := trace -> trace * result A.

Definition ret {A} (a : A) : M A := fun tr => (tr, Ok a).

Definition raise {A} (e : exn) : M A := fun tr => (tr, Raise e).

Definition lift {A} (r : result A) : M A := fun tr => (tr, r).

Definition bind {A B} (m : M A) (k : A -> M B) : M B :=
  fun tr =>
    match m tr with
    | (tr', Ok a) => k a tr'
    | (tr', Raise e) => (tr', Raise e)
    end.

(** [try: body / except Exception: handler] *)
Definition try_except {A} (body : M A) (handler : exn -> M A) : M A :=
  fun tr =>
    match body tr with
    | (tr', Ok a) => (tr', Ok a)
    | (tr', Raise e) => handler e tr'
    end.

Definition of_option {A} (e : exn) (o : option A) : result A :=
  match o with Some a => Ok a | None => Raise e end.

End Run.

Export Run.

Declare Scope run_scope.
Delimit Scope run_scope with run.
Notation "x <~ m ;; k" := (Run.bind m (fun x => k))
  (at level 61, m at next level, right associativity) : run_scope.

(** ** Model constructors under validation *)

Module Construct.
Section Construct.

Context {pydantic : Pydantic}.

(** [TrialMatch(...)] applied to values that still need validation;
    the identifying fields are strings already. *)
Definition new_TrialMatch (nct_id title phase : string) (fit_score fit_category : json)
    (nearest_site : option Location) (distance_km : option float)
    (meets_criteria fails_criteria missing_info explanation : json)
    : result TrialMatch :=
  match validate_int fit_score, validate_str fit_category,
        validate_str_list meets_criteria, validate_str_list fails_criteria,
        validate_str_list missing_info, validate_str explanation with
  | Some s, Some c, Some m, Some f, Some i, Some e =>
      Ok {| Models.nct_id := nct_id; Models.title := title; Models.phase := phase;
            Models.fit_score := s; Models.fit_category := c;
            Models.nearest_site := nearest_site; Models.distance_km := distance_km;
            Models.meets_criteria := m; Models.fails_criteria := f;
            Models.missing_info := i; Models.explanation := e |}
  | _, _, _, _, _, _ => Raise ValidationError
  end.

(** [Location(facility=.., city=.., state=.., country=..)]; [lat] and
    [lng] take their default [None]. *)
Definition new_Location (facility city state country : json) : result Location :=
  match validate_str facility, validate_str city,
        validate_opt_str state, validate_str country with
  | Some f, Some c, Some s, Some k =>
      Ok {| Models.facility := f; Models.city := c; Models.state := s;
            Models.country := k; Models.lat := None; Models.lng := None |}
  | _, _, _, _ => Raise ValidationError
  end.

End Construct.
End Construct.

Export Construct.

(** ** llm_service.py *)

Module LLMService.
Section LLMService.

Context {codec : JsonCodec} {pydantic : Pydantic} {oracle : Oracle}.
Local Open Scope run_scope.

(** [model.generate_content(prompt)] followed by [response.text] *)
Definition generate (p : prompt) : M string :=
  fun tr => ((tr ++ [Generate p])%list, of_option ExternalError (generate_content tr p)).

(** [text = response.text.strip()], fence removal, [json.loads(text)] *)
Definition parse_reply (text : string) : result json :=
  of_option JSONDecodeError (json_loads (unfence (strip text))).



Definition extract_search_keywords (patient_profile : PatientProfile) : M json :=
  try_except
    (text <~ generate (KeywordsPrompt patient_profile) ;;
     lift (parse_reply text))
    (fun _ => ret (JObj [
       ("condition_keywords", JArr [JStr (condition patient_profile)]);
       ("biomarker_keywords", JArr []);
       ("phase_preference", JArr [JStr "PHASE2"; JStr "PHASE3"]);
       ("location_filter",
          match location patient_profile with
          | Some l => JStr (input_country l)
          | None => JNull
          end)])).

(** The FIT CATEGORIES table both evaluation prompts give the oracle:
    strong (80-100), moderate (50-79), weak (20-49), ineligible (0-19).
    The service itself never applies it. *)
Definition fit_category_band (score : Z) : option string :=
  if (80 <=? score) && (score <=? 100) then Some "strong"
  else if (50 <=? score) && (score <=? 79) then Some "moderate"
  else if (20 <=? score) && (score <=? 49) then Some "weak"
  else if (0 <=? score) && (score <=? 19) then Some "ineligible"
  else None.

(** The degraded evaluation of the single-trial path. *)
Definition evaluation_error : json := JObj [
  ("fit_score", JInt 30);
  ("fit_category", JStr "weak");
  ("meets_criteria", JArr []);
  ("fails_criteria", JArr []);
  ("missing_info", JArr [JStr "Unable to evaluate - system error"]);
  ("explanation", JStr "Error occurred during evaluation. Please review manually.")].

Definition evaluate_eligibility (patient_profile : PatientProfile)
    (trial_criteria trial_title trial_phase : string) : M json :=
  try_except
    (text <~ generate
       (EligibilityPrompt patient_profile trial_criteria trial_title trial_phase) ;;
     lift (parse_reply text))
    (fun _ => ret evaluation_error).

(** The entry appended for a trial the oracle left out. *)
Definition evaluation_not_completed (trial : dict) : json := JObj [
  ("nct_id", dict_get trial "nct_id" (JStr "Unknown"));
  ("fit_score", JInt 40);
  ("fit_category", JStr "weak");
  ("meets_criteria", JArr []);
  ("fails_criteria", JArr []);
  ("missing_info", JArr [JStr "Evaluation not completed"]);
  ("explanation", JStr "Trial needs manual review.")].

(** The entry synthesised for every trial when the batch call fails. *)
Definition evaluation_batch_failed (t : dict) : json := JObj [
  ("nct_id", dict_get t "nct_id" (JStr "Unknown"));
  ("fit_score", JInt 40);
  ("fit_category", JStr "weak");
  ("meets_criteria", JArr []);
  ("fails_criteria", JArr []);
  ("missing_info", JArr [JStr "Batch evaluation failed"]);
  ("explanation", JStr "Could not evaluate. Please review manually.")].

(** The loop that builds [trials_text]; the only step that can raise is
    the slice [trial.get('eligibility_criteria', 'Not provided')[:1500]]. *)
Fixpoint build_trials_text (trials : list dict)
    : result (list (json * json * json * json)) :=
  match trials with
  | [] => Ok []
  | trial :: rest =>
      (criteria <- slice (dict_get trial "eligibility_criteria" (JStr "Not provided")) 1500 ;;
       more <- build_trials_text rest ;;
       Ok ((dict_get trial "nct_id" (JStr "Unknown"),
            dict_get trial "title" (JStr "Unknown"),
            dict_get trial "phase" (JStr "N/A"),
            criteria) :: more))%py
  end.

(** [evaluations.append(x)] *)
Definition append (evaluations x : json) : result json :=
  match evaluations with
  | JArr l => Ok (JArr (l ++ [x])%list)
  | _ => Raise AttributeError
  end.

(** [for i in range(len(evaluations), len(trials)): evaluations.append(...)],
    over the trials [trials[len(evaluations):]] *)
Fixpoint pad_evaluations (evaluations : json) (missing : list dict) : result json :=
  match missing with
  | [] => Ok evaluations
  | trial :: rest =>
      (evaluations' <- append evaluations (evaluation_not_completed trial) ;;
       pad_evaluations evaluations' rest)%py
  end.

Definition batch_evaluate_eligibility (patient_profile : PatientProfile)
    (trials : list dict) : M json :=
  trials_text <~ lift (build_trials_text trials) ;;
  try_except
    (text <~ generate (BatchPrompt patient_profile trials_text) ;;
     evaluations <~ lift (parse_reply text) ;;
     n <~ lift (len evaluations) ;;
     if (n <? List.length trials)%nat
     then lift (pad_evaluations evaluations (skipn n trials))
     else ret evaluations)
    (fun _ => ret (JArr (map evaluation_batch_failed trials))).

End LLMService.
End LLMService.

(** ** [list.sort]

    [list.sort(key=...)] is specified as a stable sort that compares keys
    with [<] only.  On a total preorder every stable sort computes the same
    list; the model is the stable insertion sort. *)

Module PySort.
Section Sort.

Variables (A K : Type) (key : A -> K) (ltb : K -> K -> bool).

(** [x] goes after the elements whose key is smaller, before all others *)
Fixpoint insert (x : A) (l : list A) : list A :=
  match l with
  | [] => [x]
  | y :: l' => if ltb (key y) (key x) then y :: insert x l' else x :: y :: l'
  end.

(** [a] is not after [b] in the sorted order: the key of [b] is not
    smaller. *)
Definition not_after (a b : A) : Prop := ltb (key b) (key a) = false.

(** [x] stood before the elements of [l'] in the input *)
Fixpoint sort (l : list A) : list A :=
  match l with
  | [] => []
  | x :: l' => insert x (sort l')
  end.

End Sort.

(** [l.sort(key=key, reverse=True)]: every comparison is reversed, ties
    keep their order *)
Definition sort_reverse {A K} (key : A -> K) (ltb : K -> K -> bool) : list A -> list A :=
  sort key (fun a b => ltb b a).

End PySort.

(** ** matching_engine.py *)

Module MatchingEngine.
Section MatchingEngine.

Context {codec : JsonCodec} {pydantic : Pydantic} {oracle : Oracle}
        {geodesy : Geodesy}.
Local Open Scope run_scope.

Definition calculate_distance (patient_location : option (float * float))
    (trial_location : float * float) : option float :=
  match patient_location with
  | None => None
  | Some p => geodesic p trial_location
  end.

(** One iteration of the loop over [trial_locations]; the state is the
    pair [(nearest_site, min_distance)]. *)
Definition scan_site (patient_location : option (float * float))
    (st : option Location * efloat) (location : Location)
    : option Location * efloat :=
  match lat location, lng location with
  | Some la, Some ln =>
      if float_truthy la && float_truthy ln then
        match calculate_distance patient_location (la, ln) with
        | Some distance =>
            if float_truthy distance && efloat_ltb (Fin distance) (snd st)
            then (Some location, Fin distance)
            else st
        | None => st
        end
      else st
  | _, _ => st
  end.

(** [min_distance if nearest_site else None]; [min_distance] is finite
    whenever [nearest_site] is set. *)
Definition finite (d : efloat) : option float :=
  match d with Fin q => Some q | Inf => None end.

Definition find_nearest_site (patient_location : option (float * float))
    (trial_locations : list Location) : option Location * option float :=
  match patient_location, trial_locations with
  | None, _ => (None, None)
  | _, [] => (None, None)
  | Some _, _ =>
      let st := fold_left (scan_site patient_location) trial_locations (None, Inf) in
      match fst st with
      | Some site => (Some site, finite (snd st))
      | None => (None, None)
      end
  end.

Definition patient_coords (patient : PatientProfile) : option (float * float) :=
  match location patient with
  | Some l =>
      match input_lat l, input_lng l with
      | Some la, Some ln =>
          if float_truthy la && float_truthy ln then Some (la, ln) else None
      | _, _ => None
      end
  | None => None
  end.

Definition match_patient_to_trial (patient : PatientProfile) (trial : Trial)
    : M TrialMatch :=
  let '(nearest_site, distance) :=
    find_nearest_site (patient_coords patient) (locations trial) in
  evaluation <~ LLMService.evaluate_eligibility patient
    (eligibility_criteria_raw trial) (trial_title trial) (trial_phase trial) ;;
  lift (fit_score <- get evaluation "fit_score" (JInt 0) ;;
        fit_category <- get evaluation "fit_category" (JStr "weak") ;;
        meets_criteria <- get evaluation "meets_criteria" (JArr []) ;;
        fails_criteria <- get evaluation "fails_criteria" (JArr []) ;;
        missing_info <- get evaluation "missing_info" (JArr []) ;;
        explanation <- get evaluation "explanation" (JStr "") ;;
        new_TrialMatch (trial_nct_id trial) (trial_title trial) (trial_phase trial)
          fit_score fit_category nearest_site distance
          meets_criteria fails_criteria missing_info explanation)%py.

(** [(-m.fit_score, m.distance_km if m.distance_km else float('inf'))] *)
Definition sort_key (m : TrialMatch) : Z * efloat :=
  (- fit_score m,
   match distance_km m with
   | Some d => if float_truthy d then Fin d else Inf
   | None => Inf
   end).

(** [<] on the key tuples *)
Definition key_ltb (a b : Z * efloat) : bool :=
  (fst a <? fst b) || ((fst a =? fst b) && efloat_ltb (snd a) (snd b)).

(** [matches.sort(key=...)] then [matches[:max_results]] *)
Definition rank_matches (matches : list TrialMatch) (max_results : Z)
    : list TrialMatch :=
  slice_to max_results (PySort.sort sort_key key_ltb matches).

Fixpoint match_all (patient : PatientProfile) (trials : list Trial)
    : M (list TrialMatch) :=
  match trials with
  | [] => ret []
  | trial :: rest =>
      m <~ match_patient_to_trial patient trial ;;
      ms <~ match_all patient rest ;;
      ret (m :: ms)
  end.

Definition match_patient_to_trials (patient : PatientProfile)
    (trials : list Trial) (max_results : Z) : M (list TrialMatch) :=
  matches <~ match_all patient trials ;;
  ret (rank_matches matches max_results).

(** The oncology condition mappings, in the order of the dict literal. *)
Definition condition_keywords : list (string * list string) :=
  [("tnbc", ["triple negative"; "tnbc"; "breast cancer"]);
   ("nsclc", ["non-small cell"; "nsclc"; "lung cancer"]);
   ("breast", ["breast cancer"; "breast carcinoma"]);
   ("lung", ["lung cancer"; "lung carcinoma"; "nsclc"; "sclc"]);
   ("colorectal", ["colorectal"; "colon cancer"; "rectal cancer"])].

(** The keywords looked for: the values of every mapping whose key
    occurs in the lower-cased condition, or the condition itself. *)
Definition relevant_keywords (condition_lower : string) : list string :=
  let keywords :=
    flat_map (fun kv => if contains condition_lower (fst kv) then snd kv else [])
             condition_keywords in
  match keywords with
  | [] => [condition_lower]
  | _ => keywords
  end.

(** [any(keyword in trial_conditions for keyword in keywords)] *)
Definition mentions (keywords : list string) (trial : Trial) : bool :=
  let trial_conditions := lower (String.concat " " (trial_conditions trial)) in
  existsb (fun keyword => contains trial_conditions keyword) keywords.

Definition filter_trials_by_condition (trials : list Trial) (condition : string)
    : list Trial :=
  let condition_lower := lower condition in
  let keywords := relevant_keywords condition_lower in
  let filtered := filter (mentions keywords) trials in
  match filtered with
  | [] => trials
  | _ => filtered
  end.

End MatchingEngine.
End MatchingEngine.

(** ** ct_service.py *)

Module ClinicalTrialsService.
Section ClinicalTrialsService.

Context {codec : JsonCodec} {pydantic : Pydantic} {oracle : Oracle}
        {registry : Registry}.
Local Open Scope run_scope.

(** [sep.join(items)] *)
Fixpoint join (sep : string) (items : list json) : result string :=
  match items with
  | [] => Ok ""
  | JStr s :: rest =>
      match rest with
      | [] => Ok s
      | _ => (r <- join sep rest ;; Ok (s ++ sep ++ r))%py
      end
  | _ => Raise TypeError
  end.

Fixpoint map_result {A B} (f : A -> result B) (l : list A) : result (list B) :=
  match l with
  | [] => Ok []
  | x :: l' => (y <- f x ;; ys <- map_result f l' ;; Ok (y :: ys))%py
  end.

Definition parse_location (loc : json) : result json :=
  (facility <- get loc "facility" (JStr "Unknown") ;;
   city <- get loc "city" (JStr "") ;;
   state <- get loc "state" (JStr "") ;;
   country <- get loc "country" (JStr "") ;;
   Ok (JObj [("facility", facility); ("city", city); ("state", state);
             ("country", country); ("lat", JNull); ("lng", JNull)]))%py.

Definition _parse_study (study : json) : result dict :=
  (protocol <- get study "protocolSection" (JObj []) ;;
   identification <- get protocol "identificationModule" (JObj []) ;;
   status <- get protocol "statusModule" (JObj []) ;;
   eligibility <- get protocol "eligibilityModule" (JObj []) ;;
   interventions <- get protocol "armsInterventionsModule" (JObj []) ;;
   conditions <- get protocol "conditionsModule" (JObj []) ;;
   contacts <- get protocol "contactsLocationsModule" (JObj []) ;;
   design <- get protocol "designModule" (JObj []) ;;
   phases <- get design "phases" (JArr []) ;;
   phase_str <- (if truthy phases
                 then (items <- iter phases ;; join ", " items)
                 else Ok "N/A") ;;
   location_list <- get contacts "locations" (JArr []) ;;
   first_ten <- slice location_list 10 ;;
   locs <- iter first_ten ;;
   locations <- map_result parse_location locs ;;
   intervention_list <- get interventions "interventions" (JArr []) ;;
   intervention_items <- iter intervention_list ;;
   intervention_names <- map_result (fun i => get i "name" (JStr "")) intervention_items ;;
   eligibility_text <- get eligibility "eligibilityCriteria"
                         (JStr "No eligibility criteria provided") ;;
   sponsor_module <- get protocol "sponsorCollaboratorsModule" (JObj []) ;;
   lead_sponsor <- get sponsor_module "leadSponsor" (JObj []) ;;
   sponsor <- get lead_sponsor "name" (JStr "Unknown") ;;
   nct_id <- get identification "nctId" (JStr "") ;;
   title <- get identification "briefTitle" (JStr "") ;;
   overall_status <- get status "overallStatus" (JStr "") ;;
   condition_list <- get conditions "conditions" (JArr []) ;;
   min_age <- get eligibility "minimumAge" (JStr "") ;;
   max_age <- get eligibility "maximumAge" (JStr "") ;;
   sex <- get eligibility "sex" (JStr "ALL") ;;
   Ok [("nct_id", nct_id); ("title", title); ("phase", JStr phase_str);
       ("status", overall_status); ("conditions", condition_list);
       ("interventions", JArr intervention_names);
       ("eligibility_criteria", eligibility_text);
       ("min_age", min_age); ("max_age", max_age); ("sex", sex);
       ("sponsor", sponsor); ("locations", JArr locations)])%py.

(** [client.get(BASE_URL, params=params)] *)
Definition http_get (query_cond : json) (page_size : Z) : M (Z * string) :=
  fun tr =>
    ((tr ++ [RegistryGet query_cond page_size])%list,
     match registry_get tr query_cond page_size with
     | NetworkError => Raise ExternalError
     | HttpResponse status body => Ok (status, body)
     end).

(** [response.raise_for_status()]: anything but 2xx raises *)
Definition raise_for_status (status : Z) : result unit :=
  if (200 <=? status) && (status <? 300) then Ok tt else Raise ExternalError.

(** The statements of [search_trials] before its [try]: the value sent as
    [query.cond]. *)
Definition primary_condition (patient_profile : PatientProfile) (keywords : json)
    : result json :=
  (condition_keywords <- get keywords "condition_keywords"
                           (JArr [JStr (condition patient_profile)]) ;;
   if truthy condition_keywords
   then index condition_keywords 0
   else Ok (JStr (condition patient_profile)))%py.

Definition search_trials (patient_profile : PatientProfile) (max_results : Z)
    : M (list dict) :=
  keywords <~ LLMService.extract_search_keywords patient_profile ;;
  primary <~ lift (primary_condition patient_profile keywords) ;;
  try_except
    (response <~ http_get primary (Z.min max_results 20) ;;
     lift (_ <- raise_for_status (fst response) ;;
           data <- of_option JSONDecodeError (json_loads (snd response)) ;;
           studies <- get data "studies" (JArr []) ;;
           items <- iter studies ;;
           map_result _parse_study items)%py)
    (fun _ => ret []).

(** The evaluation used for a trial beyond the end of [evaluations]. *)
Definition evaluation_not_evaluated : json := JObj [
  ("fit_score", JInt 40);
  ("fit_category", JStr "weak");
  ("meets_criteria", JArr []);
  ("fails_criteria", JArr []);
  ("missing_info", JArr [JStr "Not evaluated"]);
  ("explanation", JStr "Trial needs manual review.")].

(** [nearest_site] of the loop body: the first listed location, no
    geocoding, no distance. *)
Definition first_location (trial : dict) : result (option Location) :=
  (locs <- getitem (JObj trial) "locations" ;;
   if truthy locs then
     first_loc <- index locs 0 ;;
     facility <- get first_loc "facility" (JStr "Unknown") ;;
     city <- get first_loc "city" (JStr "") ;;
     state <- get first_loc "state" (JStr "") ;;
     country <- get first_loc "country" (JStr "") ;;
     site <- new_Location facility city state country ;;
     Ok (Some site)
   else Ok None)%py.

(** The body of the [try] inside the loop, for the trial at index [i]. *)
Definition make_match (evaluations : json) (i : nat) (trial : dict)
    : result TrialMatch :=
  (n <- len evaluations ;;
   evaluation <- (if (i <? n)%nat then index evaluations i
                  else Ok evaluation_not_evaluated) ;;
   nearest_site <- first_location trial ;;
   nct_id <- getitem (JObj trial) "nct_id" ;;
   title <- getitem (JObj trial) "title" ;;
   phase <- getitem (JObj trial) "phase" ;;
   nct_id <- of_option ValidationError (validate_str nct_id) ;;
   title <- of_option ValidationError (validate_str title) ;;
   phase <- of_option ValidationError (validate_str phase) ;;
   fit_score <- get evaluation "fit_score" (JInt 40) ;;
   fit_category <- get evaluation "fit_category" (JStr "weak") ;;
   meets_criteria <- get evaluation "meets_criteria" (JArr []) ;;
   fails_criteria <- get evaluation "fails_criteria" (JArr []) ;;
   missing_info <- get evaluation "missing_info" (JArr []) ;;
   explanation <- get evaluation "explanation" (JStr "No explanation available.") ;;
   new_TrialMatch nct_id title phase fit_score fit_category nearest_site None
     meets_criteria fails_criteria missing_info explanation)%py.

(** [for i, trial in enumerate(trials)]: a trial whose body raises is
    skipped ([continue]). *)
Fixpoint build_matches (evaluations : json) (i : nat) (trials : list dict)
    : list TrialMatch :=
  match trials with
  | [] => []
  | trial :: rest =>
      match make_match evaluations i trial with
      | Ok m => m :: build_matches evaluations (S i) rest
      | Raise _ => build_matches evaluations (S i) rest
      end
  end.

Definition match_patient_to_trials (patient_profile : PatientProfile)
    (max_results : Z) : M (list TrialMatch) :=
  trials <~ search_trials patient_profile max_results ;;
  match trials with
  | [] => ret []
  | _ =>
      evaluations <~ LLMService.batch_evaluate_eligibility patient_profile trials ;;
      ret (PySort.sort_reverse fit_score Z.ltb (build_matches evaluations 0 trials))
  end.

End ClinicalTrialsService.
End ClinicalTrialsService.

(** ** clinical_radar_service.py *)

(** The grounded search reply: the text part and the web chunks of the
    first candidate's grounding metadata ([None] when any link of
    [candidates[0].grounding_metadata.grounding_chunks] is missing). *)
Record web_chunk : Type := {
  web_title : option string;
  web_uri : option string
}.

Record grounded_response : Type := {
  response_text : option string;
  grounding_chunks : option (list (option web_chunk))
}.

(** [client.models.generate_content] with the Google Search tool, given the
    treatment and today's date; [None] when the call raises.
    [error_message] is [str(e)] of a caught exception. *)
Class SearchOracle : Type := {
  grounded_generate : string -> string -> option grounded_response;
  error_message : exn -> string
}.

(** What an alert dict and an alert column hold ([Any] in the source;
    strings in every alert the scanner builds), with the equality the
    [WHERE] clause tests. *)
Class AlertValue : Type := {
  value : Type;
  value_eqb : value -> value -> bool;
  of_string : string -> value;
  value_eqb_eq : forall a b, value_eqb a b = true <-> a = b
}.

(** The briefing's collaborators: the Gemini model asked for a script on
    the alerts ([None] when the call or [response.text] raises), and the
    text-to-speech step that creates the directory and writes the audio
    file ([false] when it raises). *)
Class Narrator : Type := {
  briefing_script : list json -> option string;
  tts_save : string -> string -> bool
}.

Module ClinicalRadarService.

Definition dquote : ascii := "034"%char.

(** The literal ["drug"], quotes included. *)
Definition quoted_drug : string :=
  String dquote ("drug" ++ String dquote EmptyString).

Definition is_brace (c : ascii) : bool :=
  Ascii.eqb c "{"%char || Ascii.eqb c "}"%char.

(** The longest brace-free prefix of [s], and what follows it. *)
Fixpoint span_no_brace (s : string) : string * string :=
  match s with
  | String c s' =>
      if is_brace c then (EmptyString, s)
      else let '(body, rest) := span_no_brace s' in (String c body, rest)
  | EmptyString => (EmptyString, EmptyString)
  end.

(** A match of [\{[^{}]*"drug"[^{}]*\}] starting at the head of [s]:
    the brace-free run after the opening brace must end at a closing
    brace and contain the quoted key. *)
Definition match_here (s : string) : option string :=
  match s with
  | String c s' =>
      if Ascii.eqb c "{"%char then
        let '(body, rest) := span_no_brace s' in
        match rest with
        | String c' _ =>
            if Ascii.eqb c' "}"%char && contains body quoted_drug
            then Some (String c (body ++ "}"))
            else None
        | EmptyString => None
        end
      else None
  | EmptyString => None
  end.

(** [re.search(r'\{[^{}]*"drug"[^{}]*\}', text, re.DOTALL)]: the leftmost
    match; [.group()] is the matched text. *)
Fixpoint re_search_drug (text : string) : option string :=
  match match_here text with
  | Some m => Some m
  | None =>
      match text with
      | String _ text' => re_search_drug text'
      | EmptyString => None
      end
  end.

Definition or_default (o : option string) (default : string) : string :=
  match o with
  | Some s => if str_truthy s then s else default
  | None => default
  end.

(** Citations are [{title, url}] dicts. *)
Definition citation (title url : string) : json :=
  JObj [("title", JStr title); ("url", JStr url)].

Fixpoint collect_citations (chunks : list (option web_chunk)) : list json :=
  match chunks with
  | [] => []
  | Some web :: rest =>
      citation (or_default (web_title web) "Source") (or_default (web_uri web) "")
        :: collect_citations rest
  | None :: rest => collect_citations rest
  end.

Definition _extract_citations (response : grounded_response) : list json :=
  match grounding_chunks response with
  | Some chunks => collect_citations chunks
  | None => []
  end.

(** [data[k] = v] *)
Definition setitem (data : json) (k : string) (v : json) : result json :=
  match data with
  | JObj d => Ok (JObj (dict_set d k v))
  | _ => Raise TypeError
  end.

Section Search.

Context {codec : JsonCodec} {search : SearchOracle}.

(** The finding synthesised from raw text that is not JSON. *)
Definition finding_from_text (treatment today text : string) : json := JObj [
  ("drug", JStr treatment);
  ("found_update", JBool true);
  ("category", JStr "TRIAL_UPDATE");
  ("severity", JStr "medium");
  ("title", JStr ("Update for " ++ treatment));
  ("description", JStr (take 500 text));
  ("date", JStr today)].

(** The [try] body of [perform_ambient_search] once the reply is in. *)
Definition search_body (treatment today : string) (response : grounded_response)
    : result json :=
  let text := match response_text response with
              | Some t => if str_truthy t then strip t else ""
              | None => ""
              end in
  let citations := _extract_citations response in
  if negb (str_truthy text) then
    match citations with
    | first :: _ =>
        (source <- getitem first "title" ;;
         source_url <- getitem first "url" ;;
         Ok (JObj [
           ("drug", JStr treatment);
           ("found_update", JBool true);
           ("category", JStr "TRIAL_UPDATE");
           ("severity", JStr "medium");
           ("title", JStr ("Recent updates found for " ++ treatment));
           ("description", JStr ("Found " ++ str_of_nat (List.length citations)
                                  ++ " relevant sources with recent information."));
           ("date", JStr today);
           ("source", source);
           ("source_url", source_url);
           ("sources", JArr citations)]))%py
    | [] =>
        Ok (JObj [
          ("drug", JStr treatment);
          ("found_update", JBool false);
          ("description", JStr "No response from search");
          ("sources", JArr [])])
    end
  else
    let text := unfence text in
    (data <- match re_search_drug text with
             | Some json_match => of_option JSONDecodeError (json_loads json_match)
             | None =>
                 if str_truthy text then
                   match json_loads text with
                   | Some data => Ok data
                   | None => Ok (finding_from_text treatment today text)
                   end
                 else
                   Ok (JObj [
                     ("drug", JStr treatment);
                     ("found_update", JBool false);
                     ("description", JStr "No structured data returned");
                     ("sources", JArr [])])
             end ;;
     match citations with
     | first :: _ =>
         data <- setitem data "sources" (JArr citations) ;;
         source <- getitem first "title" ;;
         data <- setitem data "source" source ;;
         source_url <- getitem first "url" ;;
         setitem data "source_url" source_url
     | [] =>
         data <- setitem data "source" (JStr "Google Search") ;;
         data <- setitem data "source_url" (JStr "") ;;
         setitem data "sources" (JArr [])
     end)%py.

Definition search_failed (treatment : string) (e : exn) : json := JObj [
  ("drug", JStr treatment);
  ("found_update", JBool false);
  ("description", JStr ("Search error: " ++ error_message e));
  ("sources", JArr [])].

Definition perform_ambient_search (treatment today : string) : json :=
  match grounded_generate treatment today with
  | None => search_failed treatment ExternalError
  | Some response =>
      match search_body treatment today response with
      | Ok data => data
      | Raise e => search_failed treatment e
      end
  end.

End Search.

Section Alerts.

Context {av : AlertValue}.

Definition alert := list (string * value).

(** Modelled from the spec: the [RadarAlertORM] table class, which
    [models.py] does not define.  Its columns are the Alert fields the
    constructor call in [save_alerts] sets. *)
Record RadarAlertORM : Type := {
  drug : value;
  category : value;
  severity : value;
  title : value;
  description : value;
  source : value;
  source_url : option value;
  date : value;
  is_new : bool
}.

Fixpoint find (k : string) (d : alert) : option value :=
  match d with
  | [] => None
  | (k', v) :: d' => if String.eqb k k' then Some v else find k d'
  end.

(** [alert_data[k]] *)
Definition item (alert_data : alert) (k : string) : result value :=
  of_option KeyError (find k alert_data).

(** [alert_data.get(k, default)] *)
Definition get_or (alert_data : alert) (k : string) (default : string) : value :=
  match find k alert_data with Some v => v | None => of_string default end.

(** The session: rows already flushed to the database inside the current
    transaction, and objects added but not flushed yet.  A query flushes
    first (the session is created with the default [autoflush]). *)
Record session : Type := {
  flushed : list RadarAlertORM;
  pending : list RadarAlertORM
}.

Definition same_key (d t : value) (r : RadarAlertORM) : bool :=
  value_eqb (drug r) d && value_eqb (title r) t.

(** [db_session.execute(select(RadarAlertORM).where(drug == d, title == t))] *)
Definition execute_select (s : session) (d t : value)
    : session * list RadarAlertORM :=
  let rows := (flushed s ++ pending s)%list in
  ({| flushed := rows; pending := [] |}, filter (same_key d t) rows).

Definition scalar_one_or_none (rows : list RadarAlertORM)
    : result (option RadarAlertORM) :=
  match rows with
  | [] => Ok None
  | [r] => Ok (Some r)
  | _ => Raise MultipleResultsFound
  end.

(** [db_session.add(new_alert)] *)
Definition add (s : session) (r : RadarAlertORM) : session :=
  {| flushed := flushed s; pending := (pending s ++ [r])%list |}.

(** [db_session.commit()]: the table after the transaction *)
Definition commit (s : session) : list RadarAlertORM :=
  (flushed s ++ pending s)%list.

(** One iteration of the loop over [alerts]. *)
Definition save_alert (today : string) (s : session) (alert_data : alert)
    : result session :=
  (d <- item alert_data "drug" ;;
   t <- item alert_data "title" ;;
   let '(s, rows) := execute_select s d t in
   existing <- scalar_one_or_none rows ;;
   match existing with
   | Some _ => Ok s
   | None =>
       Ok (add s {|
         drug := d;
         category := get_or alert_data "category" "info";
         severity := get_or alert_data "severity" "low";
         title := t;
         description := get_or alert_data "description" "";
         source := get_or alert_data "source" "Unknown";
         source_url := find "source_url" alert_data;
         date := get_or alert_data "date" today;
         is_new := true |})
   end)%py.

Fixpoint save_loop (today : string) (s : session) (alerts : list alert)
    : result session :=
  match alerts with
  | [] => Ok s
  | alert_data :: rest =>
      (s' <- save_alert today s alert_data ;; save_loop today s' rest)%py
  end.

(** [save_alerts(db_session, alerts)] on a table holding [table]: the
    table after the commit, or the exception that left it untouched. *)
Definition save_alerts (today : string) (table : list RadarAlertORM)
    (alerts : list alert) : result (list RadarAlertORM) :=
  (s <- save_loop today {| flushed := table; pending := [] |} alerts ;;
   Ok (commit s))%py.

End Alerts.

(** The one column of [PatientORM] that [get_unique_treatments] reads
    (a nullable JSON list of strings), with the patient's id. *)
Record PatientORM : Type := {
  patient_id : string;
  orm_current_treatments : option (list string)
}.

(** [unique_treatments.add(clean_tx)] on a set kept in insertion order. *)
Definition set_add (x : string) (s : list string) : list string :=
  if existsb (String.eqb x) s then s else (s ++ [x])%list.

(** [clean_tx and clean_tx.lower() != "none" and len(clean_tx) > 2] *)
Definition keeps (clean_tx : string) : bool :=
  str_truthy clean_tx
  && negb (String.eqb (lower clean_tx) "none")
  && (2 <? String.length clean_tx)%nat.

Definition collect_treatments (unique_treatments : list string) (txs : list string)
    : list string :=
  fold_left (fun acc tx =>
               let clean_tx := strip tx in
               if keeps clean_tx then set_add clean_tx acc else acc)
            txs unique_treatments.

(** [get_unique_treatments(db_session)] over the rows of the patients
    table.  The set is listed in insertion order; Python leaves the order
    of [list(set)] unspecified. *)
Definition get_unique_treatments (patients : list PatientORM) : list string :=
  fold_left (fun acc p =>
               match orm_current_treatments p with
               | Some (tx :: txs) => collect_treatments acc (tx :: txs)
               | _ => acc
               end)
            patients [].

Section Briefing.

Context {narrator : Narrator}.


End Briefing.

End ClinicalRadarService.

(** ** ingestion.py *)

Module TrialIngestion.

(** The function [parse_age] nested in [parse_trial]: the digits of the
    age string read as one number, [None] for an empty string, "N/A" or
    a string without a digit. *)
Definition parse_age (age_str : string) : option Z :=
  if negb (str_truthy age_str) || String.eqb (lower age_str) "n/a" then None
  else int_of_digits (filter_chars isdigit age_str).

End TrialIngestion.

(* ===================================================================== *)
(** * Part II: what the specification says, and fixtures                 *)
(* ===================================================================== *)

(** ** Ranking order *)

Module RankingSpec.

(** Ascending distance, an absent distance after every present one. *)
Definition distance_le (a b : option float) : Prop :=
  match a, b with
  | Some x, Some y => (x <= y)%Q
  | _, None => True
  | None, Some _ => False
  end.

(** [a] may stand before [b]: higher score first, ties by distance. *)
Definition ranked_before (a b : TrialMatch) : Prop :=
  fit_score a > fit_score b \/
  (fit_score a = fit_score b /\ distance_le (distance_km a) (distance_km b)).

(** No match carries a distance of exactly zero. *)
Definition nonzero_distances (matches : list TrialMatch) : Prop :=
  forall m d, In m matches -> distance_km m = Some d -> ~ (d == 0)%Q.

(** The order the sort key of [MatchingEngine] induces. *)
Definition efloat_le (a b : efloat) : Prop :=
  match a, b with
  | Fin x, Fin y => (x <= y)%Q
  | _, Inf => True
  | Inf, Fin _ => False
  end.

Definition key_le (a b : Z * efloat) : Prop :=
  fst a < fst b \/ (fst a = fst b /\ efloat_le (snd a) (snd b)).

Definition sorted_by_key (matches : list TrialMatch) : Prop :=
  Sorted (fun a b => key_le (MatchingEngine.sort_key a) (MatchingEngine.sort_key b))
         matches.


(** Descending score alone, as the registry pipeline sorts. *)
Definition score_desc (a b : TrialMatch) : Prop := fit_score a >= fit_score b.

End RankingSpec.

(** ** Nearest site *)

Module NearestSpec.
Section NearestSpec.

Context {geodesy : Geodesy}.

(** The distance of a candidate the scan takes into account: both
    coordinates present and non-zero, and a non-zero distance that
    [geodesic] could compute. *)
Definition considered_distance (p : float * float) (loc : Location) : option float :=
  match lat loc, lng loc with
  | Some la, Some ln =>
      if float_truthy la && float_truthy ln then
        match geodesic p (la, ln) with
        | Some d => if float_truthy d then Some d else None
        | None => None
        end
      else None
  | _, _ => None
  end.

(** [site] at distance [d] is the first of the nearest considered
    candidates of [locs]. *)
Definition first_nearest (p : float * float) (locs : list Location)
    (site : Location) (d : float) : Prop :=
  exists before after,
    locs = (before ++ site :: after)%list /\
    considered_distance p site = Some d /\
    (forall l d', In l before -> considered_distance p l = Some d' -> (d < d')%Q) /\
    (forall l d', In l after -> considered_distance p l = Some d' -> (d <= d')%Q).

(** What the scan has found after the candidates [seen]. *)
Definition scanned (p : float * float) (seen : list Location)
    (st : option Location * efloat) : Prop :=
  (st = (None, Inf) /\ forall l, In l seen -> considered_distance p l = None) \/
  (exists site d, st = (Some site, Fin d) /\ first_nearest p seen site d).

End NearestSpec.
End NearestSpec.

(** ** Oracle replies and evaluations *)

Module EvaluationSpec.
Section EvaluationSpec.

Context {codec : JsonCodec} {pydantic : Pydantic}.

(** What a reply decodes to once stripped of blanks and code fences;
    [None] when the call failed or the text is not JSON. *)
Definition decoded (reply : option string) : option json :=
  match reply with
  | Some text => json_loads (unfence (strip text))
  | None => None
  end.

(** The profile a reply yields; [None] on oracle, parse or validation
    failure. *)
Definition decoded_profile (reply : option string) : option PatientProfile :=
  match decoded reply with
  | Some data => validate_profile data
  | None => None
  end.

(** The evaluation carries an integer score and the category of its
    band. *)
Definition agrees_with_band (evaluation : json) : Prop :=
  exists score category,
    getitem evaluation "fit_score" = Ok (JInt score) /\
    getitem evaluation "fit_category" = Ok (JStr category) /\
    LLMService.fit_category_band score = Some category.

(** The placeholder of the padding step. *)
Definition not_completed_placeholder (evaluation : json) : Prop :=
  getitem evaluation "fit_score" = Ok (JInt 40) /\
  getitem evaluation "fit_category" = Ok (JStr "weak") /\
  getitem evaluation "meets_criteria" = Ok (JArr []) /\
  getitem evaluation "fails_criteria" = Ok (JArr []) /\
  getitem evaluation "missing_info" = Ok (JArr [JStr "Evaluation not completed"]).

End EvaluationSpec.
End EvaluationSpec.

(** ** The registry pipeline *)

Module PipelineSpec.
Section PipelineSpec.

Context {codec : JsonCodec} {pydantic : Pydantic}.

(** An oracle call that asks for eligibility evaluation. *)
Definition is_evaluation_call (ev : event) : bool :=
  match ev with
  | Generate (EligibilityPrompt _ _ _ _) => true
  | Generate (BatchPrompt _ _) => true
  | _ => false
  end.

(** The registry request failed: network error or a status outside 2xx. *)
Definition request_failed (o : http_outcome) : Prop :=
  match o with
  | NetworkError => True
  | HttpResponse status _ => ~ (200 <= status < 300)
  end.

(** The registry answered with zero studies. *)
Definition zero_studies (o : http_outcome) : Prop :=
  match o with
  | NetworkError => False
  | HttpResponse status body =>
      200 <= status < 300 /\
      exists data, json_loads body = Some data /\
                   get data "studies" (JArr []) = Ok (JArr [])
  end.

(** The locations a trial record lists. *)
Definition listed_locations (trial : dict) : option (list json) :=
  match lookup "locations" trial with
  | Some (JArr locs) => Some locs
  | _ => None
  end.

(** [site] is the [Location] made of the facility, city, state and
    country of the record [loc], without coordinates. *)
Definition site_of (loc : json) (site : Location) : Prop :=
  exists f c s k,
    get loc "facility" (JStr "Unknown") = Ok f /\
    get loc "city" (JStr "") = Ok c /\
    get loc "state" (JStr "") = Ok s /\
    get loc "country" (JStr "") = Ok k /\
    validate_str f = Some (facility site) /\
    validate_str c = Some (city site) /\
    validate_opt_str s = Some (state site) /\
    validate_str k = Some (country site) /\
    lat site = None /\ lng site = None.

(** [m] carries the identifying fields of [trial]. *)
Definition identifies (trial : dict) (m : TrialMatch) : Prop :=
  exists n t p,
    lookup "nct_id" trial = Some n /\ validate_str n = Some (nct_id m) /\
    lookup "title" trial = Some t /\ validate_str t = Some (title m) /\
    lookup "phase" trial = Some p /\ validate_str p = Some (phase m).

(** What the registry pipeline puts in [nearest_site] and
    [distance_km]. *)
Definition first_site_no_distance (trial : dict) (m : TrialMatch) : Prop :=
  distance_km m = None /\
  exists locs,
    listed_locations trial = Some locs /\
    match locs with
    | [] => nearest_site m = None
    | loc :: _ => exists site, nearest_site m = Some site /\ site_of loc site
    end.

End PipelineSpec.
End PipelineSpec.

(** ** Registry records *)

Module RecordSpec.

(** The keys of a record [_parse_study] returns, in order. *)
Definition record_keys : list string :=
  ["nct_id"; "title"; "phase"; "status"; "conditions"; "interventions";
   "eligibility_criteria"; "min_age"; "max_age"; "sex"; "sponsor"; "locations"].

(** A location as [_parse_study] lists it: four fields from the registry
    and no coordinates. *)
Definition parsed_location (loc : json) : Prop :=
  exists f c s k,
    loc = JObj [("facility", f); ("city", c); ("state", s); ("country", k);
                ("lat", JNull); ("lng", JNull)].

(** The shape of a parsed record. *)
Definition well_formed_record (trial : dict) : Prop :=
  map fst trial = record_keys /\
  (exists phase, lookup "phase" trial = Some (JStr phase)) /\
  (exists names, lookup "interventions" trial = Some (JArr names)) /\
  exists locs,
    lookup "locations" trial = Some (JArr locs) /\
    (List.length locs <= 10)%nat /\
    Forall parsed_location locs.

End RecordSpec.

(** ** Batch replies *)

Module BatchSpec.
Section BatchSpec.

(** The slice [[:1500]] of the prompt loop works on this trial: its
    eligibility criteria are absent, a string or a list. *)
Definition criteria_sliceable (trial : dict) : Prop :=
  match lookup "eligibility_criteria" trial with
  | None => True
  | Some (JStr _) => True
  | Some (JArr _) => True
  | Some _ => False
  end.

(** A decoded reply the padding step cannot use for [n] trials: nothing
    decoded, a value without length, or a non-array shorter than [n]. *)
Definition unusable_for (n : nat) (reply : option json) : Prop :=
  match reply with
  | None => True
  | Some (JArr _) => False
  | Some v => match len v with
              | Ok k => (k < n)%nat
              | Raise _ => True
              end
  end.

(** [m] is the match of [trial] for [patient]: its identifying fields,
    and the site and distance [find_nearest_site] gives. *)
Definition match_of {geodesy : Geodesy} (patient : PatientProfile) (trial : Trial)
    (m : TrialMatch) : Prop :=
  nct_id m = trial_nct_id trial /\ title m = trial_title trial /\
  phase m = trial_phase trial /\
  (nearest_site m, distance_km m)
  = MatchingEngine.find_nearest_site (MatchingEngine.patient_coords patient)
      (locations trial).

(** The oracle call the single-trial path makes for [trial]. *)
Definition evaluation_call (patient : PatientProfile) (trial : Trial) : event :=
  Generate (EligibilityPrompt patient (eligibility_criteria_raw trial)
              (trial_title trial) (trial_phase trial)).

End BatchSpec.
End BatchSpec.

(** ** The ambient scan *)

Module ScanSpec.

Import ClinicalRadarService.

(** No brace occurs in [s]. *)
Fixpoint brace_free (s : string) : bool :=
  match s with
  | EmptyString => true
  | String c s' => negb (is_brace c) && brace_free s'
  end.

(** A citation with a title that is not empty. *)
Definition titled_citation (c : json) : Prop :=
  exists t u, c = citation t u /\ t <> "".

(** The reply has no usable text: none, empty, or blank. *)
Definition no_text (response : grounded_response) : Prop :=
  match response_text response with
  | None => True
  | Some raw => strip raw = ""
  end.

(** The source fields the scan writes for the citations it extracted:
    source, source_url, sources. *)
Definition source_fields (citations : list json) : json * json * json :=
  match citations with
  | JObj c :: _ =>
      (dict_get c "title" JNull, dict_get c "url" JNull, JArr citations)
  | _ => (JStr "Google Search", JStr "", JArr [])
  end.

(** The text yields the dict [d]: through the object the regular
    expression finds, or, when it finds none, through the whole text. *)
Definition body_decodes_to {codec : JsonCodec} (text : string) (d : dict) : Prop :=
  (exists m, re_search_drug text = Some m /\ json_loads m = Some (JObj d)) \/
  (re_search_drug text = None /\ text <> "" /\ json_loads text = Some (JObj d)).

End ScanSpec.

(** ** Code fences *)

Module FenceSpec.



End FenceSpec.

(** ** The radar *)

Module RadarSpec.
Section RadarSpec.

Context {av : AlertValue}.
Import ClinicalRadarService.

(** How many stored alerts carry the key [(d, t)]. *)
Definition key_count (d t : value) (table : list RadarAlertORM) : nat :=
  List.length (filter (same_key d t) table).

(** No two stored alerts share a [(drug, title)] pair. *)
Definition unique_keys (table : list RadarAlertORM) : Prop :=
  forall d t, (key_count d t table <= 1)%nat.

(** Every row the session holds, flushed or pending. *)
Definition session_rows (s : session) : list RadarAlertORM :=
  (flushed s ++ pending s)%list.

(** The alert dict has both key fields. *)
Definition has_key (alert_data : alert) : Prop :=
  exists d t, find "drug" alert_data = Some d /\ find "title" alert_data = Some t.

End RadarSpec.
End RadarSpec.

(** ** Fixtures *)

Module Fixtures.

(** A decoder that knows the listed texts and rejects every other one. *)
Fixpoint table_loads (table : list (string * json)) (text : string) : option json :=
  match table with
  | [] => None
  | (t, v) :: rest => if String.eqb text t then Some v else table_loads rest text
  end.

Definition table_codec (table : list (string * json)) : JsonCodec :=
  {| json_loads := table_loads table |}.

(** An oracle that always gives the same reply. *)
Definition fixed_oracle (reply : option string) : Oracle :=
  {| image_open := fun _ => true; generate_content := fun _ _ => reply |}.

(** Validation as pydantic does it for the JSON types that occur here:
    a string is a [str], an integer an [int], an array of strings a
    [List[str]], [null] or a string an [Optional[str]].  Of the profiles
    only the one-field dict with a string [condition] is needed and
    accepted. *)
Fixpoint strings_of (l : list json) : option (list string) :=
  match l with
  | [] => Some []
  | JStr s :: rest =>
      match strings_of rest with Some r => Some (s :: r) | None => None end
  | _ => None
  end.

Definition strict_pydantic : Pydantic := {|
  validate_str := fun v => match v with JStr s => Some s | _ => None end;
  validate_int := fun v => match v with JInt z => Some z | _ => None end;
  validate_str_list := fun v => match v with JArr l => strings_of l | _ => None end;
  validate_opt_str := fun v =>
    match v with JStr s => Some (Some s) | JNull => Some None | _ => None end;
  validate_profile := fun v =>
    match v with
    | JObj [("condition", JStr c)] => Some (PatientProfile_of_condition c)
    | _ => None
    end
|}.

Definition quote (s : string) : string :=
  String ClinicalRadarService.dquote (s ++ String ClinicalRadarService.dquote "").

(** The JSON text of a value built from strings without escapes,
    integers, booleans, arrays and objects, as [json.dumps] prints it;
    every fixture text is the print of the value it decodes to.  (Floats
    do not occur in them and are printed as a fraction.) *)
Fixpoint dumps (v : json) : string :=
  match v with
  | JNull => "null"
  | JBool b => if b then "true" else "false"
  | JInt z => NilZero.string_of_int (Z.to_int z)
  | JFloat q => NilZero.string_of_int (Z.to_int (Qnum q)) ++ "/"
                ++ NilZero.string_of_int (Pos.to_int (Qden q))
  | JStr s => quote s
  | JArr l =>
      "[" ++ (fix items (l : list json) : string :=
                match l with
                | [] => ""
                | x :: rest =>
                    match rest with
                    | [] => dumps x
                    | _ => dumps x ++ ", " ++ items rest
                    end
                end) l ++ "]"
  | JObj kv =>
      "{" ++ (fix members (kv : list (string * json)) : string :=
                match kv with
                | [] => ""
                | (k, x) :: rest =>
                    match rest with
                    | [] => quote k ++ ": " ++ dumps x
                    | _ => quote k ++ ": " ++ dumps x ++ ", " ++ members rest
                    end
                end) kv ++ "}"
  end.

Definition a_patient : PatientProfile := PatientProfile_of_condition "NSCLC".

Definition a_trial (nct : string) : dict :=
  [("nct_id", JStr nct); ("title", JStr ("Trial " ++ nct));
   ("phase", JStr "PHASE2"); ("eligibility_criteria", JStr "Adults with NSCLC");
   ("locations", JArr [])].

(** An oracle evaluation whose category contradicts its score. *)
Definition inconsistent_evaluation : json :=
  JObj [("fit_score", JInt 90); ("fit_category", JStr "weak")].

Definition inconsistent_text : string := dumps inconsistent_evaluation.

(** A batch reply with two entries. *)
Definition two_entries : list json :=
  [JObj [("fit_score", JInt 85); ("fit_category", JStr "strong")];
   JObj [("fit_score", JInt 10); ("fit_category", JStr "ineligible")]].

Definition two_entries_text : string := dumps (JArr two_entries).

Definition fixture_codec : JsonCodec :=
  table_codec [(inconsistent_text, inconsistent_evaluation);
               (two_entries_text, JArr two_entries)].

Definition a_match (nct : string) (score : Z) (dist : option float) : TrialMatch := {|
  nct_id := nct; title := "Trial " ++ nct; phase := "PHASE2";
  fit_score := score; fit_category := "moderate";
  nearest_site := None; distance_km := dist;
  meets_criteria := []; fails_criteria := []; missing_info := [];
  explanation := "" |}.

(** Two matches with equal scores, the first at distance zero. *)
Definition m_here : TrialMatch := a_match "NCT01" 50 (Some 0%Q).
Definition m_far : TrialMatch := a_match "NCT02" 50 (Some 5%Q).

(** An unsorted candidate list and a ranked one. *)
Definition candidates : list TrialMatch :=
  [a_match "NCT10" 70 (Some 12%Q); a_match "NCT11" 90 None;
   a_match "NCT12" 70 (Some 3%Q); a_match "NCT13" 70 (Some 12%Q)].


Definition site (name : string) (la ln : Q) : Location := {|
  facility := name; city := name; state := None; country := "India";
  lat := Some la; lng := Some ln |}.

(** A stand-in for [geodesic] on a small flat map: 111 km per degree
    along each axis.  Coincident points are at distance zero, as with
    geopy. *)
Definition flat_geodesy : Geodesy := {|
  geodesic := fun a b =>
    Some (111 * (Qabs.Qabs (fst a - fst b) + Qabs.Qabs (snd a - snd b)))%Q
|}.

(** An oracle that fails on the keyword prompt (so the condition itself
    is searched) and answers the batch prompt with [batch_reply]. *)
Definition scripted_oracle (batch_reply : option string) : Oracle := {|
  image_open := fun _ => true;
  generate_content := fun _ p =>
    match p with
    | BatchPrompt _ _ => batch_reply
    | _ => None
    end
|}.

Definition fixed_registry (o : http_outcome) : Registry :=
  {| registry_get := fun _ _ _ => o |}.

Definition a_study (nct : string) (locs : list json) : json :=
  JObj [("protocolSection", JObj [
    ("identificationModule",
       JObj [("nctId", JStr nct); ("briefTitle", JStr ("Trial " ++ nct))]);
    ("contactsLocationsModule", JObj [("locations", JArr locs)])])].

Definition a_location (name : string) : json :=
  JObj [("facility", JStr name); ("city", JStr "Chennai"); ("country", JStr "India")].

Definition two_studies : json :=
  JObj [("studies", JArr [a_study "NCT01" [a_location "Apollo"; a_location "Adyar"];
                          a_study "NCT02" []])].

Definition no_studies : json := JObj [("studies", JArr [])].

Definition registry_codec : JsonCodec :=
  table_codec [(dumps two_studies, two_studies);
               (dumps no_studies, no_studies);
               (two_entries_text, JArr two_entries)].

(** Trials with sites, and a patient in Chennai, for the single-trial
    path. *)
Definition a_full_trial (nct : string) (locs : list Location) : Trial := {|
  trial_nct_id := nct; trial_title := "Trial " ++ nct; trial_phase := "PHASE2";
  trial_status := "RECRUITING"; trial_conditions := ["NSCLC"];
  trial_interventions := []; eligibility_criteria_raw := "Adults with NSCLC";
  eligibility_parsed := None; min_age := None; max_age := None;
  trial_sex := "ALL"; locations := locs; sponsor := "Sponsor";
  last_updated := "2026-01-01" |}.

Definition a_located_patient : PatientProfile := {|
  condition := "NSCLC"; condition_normalized := None; histology := None;
  stage := None; line_of_therapy := None; prior_treatments := [];
  current_treatments := None; biomarkers := []; ecog := None; age := None;
  sex := None; cns_involvement := None; metastatic_sites := None;
  comorbidities := None; organ_function := None;
  location := Some {| input_city := "Chennai"; input_country := "India";
                      input_lat := Some 13%Q; input_lng := Some 80%Q |} |}.

Definition engine_trials : list Trial :=
  [a_full_trial "NCT20" [site "Delhi" 28 77];
   a_full_trial "NCT21" [site "Vellore" 12 79; site "Mumbai" 19 72];
   a_full_trial "NCT22" []].

Definition engine_matches : list TrialMatch :=
  match snd (MatchingEngine.match_patient_to_trials (codec := fixture_codec)
               (pydantic := strict_pydantic)
               (oracle := fixed_oracle (Some inconsistent_text))
               (geodesy := flat_geodesy) a_located_patient engine_trials 2 []) with
  | Ok matches => matches
  | Raise _ => []
  end.

(** A parsed record, and a page in which one entry is not an object. *)
Definition a_record : dict :=
  match ClinicalTrialsService._parse_study
          (a_study "NCT01" [a_location "Apollo"; a_location "Adyar"]) with
  | Ok trial => trial
  | Raise _ => []
  end.

Definition mixed_page : json :=
  JObj [("studies", JArr [a_study "NCT01" []; JStr "withdrawn"])].

Definition mixed_codec : JsonCodec :=
  table_codec [(dumps mixed_page, mixed_page); (dumps two_studies, two_studies)].

(** A grounded search that always answers [reply]. *)
Definition fixed_search (reply : option grounded_response) : SearchOracle := {|
  grounded_generate := fun _ _ => reply;
  error_message := fun _ => "error"
|}.


(** A reply whose JSON names its own sources, with two grounding chunks,
    the second without a title. *)
Definition self_sourced : json :=
  JObj [("drug", JStr "Drug-X"); ("found_update", JBool true);
        ("title", JStr "Label change"); ("source", JStr "made up");
        ("sources", JArr [JStr "made up"])].

Definition grounded_reply : grounded_response := {|
  response_text := Some (dumps self_sourced);
  grounding_chunks := Some
    [Some {| web_title := Some "FDA"; web_uri := Some "https://fda.example/a" |};
     None;
     Some {| web_title := None; web_uri := Some "https://news.example/b" |}]
|}.

Definition blank_reply : grounded_response := {|
  response_text := Some "   ";
  grounding_chunks := grounding_chunks grounded_reply
|}.

Definition scan_codec : JsonCodec := table_codec [(dumps self_sourced, self_sourced)].

(** A keyword reply that is a bare list instead of the object asked for. *)
Definition bare_list : json := JArr [JStr "lung cancer"; JStr "NSCLC"].

Definition bare_list_codec : JsonCodec := table_codec [(dumps bare_list, bare_list)].

(** Alert values as strings. *)
Definition string_values : AlertValue := {|
  value := string;
  value_eqb := String.eqb;
  of_string := fun s => s;
  value_eqb_eq := String.eqb_eq
|}.

Definition an_alert (drug title description : string)
    : ClinicalRadarService.alert (av := string_values) :=
  [("drug", drug); ("title", title); ("description", description)].

(** The row stored for [an_alert "osimertinib" "FDA label update"
    "first report"] on 2026-01-15. *)
Definition stored_row : ClinicalRadarService.RadarAlertORM (av := string_values) :=
  @ClinicalRadarService.Build_RadarAlertORM string_values
    "osimertinib" "info" "low" "FDA label update" "first report" "Unknown"
    None "2026-01-15" true.

(** The trials and matches of the scenario "registry returns two
    studies, oracle evaluates both". *)
Definition retrieved_trials : list dict :=
  match snd (ClinicalTrialsService.search_trials (codec := registry_codec)
               (oracle := scripted_oracle (Some two_entries_text))
               (registry := fixed_registry (HttpResponse 200 (dumps two_studies)))
               a_patient 10 []) with
  | Ok trials => trials
  | Raise _ => []
  end.

Definition returned_matches : list TrialMatch :=
  match snd (ClinicalTrialsService.match_patient_to_trials (codec := registry_codec)
               (pydantic := strict_pydantic)
               (oracle := scripted_oracle (Some two_entries_text))
               (registry := fixed_registry (HttpResponse 200 (dumps two_studies)))
               a_patient 10 []) with
  | Ok matches => matches
  | Raise _ => []
  end.

End Fixtures.

(* ===================================================================== *)
(** * Part III: properties                                               *)
(* ===================================================================== *)

(** ** Python slices *)

Section SliceFacts.

Variable A : Type.

Lemma slice_to_nonneg (n : Z) (l : list A) :
  0 <= n -> slice_to n l = firstn (Z.to_nat n) l.
Proof.
  intros Hn. unfold slice_to.
  destruct (0 <=? n) eqn:E; [reflexivity | apply Z.leb_gt in E; lia].
Qed.

Lemma slice_to_length (n : Z) (l : list A) :
  0 <= n -> Z.of_nat (List.length (slice_to n l)) <= n.
Proof.
  intros Hn. rewrite slice_to_nonneg by assumption.
  rewrite List.length_firstn. lia.
Qed.


Lemma slice_to_prefix (n : Z) (l : list A) :
  exists dropped, (slice_to n l ++ dropped)%list = l.
Proof.
  unfold slice_to. destruct (0 <=? n).
  - exists (skipn (Z.to_nat n) l). apply firstn_skipn.
  - exists (skipn (List.length l - Z.to_nat (- n)) l). apply firstn_skipn.
Qed.

End SliceFacts.

(** ** Strings, fences and the regular expression, on examples *)

Section PrimitiveExamples.

Import ClinicalRadarService.
Import Fixtures.

Example slice_to_negative : slice_to (-1) [1; 2; 3] = [1; 2].
Proof. reflexivity. Qed.

Example slice_to_below_start : slice_to (-5) [1; 2; 3] = [].
Proof. reflexivity. Qed.

Example strip_blanks : strip (String "009" (" [1] " ++ String "010" "")) = "[1]".
Proof. reflexivity. Qed.

Example unfence_json_block :
  unfence (strip ("```json" ++ String "010" ("[1, 2]" ++ String "010" "```")))
  = "[1, 2]".
Proof. reflexivity. Qed.

Example unfence_only_fences : unfence (strip "```json```") = "".
Proof. reflexivity. Qed.

Example re_search_finds_object :
  re_search_drug ("Summary: {" ++ quote "drug" ++ ": 1} and {" ++ quote "drug" ++ "}")
  = Some ("{" ++ quote "drug" ++ ": 1}").
Proof. reflexivity. Qed.

Example re_search_skips_outer_brace :
  re_search_drug ("{" ++ quote "a" ++ ": {" ++ quote "drug" ++ ": 1}}")
  = Some ("{" ++ quote "drug" ++ ": 1}").
Proof. reflexivity. Qed.

Example re_search_needs_quoted_key : re_search_drug "{drug: 1}" = None.
Proof. reflexivity. Qed.

Example sort_is_stable :
  map nct_id (PySort.sort MatchingEngine.sort_key MatchingEngine.key_ltb candidates)
  = ["NCT11"; "NCT12"; "NCT10"; "NCT13"].
Proof. reflexivity. Qed.

End PrimitiveExamples.

(** ** The stable sort *)

Section SortFacts.

Variables (A K : Type) (key : A -> K) (ltb : K -> K -> bool).

Local Abbreviation insert := (PySort.insert key ltb).
Local Abbreviation sort := (PySort.sort key ltb).

Local Abbreviation not_after := (PySort.not_after key ltb).

Lemma insert_perm (x : A) (l : list A) : Permutation (insert x l) (x :: l).
Proof.
  induction l as [| y l IH]; simpl.
  - apply Permutation_refl.
  - destruct (ltb (key y) (key x)).
    + eapply Permutation_trans; [apply perm_skip, IH | apply perm_swap].
    + apply Permutation_refl.
Qed.

Lemma sort_perm (l : list A) : Permutation (sort l) l.
Proof.
  induction l as [| x l IH]; simpl.
  - apply perm_nil.
  - eapply Permutation_trans; [apply insert_perm | apply perm_skip, IH].
Qed.

Lemma sort_length (l : list A) : List.length (sort l) = List.length l.
Proof. apply Permutation_length, sort_perm. Qed.


(** Stability: elements that are pairwise tied keep their input order. *)
Lemma insert_filter_tied (P : A -> bool) (x : A) (l : list A) :
  (forall a b, P a = true -> P b = true -> ltb (key a) (key b) = false) ->
  filter P (insert x l) = filter P (x :: l).
Proof.
  intros Htied. induction l as [| y l IH]; [reflexivity |].
  simpl. destruct (ltb (key y) (key x)) eqn:Hlt; [| reflexivity].
  simpl. rewrite IH. simpl.
  destruct (P x) eqn:Px, (P y) eqn:Py; try reflexivity.
  rewrite (Htied y x Py Px) in Hlt. discriminate.
Qed.

Lemma sort_filter_tied (P : A -> bool) (l : list A) :
  (forall a b, P a = true -> P b = true -> ltb (key a) (key b) = false) ->
  filter P (sort l) = filter P l.
Proof.
  intros Htied. induction l as [| x l IH]; [reflexivity |].
  simpl PySort.sort. rewrite insert_filter_tied by assumption.
  simpl. now rewrite IH.
Qed.

Hypothesis ltb_asym : forall a b, ltb a b = true -> ltb b a = false.

Lemma insert_hd (y x : A) (l : list A) :
  not_after y x -> HdRel not_after y l -> HdRel not_after y (insert x l).
Proof.
  intros Hyx Hhd. destruct l as [| z l]; simpl.
  - now constructor.
  - destruct (ltb (key z) (key x)); constructor; [now inversion Hhd | assumption].
Qed.

Lemma insert_sorted (x : A) (l : list A) :
  Sorted not_after l -> Sorted not_after (insert x l).
Proof.
  induction 1 as [| y l Hs IH Hhd]; simpl.
  - repeat constructor.
  - destruct (ltb (key y) (key x)) eqn:Hlt.
    + constructor; [exact IH |].
      apply insert_hd; [| exact Hhd].
      unfold PySort.not_after. now apply ltb_asym.
    + constructor; [now constructor |]. now constructor.
Qed.

Lemma sort_sorted (l : list A) : Sorted not_after (sort l).
Proof.
  induction l as [| x l IH]; simpl; [constructor | now apply insert_sorted].
Qed.

End SortFacts.

Section SortedFacts.

Variables (A : Type) (R : A -> A -> Prop).

Lemma Sorted_firstn (n : nat) (l : list A) : Sorted R l -> Sorted R (firstn n l).
Proof.
  revert l. induction n as [| n IH]; intros l Hs; simpl; [constructor |].
  destruct Hs as [| x l Hs Hhd]; [constructor |].
  constructor; [now apply IH |].
  destruct Hhd; destruct n; simpl; now constructor.
Qed.

Lemma Sorted_weaken (R' : A -> A -> Prop) (l : list A) :
  (forall a b, In a l -> In b l -> R a b -> R' a b) ->
  Sorted R l -> Sorted R' l.
Proof.
  intros Himp Hs. induction Hs as [| x l Hs IH Hhd]; constructor.
  - apply IH. intros a b Ha Hb. apply Himp; now right.
  - destruct Hhd as [| y l' Hxy]; constructor.
    apply Himp; simpl; auto.
Qed.

End SortedFacts.

(** ** The ranking order of [MatchingEngine] *)

Section RankingFacts.

Import RankingSpec.
Import MatchingEngine.

Lemma efloat_leb_le (a b : efloat) : efloat_leb a b = true <-> efloat_le a b.
Proof.
  destruct a as [x |], b as [y |]; simpl; try tauto.
  - apply Qle_bool_iff.
  - split; [discriminate | tauto].
Qed.

Lemma efloat_le_total (a b : efloat) : efloat_leb b a = false -> efloat_le a b.
Proof.
  destruct a as [x |], b as [y |]; simpl; try tauto; try discriminate.
  intros Hf. apply Qlt_le_weak, Qnot_le_lt. intros Hle.
  apply Qle_bool_iff in Hle. congruence.
Qed.

Lemma efloat_le_trans (a b c : efloat) :
  efloat_le a b -> efloat_le b c -> efloat_le a c.
Proof.
  destruct a, b, c; simpl; try tauto. apply Qle_trans.
Qed.

Lemma key_not_ltb (a b : Z * efloat) : key_ltb b a = false <-> key_le a b.
Proof.
  destruct a as [a1 a2], b as [b1 b2]. unfold key_ltb, key_le, efloat_ltb. simpl.
  rewrite orb_false_iff, andb_false_iff, Z.ltb_ge, Z.eqb_neq, negb_false_iff,
    efloat_leb_le.
  destruct (Z.eq_dec a1 b1) as [-> | Hne]; split; intros Hk.
  - right. split; [reflexivity |]. destruct Hk as [_ [Hk | Hk]]; [congruence | exact Hk].
  - split; [lia |]. right. destruct Hk as [Hk | [_ Hk]]; [lia | exact Hk].
  - left. lia.
  - split; [lia | left; congruence].
Qed.

Lemma key_ltb_asym (a b : Z * efloat) : key_ltb a b = true -> key_ltb b a = false.
Proof.
  intros Hlt. apply key_not_ltb.
  destruct a as [a1 a2], b as [b1 b2]. unfold key_ltb, key_le, efloat_ltb in *.
  simpl in *. apply orb_true_iff in Hlt. destruct Hlt as [Hlt | Hlt].
  - left. now apply Z.ltb_lt.
  - apply andb_true_iff in Hlt. destruct Hlt as [He Hlt].
    right. split; [now apply Z.eqb_eq |].
    apply efloat_le_total. now apply negb_true_iff.
Qed.

Lemma not_after_key_le (a b : TrialMatch) :
  PySort.not_after sort_key key_ltb a b <-> key_le (sort_key a) (sort_key b).
Proof. apply key_not_ltb. Qed.

Lemma sort_matches_sorted (matches : list TrialMatch) :
  sorted_by_key (PySort.sort sort_key key_ltb matches).
Proof.
  unfold sorted_by_key.
  apply Sorted_weaken with (R := PySort.not_after sort_key key_ltb).
  - intros a b _ _. apply not_after_key_le.
  - apply sort_sorted. apply key_ltb_asym.
Qed.


(** With non-zero distances the key order is the order of the
    specification. *)
Lemma truthy_nonzero (d : Q) : ~ (d == 0)%Q -> float_truthy d = true.
Proof.
  intros Hd. unfold float_truthy. apply negb_true_iff.
  destruct (Qeq_bool d 0) eqn:E; [| reflexivity].
  apply Qeq_bool_iff in E. contradiction.
Qed.

Lemma key_le_ranked_before (a b : TrialMatch) :
  (forall d, distance_km a = Some d -> ~ (d == 0)%Q) ->
  (forall d, distance_km b = Some d -> ~ (d == 0)%Q) ->
  key_le (sort_key a) (sort_key b) -> ranked_before a b.
Proof.
  intros Ha Hb. unfold key_le, ranked_before, sort_key. simpl.
  intros [Hlt | [He Hd]]; [left; lia | right].
  split; [lia |].
  destruct (distance_km a) as [x |], (distance_km b) as [y |]; simpl;
    try rewrite (truthy_nonzero (Ha x eq_refl)) in Hd;
    try rewrite (truthy_nonzero (Hb y eq_refl)) in Hd;
    simpl in Hd; tauto.
Qed.

Lemma distance_le_trans (a b c : option float) :
  distance_le a b -> distance_le b c -> distance_le a c.
Proof.
  destruct a, b, c; simpl; try tauto. apply Qle_trans.
Qed.

Lemma ranked_before_trans (a b c : TrialMatch) :
  ranked_before a b -> ranked_before b c -> ranked_before a c.
Proof.
  unfold ranked_before. intros [H1 | [H1 D1]] [H2 | [H2 D2]];
    try (left; lia).
  right. split; [congruence | eapply distance_le_trans; eassumption].
Qed.


Lemma rank_matches_In (matches : list TrialMatch) (max_results : Z) (m : TrialMatch) :
  In m (rank_matches matches max_results) -> In m matches.
Proof.
  unfold rank_matches. intros Hin.
  destruct (slice_to_prefix max_results (PySort.sort sort_key key_ltb matches))
    as [dropped Hd].
  eapply Permutation_in; [apply sort_perm |].
  rewrite <- Hd. apply in_or_app. now left.
Qed.

Lemma rank_matches_sorted_by_key (matches : list TrialMatch) (max_results : Z) :
  sorted_by_key (rank_matches matches max_results).
Proof.
  unfold rank_matches, slice_to, sorted_by_key.
  destruct (0 <=? max_results); apply Sorted_firstn, sort_matches_sorted.
Qed.

End RankingFacts.

Section RankingTheorems.

Import RankingSpec.
Import MatchingEngine.
Import Fixtures.

Lemma rank_matches_strongly_sorted (matches : list TrialMatch) (max_results : Z) :
  nonzero_distances matches ->
  StronglySorted ranked_before (rank_matches matches max_results).
Proof.
  intros Hnz. apply Sorted_StronglySorted.
  - intros a b c. apply ranked_before_trans.
  - apply Sorted_weaken with (2 := rank_matches_sorted_by_key matches max_results).
    intros a b Ha Hb. apply key_le_ranked_before; intros d Hd.
    + apply (Hnz a d); [eapply rank_matches_In; eassumption | assumption].
    + apply (Hnz b d); [eapply rank_matches_In; eassumption | assumption].
Qed.

(** C2, as amended.  For every list of matches whose present distances
    are non-zero and every [max_results >= 0], the ranking of
    [MatchingEngine.match_patient_to_trials] returns at most [max_results]
    matches, sorted by [fit_score] descending with ties broken by
    [distance_km] ascending and an absent distance after every present
    one; the result is a prefix of a permutation of the input. *)
Theorem rank_matches_bounded_sorted (matches : list TrialMatch) (max_results : Z) :
  0 <= max_results ->
  nonzero_distances matches ->
  Z.of_nat (List.length (rank_matches matches max_results)) <= max_results /\
  StronglySorted ranked_before (rank_matches matches max_results) /\
  exists dropped,
    Permutation (rank_matches matches max_results ++ dropped)%list matches.
Proof.
  intros Hmax Hnz. split; [| split].
  - unfold rank_matches. now apply slice_to_length.
  - now apply rank_matches_strongly_sorted.
  - unfold rank_matches.
    destruct (slice_to_prefix max_results (PySort.sort sort_key key_ltb matches))
      as [dropped Hd].
    exists dropped. rewrite Hd. apply sort_perm.
Qed.

Lemma candidates_nonzero : nonzero_distances candidates.
Proof.
  intros m d Hin Hd. unfold candidates in Hin. simpl in Hin.
  repeat (destruct Hin as [<- | Hin]; [simpl in Hd; inversion Hd; subst;
    unfold Qeq; simpl; lia || discriminate |]).
  contradiction.
Defined.

Lemma rank_matches_bounded_sorted_witness :
  Z.of_nat (List.length (rank_matches candidates 2)) <= 2 /\
  StronglySorted ranked_before (rank_matches candidates 2) /\
  exists dropped, Permutation (rank_matches candidates 2 ++ dropped)%list candidates.
Proof.
  apply (@rank_matches_bounded_sorted candidates 2); [lia | exact candidates_nonzero].
Defined.

(** C2 as stated fails twice over: a negative [max_results] drops matches
    from the end instead of bounding the length, and a present distance
    of exactly zero is keyed like an absent one. *)
Lemma rank_matches_counterexample :
  ~ (Z.of_nat (List.length (rank_matches [m_here; m_far] (-1))) <= -1) /\
  ~ StronglySorted ranked_before (rank_matches [m_here; m_far] 10).
Proof.
  split.
  - vm_compute. intros H. apply H. reflexivity.
  - change (rank_matches [m_here; m_far] 10) with [m_far; m_here].
    intros Hs. inversion Hs as [| a l _ Hall]; subst.
    inversion Hall as [| b l' Hb _]; subst.
    destruct Hb as [Hgt | [_ Hle]].
    + vm_compute in Hgt. discriminate.
    + vm_compute in Hle. apply Hle. reflexivity.
Qed.




End RankingTheorems.

(** ** Nearest-site selection *)

Section NearestSiteFacts.

Import MatchingEngine.
Import Fixtures.

Import NearestSpec.

Lemma scan_site_considered (geodesy : Geodesy) (p : float * float)
    (st : option Location * efloat) (loc : Location) :
  scan_site (Some p) st loc =
  match considered_distance p loc with
  | Some d => if efloat_ltb (Fin d) (snd st) then (Some loc, Fin d) else st
  | None => st
  end.
Proof.
  unfold scan_site, considered_distance, calculate_distance.
  destruct (lat loc) as [la |], (lng loc) as [ln |]; try reflexivity.
  destruct (float_truthy la && float_truthy ln); [| reflexivity].
  destruct (geodesic p (la, ln)) as [d |]; [| reflexivity].
  now destruct (float_truthy d).
Qed.

Lemma efloat_ltb_fin (x y : Q) :
  efloat_ltb (Fin x) (Fin y) = true <-> (x < y)%Q.
Proof.
  unfold efloat_ltb. simpl. rewrite negb_true_iff. split.
  - intros H. apply Qnot_le_lt. intros Hle. apply Qle_bool_iff in Hle. congruence.
  - intros H. destruct (Qle_bool y x) eqn:E; [| reflexivity].
    apply Qle_bool_iff in E. exfalso. exact (Qlt_not_le _ _ H E).
Qed.

Lemma scanned_step (geodesy : Geodesy) (p : float * float) (seen : list Location)
    (st : option Location * efloat) (loc : Location) :
  scanned p seen st -> scanned p (seen ++ [loc]) (scan_site (Some p) st loc).
Proof.
  rewrite scan_site_considered.
  intros [[-> Hnone] | (site & d & -> & before & after & -> & Hd & Hb & Ha)].
  - destruct (considered_distance p loc) as [d' |] eqn:E; simpl.
    + right. exists loc, d'. split; [reflexivity |].
      exists seen, []. repeat split; try assumption.
      * intros l d'' Hin Hl. rewrite (Hnone l Hin) in Hl. discriminate.
      * intros l d'' [].
    + left. split; [reflexivity |].
      intros l Hin. apply in_app_or in Hin. destruct Hin as [Hin | [<- | []]]; auto.
  - destruct (considered_distance p loc) as [d' |] eqn:E; simpl.
    + destruct (efloat_ltb (Fin d') (Fin d)) eqn:L.
      * apply efloat_ltb_fin in L. right. exists loc, d'. split; [reflexivity |].
        exists (before ++ site :: after)%list, []. repeat split; try assumption.
        -- intros l d'' Hin Hl. apply in_app_or in Hin.
           destruct Hin as [Hin | [<- | Hin]].
           ++ eapply Qlt_trans; [exact L | eapply Hb; eassumption].
           ++ rewrite Hd in Hl. injection Hl as <-. exact L.
           ++ eapply Qlt_le_trans; [exact L | eapply Ha; eassumption].
        -- intros l d'' [].
      * right. exists site, d. split; [reflexivity |].
        exists before, (after ++ [loc])%list. repeat split; try assumption.
        -- now rewrite <- app_assoc.
        -- intros l d'' Hin Hl. apply in_app_or in Hin.
           destruct Hin as [Hin | [<- | []]]; [eapply Ha; eassumption |].
           rewrite E in Hl. injection Hl as <-.
           apply Qnot_lt_le. intros Hlt. apply efloat_ltb_fin in Hlt. congruence.
    + right. exists site, d. split; [reflexivity |].
      exists before, (after ++ [loc])%list. repeat split; try assumption.
      * now rewrite <- app_assoc.
      * intros l d'' Hin Hl. apply in_app_or in Hin.
        destruct Hin as [Hin | [<- | []]]; [eapply Ha; eassumption | congruence].
Qed.

Lemma scanned_fold (geodesy : Geodesy) (p : float * float) (locs seen : list Location)
    (st : option Location * efloat) :
  scanned p seen st ->
  scanned p (seen ++ locs) (fold_left (scan_site (Some p)) locs st).
Proof.
  revert seen st. induction locs as [| loc rest IH]; intros seen st Hs; simpl.
  - now rewrite app_nil_r.
  - replace (seen ++ loc :: rest)%list with ((seen ++ [loc]) ++ rest)%list
      by now rewrite <- app_assoc.
    apply IH. now apply scanned_step.
Qed.

(** What the scan does select: the first of the nearest candidates among
    those it takes into account, and nothing when there is none. *)
Lemma find_nearest_site_considered (geodesy : Geodesy) (p : float * float)
    (locs : list Location) :
  (find_nearest_site (Some p) locs = (None, None) /\
   forall l, In l locs -> considered_distance p l = None) \/
  (exists site d, find_nearest_site (Some p) locs = (Some site, Some d) /\
                  first_nearest p locs site d).
Proof.
  destruct locs as [| loc rest]; [left; split; [reflexivity | intros l []] |].
  unfold find_nearest_site.
  assert (Hs : scanned p ([] ++ loc :: rest)
                 (fold_left (scan_site (Some p)) (loc :: rest) (None, Inf))).
  { apply scanned_fold. left. split; [reflexivity | intros l []]. }
  simpl app in Hs.
  destruct Hs as [[-> Hnone] | (site & d & -> & Hf)]; simpl.
  - left. auto.
  - right. exists site, d. auto.
Qed.

Lemma find_nearest_site_no_origin (geodesy : Geodesy) (locs : list Location) :
  find_nearest_site None locs = (None, None).
Proof. reflexivity. Qed.

Lemma find_nearest_site_nonzero (geodesy : Geodesy) (origin : option (float * float))
    (locs : list Location) (site : option Location) (d : float) :
  find_nearest_site origin locs = (site, Some d) -> ~ (d == 0)%Q.
Proof.
  destruct origin as [p |]; [| discriminate].
  destruct (find_nearest_site_considered geodesy p locs)
    as [[-> _] | (s & d' & -> & before & after & _ & Hd & _)]; [discriminate |].
  intros [= _ <-]. unfold considered_distance in Hd.
  destruct (lat s), (lng s); try discriminate.
  destruct (float_truthy _ && float_truthy _); [| discriminate].
  destruct (geodesic p _) as [x |]; [| discriminate].
  destruct (float_truthy x) eqn:T; [| discriminate].
  injection Hd as <-. unfold float_truthy in T.
  apply negb_true_iff in T. intros Hz. apply Qeq_bool_iff in Hz. congruence.
Qed.

(** C4, at the failing input.  A candidate at the patient's own position
    (distance zero) is passed over: with a second, farther candidate the
    scan returns the farther one, although the first is the nearest. *)
Theorem find_nearest_site_skips_coincident_site
    (geodesy : Geodesy) (p : float * float) (a b : Location)
    (la ln lb lnb z d : Q) :
  lat a = Some la -> lng a = Some ln ->
  lat b = Some lb -> lng b = Some lnb ->
  float_truthy lb = true -> float_truthy lnb = true ->
  geodesic p (la, ln) = Some z -> (z == 0)%Q ->
  geodesic p (lb, lnb) = Some d -> ~ (d == 0)%Q ->
  find_nearest_site (Some p) [a; b] = (Some b, Some d).
Proof.
  intros Hla Hln Hlb Hlnb Tb Tnb Ga Hz Gb Hd.
  assert (Tz : float_truthy z = false).
  { unfold float_truthy. apply negb_false_iff. now apply Qeq_bool_iff. }
  assert (Td : float_truthy d = true) by now apply truthy_nonzero.
  assert (Ha : scan_site (Some p) (None, Inf) a = (None, Inf)).
  { unfold scan_site. rewrite Hla, Hln.
    destruct (float_truthy la && float_truthy ln); [| reflexivity].
    unfold calculate_distance, float in *. rewrite Ga, Tz. reflexivity. }
  assert (Hb : scan_site (Some p) (None, Inf) b = (Some b, Fin d)).
  { unfold scan_site. rewrite Hlb, Hlnb, Tb, Tnb.
    unfold calculate_distance, float in *. simpl andb. cbv iota.
    rewrite Gb, Td. reflexivity. }
  unfold find_nearest_site. simpl fold_left. rewrite Ha, Hb. reflexivity.
Qed.

Lemma find_nearest_site_skips_coincident_site_witness :
  @find_nearest_site flat_geodesy (Some (13, 80)%Q)
    [site "Chennai" 13 80; site "Delhi" 28 77]
  = (Some (site "Delhi" 28 77), Some (111 * (15 + 3))%Q).
Proof.
  apply (@find_nearest_site_skips_coincident_site flat_geodesy (13, 80)%Q
           (site "Chennai" 13 80) (site "Delhi" 28 77) 13 80 28 77
           (111 * (Qabs (13 - 13) + Qabs (80 - 80)))%Q (111 * (15 + 3))%Q);
    try reflexivity.
  - intros H. vm_compute in H. discriminate.
Defined.

(** A candidate on the equator or on the prime meridian counts as having
    no coordinates, whatever the distance function. *)
Lemma find_nearest_site_skips_zero_latitude
    (geodesy : Geodesy) (p : float * float) (name : string) (ln : Q) :
  find_nearest_site (Some p) [site name 0 ln] = (None, None).
Proof. reflexivity. Qed.

End NearestSiteFacts.

(** ** Profile extraction *)

Section ProfileFacts.

Context {codec : JsonCodec} {pydantic : Pydantic} {oracle : Oracle}.
Import LLMService.
Import EvaluationSpec.

Lemma decoded_profile_none (reply : option string) :
  decoded_profile reply = None <->
  reply = None \/
  (exists text, reply = Some text /\ json_loads (unfence (strip text)) = None) \/
  (exists text data, reply = Some text /\
     json_loads (unfence (strip text)) = Some data /\ validate_profile data = None).
Proof.
  unfold decoded_profile, decoded. destruct reply as [text |].
  - destruct (json_loads (unfence (strip text))) as [data |] eqn:E.
    + split.
      * intros Hv. right. right. now exists text, data.
      * intros [Hn | [(t & Ht & Hl) | (t & d & Ht & Hl & Hv)]];
          [discriminate | congruence | ].
        injection Ht as <-. congruence.
    + split; [| reflexivity]. intros _. right. left. now exists text.
  - split; [now left | reflexivity].
Qed.




Lemma minimal_profile_fields :
  let p := PatientProfile_of_condition "Unknown" in
  condition p = "Unknown" /\ condition_normalized p = None /\ histology p = None /\
  stage p = None /\ line_of_therapy p = None /\ prior_treatments p = [] /\
  current_treatments p = None /\ biomarkers p = [] /\ ecog p = None /\
  age p = None /\ sex p = None /\ cns_involvement p = None /\
  metastatic_sites p = None /\ comorbidities p = None /\
  organ_function p = None /\ location p = None.
Proof. repeat split. Qed.

End ProfileFacts.

(** ** Eligibility evaluation *)

Section EvaluationFacts.

Context {codec : JsonCodec} {pydantic : Pydantic} {oracle : Oracle}.
Import LLMService.
Import EvaluationSpec.

Lemma evaluate_eligibility_run (patient : PatientProfile)
    (criteria trial_title trial_phase : string) (tr : trace) :
  snd (evaluate_eligibility patient criteria trial_title trial_phase tr) =
  Ok match decoded (generate_content tr
              (EligibilityPrompt patient criteria trial_title trial_phase)) with
     | Some evaluation => evaluation
     | None => evaluation_error
     end.
Proof.
  unfold evaluate_eligibility, try_except, bind, generate, lift, ret,
    parse_reply, decoded, of_option.
  destruct (generate_content tr _) as [text |]; [| reflexivity].
  now destruct (json_loads (unfence (strip text))).
Qed.

Lemma pad_evaluations_array (l : list json) (missing : list dict) :
  pad_evaluations (JArr l) missing
  = Ok (JArr (l ++ map evaluation_not_completed missing)%list).
Proof.
  revert l. induction missing as [| trial rest IH]; intros l; simpl.
  - now rewrite app_nil_r.
  - rewrite IH. now rewrite <- app_assoc.
Qed.

Lemma pad_evaluations_not_array (evaluations : json) (trial : dict) (rest : list dict) :
  (forall l, evaluations <> JArr l) ->
  pad_evaluations evaluations (trial :: rest) = Raise AttributeError.
Proof.
  intros Hna. simpl. destruct evaluations; try reflexivity.
  now destruct (Hna l).
Qed.

Lemma batch_evaluate_failed (patient : PatientProfile) (trials : list dict)
    (trials_text : list (json * json * json * json)) (tr : trace) :
  build_trials_text trials = Ok trials_text ->
  decoded (generate_content tr (BatchPrompt patient trials_text)) = None ->
  snd (batch_evaluate_eligibility patient trials tr)
  = Ok (JArr (map evaluation_batch_failed trials)).
Proof.
  intros Hb Hd.
  unfold batch_evaluate_eligibility, try_except, bind, generate, lift, ret,
    parse_reply, of_option. rewrite Hb. unfold decoded in Hd.
  destruct (generate_content tr _) as [text |]; [| reflexivity].
  now rewrite Hd.
Qed.

Lemma batch_evaluate_array (patient : PatientProfile) (trials : list dict)
    (trials_text : list (json * json * json * json)) (tr : trace) (l : list json) :
  build_trials_text trials = Ok trials_text ->
  decoded (generate_content tr (BatchPrompt patient trials_text)) = Some (JArr l) ->
  snd (batch_evaluate_eligibility patient trials tr)
  = Ok (if (List.length l <? List.length trials)%nat
        then JArr (l ++ map evaluation_not_completed (skipn (List.length l) trials))%list
        else JArr l).
Proof.
  intros Hb Hd.
  unfold batch_evaluate_eligibility, try_except, bind, generate, lift, ret,
    parse_reply, of_option. rewrite Hb. unfold decoded in Hd.
  destruct (generate_content tr _) as [text |]; [| discriminate].
  rewrite Hd. simpl.
  destruct (List.length l <? List.length trials)%nat; [| reflexivity].
  now rewrite pad_evaluations_array.
Qed.

Lemma not_completed_is_placeholder (trial : dict) :
  not_completed_placeholder (evaluation_not_completed trial).
Proof. repeat split. Qed.

(** C1, as amended.  When the prompt can be built and the oracle's reply
    decodes to an array of at most [N] entries, batch evaluation returns
    exactly [N] evaluations: the oracle's entries in their order, then,
    for every trial position beyond them, the placeholder with score 40,
    category weak, empty criteria lists and missing_info
    ["Evaluation not completed"], carrying that trial's nct_id. *)
Theorem batch_evaluate_pads_to_N (patient : PatientProfile) (trials : list dict)
    (trials_text : list (json * json * json * json)) (tr : trace) (l : list json) :
  build_trials_text trials = Ok trials_text ->
  decoded (generate_content tr (BatchPrompt patient trials_text)) = Some (JArr l) ->
  (List.length l <= List.length trials)%nat ->
  exists evaluations,
    snd (batch_evaluate_eligibility patient trials tr) = Ok (JArr evaluations) /\
    List.length evaluations = List.length trials /\
    firstn (List.length l) evaluations = l /\
    forall i trial, (List.length l <= i)%nat -> nth_error trials i = Some trial ->
      nth_error evaluations i = Some (evaluation_not_completed trial) /\
      not_completed_placeholder (evaluation_not_completed trial).
Proof.
  intros Hb Hd Hlen.
  exists (l ++ map evaluation_not_completed (skipn (List.length l) trials))%list.
  split; [| split; [| split]].
  - rewrite (batch_evaluate_array _ _ _ Hb Hd).
    destruct (List.length l <? List.length trials)%nat eqn:E; [reflexivity |].
    apply Nat.ltb_ge in E.
    rewrite skipn_all2 by lia. simpl. now rewrite app_nil_r.
  - rewrite length_app, length_map, length_skipn. lia.
  - rewrite firstn_app, Nat.sub_diag, firstn_all. simpl. now rewrite app_nil_r.
  - intros i trial Hi Ht. split; [| apply not_completed_is_placeholder].
    rewrite nth_error_app2 by exact Hi.
    rewrite nth_error_map, nth_error_skipn.
    replace (List.length l + (i - List.length l))%nat with i by lia.
    now rewrite Ht.
Qed.

End EvaluationFacts.

Section EvaluationExamples.

Import LLMService.
Import EvaluationSpec.
Import Fixtures.

Lemma batch_evaluate_pads_to_N_witness :
  exists evaluations,
    snd (batch_evaluate_eligibility (codec := fixture_codec)
           (oracle := fixed_oracle (Some two_entries_text)) a_patient
           [a_trial "NCT01"; a_trial "NCT02"; a_trial "NCT03"] [])
      = Ok (JArr evaluations) /\
    List.length evaluations
      = List.length [a_trial "NCT01"; a_trial "NCT02"; a_trial "NCT03"] /\
    firstn (List.length two_entries) evaluations = two_entries /\
    forall i trial, (List.length two_entries <= i)%nat ->
      nth_error [a_trial "NCT01"; a_trial "NCT02"; a_trial "NCT03"] i = Some trial ->
      nth_error evaluations i = Some (evaluation_not_completed trial) /\
      not_completed_placeholder (evaluation_not_completed trial).
Proof.
  eapply (@batch_evaluate_pads_to_N fixture_codec
            (fixed_oracle (Some two_entries_text)) a_patient
            [a_trial "NCT01"; a_trial "NCT02"; a_trial "NCT03"]).
  - reflexivity.
  - reflexivity.
  - simpl. lia.
Defined.

(** C1 as stated fails when the oracle answers with more entries than
    trials: one trial submitted, two evaluations returned. *)
Lemma batch_evaluate_counterexample :
  snd (batch_evaluate_eligibility (codec := fixture_codec)
         (oracle := fixed_oracle (Some two_entries_text)) a_patient
         [a_trial "NCT01"] [])
    = Ok (JArr two_entries) /\
  List.length two_entries <> List.length [a_trial "NCT01"].
Proof. split; [reflexivity | discriminate]. Qed.

(** C3 as stated fails: an oracle evaluation with score 90 and category
    "weak" is returned as it is. *)
Lemma evaluate_eligibility_counterexample :
  snd (evaluate_eligibility (codec := fixture_codec)
         (oracle := fixed_oracle (Some inconsistent_text)) a_patient
         "Adults with NSCLC" "Trial NCT01" "PHASE2" [])
    = Ok inconsistent_evaluation /\
  ~ agrees_with_band inconsistent_evaluation.
Proof.
  split; [reflexivity |].
  intros (score & category & Hs & Hc & Hb).
  vm_compute in Hs, Hc. injection Hs as <-. injection Hc as <-.
  vm_compute in Hb. discriminate.
Qed.

End EvaluationExamples.

Section BandFacts.

Context {codec : JsonCodec} {oracle : Oracle}.
Import LLMService.
Import EvaluationSpec.

Lemma fit_category_band_table (score : Z) :
  (80 <= score <= 100 -> fit_category_band score = Some "strong") /\
  (50 <= score <= 79 -> fit_category_band score = Some "moderate") /\
  (20 <= score <= 49 -> fit_category_band score = Some "weak") /\
  (0 <= score <= 19 -> fit_category_band score = Some "ineligible").
Proof.
  unfold fit_category_band.
  repeat split; intros H;
    repeat match goal with
           | |- context [?a <=? ?b] => destruct (Z.leb_spec a b); try lia
           end; reflexivity.
Qed.

Lemma evaluation_error_agrees : agrees_with_band evaluation_error.
Proof. exists 30, "weak". repeat split. Qed.

Lemma evaluation_not_completed_agrees (trial : dict) :
  agrees_with_band (evaluation_not_completed trial).
Proof. exists 40, "weak". repeat split. Qed.

Lemma evaluation_batch_failed_agrees (trial : dict) :
  agrees_with_band (evaluation_batch_failed trial).
Proof. exists 40, "weak". repeat split. Qed.

(** C3, as amended.  The band table maps [80,100] to strong, [50,79] to
    moderate, [20,49] to weak and [0,19] to ineligible, and every
    evaluation the evaluator synthesises itself agrees with it: the
    single-trial fallback, every entry of a failed batch, and every entry
    padded after the oracle's own.  An evaluation decoded from the
    oracle's reply is returned unchanged, whatever its category. *)
Theorem synthesised_evaluations_agree_with_band :
  (forall score, 
     (80 <= score <= 100 -> fit_category_band score = Some "strong") /\
     (50 <= score <= 79 -> fit_category_band score = Some "moderate") /\
     (20 <= score <= 49 -> fit_category_band score = Some "weak") /\
     (0 <= score <= 19 -> fit_category_band score = Some "ineligible")) /\
  (forall patient criteria trial_title trial_phase tr,
     decoded (generate_content tr
       (EligibilityPrompt patient criteria trial_title trial_phase)) = None ->
     exists evaluation,
       snd (evaluate_eligibility patient criteria trial_title trial_phase tr)
         = Ok evaluation /\
       agrees_with_band evaluation) /\
  (forall patient trials trials_text tr,
     build_trials_text trials = Ok trials_text ->
     decoded (generate_content tr (BatchPrompt patient trials_text)) = None ->
     exists evaluations,
       snd (batch_evaluate_eligibility patient trials tr) = Ok (JArr evaluations) /\
       Forall agrees_with_band evaluations) /\
  (forall patient trials trials_text tr l,
     build_trials_text trials = Ok trials_text ->
     decoded (generate_content tr (BatchPrompt patient trials_text)) = Some (JArr l) ->
     (List.length l <= List.length trials)%nat ->
     exists evaluations,
       snd (batch_evaluate_eligibility patient trials tr) = Ok (JArr evaluations) /\
       Forall agrees_with_band (skipn (List.length l) evaluations)) /\
  (forall patient criteria trial_title trial_phase tr evaluation,
     decoded (generate_content tr
       (EligibilityPrompt patient criteria trial_title trial_phase)) = Some evaluation ->
     snd (evaluate_eligibility patient criteria trial_title trial_phase tr)
       = Ok evaluation).
Proof.
  split; [apply fit_category_band_table |].
  split; [| split; [| split]].
  - intros patient criteria trial_title trial_phase tr Hd.
    exists evaluation_error. rewrite evaluate_eligibility_run, Hd.
    split; [reflexivity | apply evaluation_error_agrees].
  - intros patient trials trials_text tr Hb Hd.
    exists (map evaluation_batch_failed trials).
    split; [now apply (batch_evaluate_failed _ _ _ Hb) |].
    apply Forall_forall. intros e He. apply in_map_iff in He.
    destruct He as (t & <- & _). apply evaluation_batch_failed_agrees.
  - intros patient trials trials_text tr l Hb Hd Hlen.
    exists (l ++ map evaluation_not_completed (skipn (List.length l) trials))%list.
    split.
    + rewrite (batch_evaluate_array _ _ _ Hb Hd).
      destruct (List.length l <? List.length trials)%nat eqn:E; [reflexivity |].
      apply Nat.ltb_ge in E.
      rewrite skipn_all2 by lia. simpl. now rewrite app_nil_r.
    + rewrite skipn_app, Nat.sub_diag, skipn_all. simpl.
      apply Forall_forall. intros e He. apply in_map_iff in He.
      destruct He as (t & <- & _). apply evaluation_not_completed_agrees.
  - intros patient criteria trial_title trial_phase tr evaluation Hd.
    now rewrite evaluate_eligibility_run, Hd.
Qed.

End BandFacts.

(** ** The exception monads *)

Lemma rbind_ok {A B : Type} (m : result A) (k : A -> result B) (b : B) :
  rbind m k = Ok b -> exists a, m = Ok a /\ k a = Ok b.
Proof. destruct m as [a | e]; simpl; [eauto | discriminate]. Qed.

Lemma of_option_ok {A : Type} (e : exn) (o : option A) (a : A) :
  of_option e o = Ok a -> o = Some a.
Proof. destruct o; simpl; congruence. Qed.

Lemma getitem_obj (d : dict) (k : string) (v : json) :
  getitem (JObj d) k = Ok v -> lookup k d = Some v.
Proof. simpl. destruct (lookup k d); congruence. Qed.

Lemma map_result_ok {A B : Type} (f : A -> result B) (l : list A) (ys : list B) :
  ClinicalTrialsService.map_result f l = Ok ys ->
  Forall (fun y => exists x, In x l /\ f x = Ok y) ys.
Proof.
  revert ys. induction l as [| x l IH]; intros ys; simpl.
  - intros [= <-]. constructor.
  - intros H. apply rbind_ok in H. destruct H as (y & Hy & H).
    destruct (ClinicalTrialsService.map_result f l) as [ys' | e]; simpl in H;
      [| discriminate].
    injection H as <-. constructor.
    + exists x. auto.
    + eapply Forall_impl; [| apply IH; reflexivity].
      intros b (a & Ha & Hf). exists a. auto.
Qed.

Ltac invert_binds H :=
  repeat (apply rbind_ok in H;
          let a := fresh "v" in
          let Ha := fresh "Hv" in
          destruct H as (a & Ha & H)).

(** ** The registry pipeline *)

Section PipelineFacts.

Context {codec : JsonCodec} {pydantic : Pydantic} {oracle : Oracle}
        {registry : Registry}.
Import ClinicalTrialsService.
Import EvaluationSpec.
Import PipelineSpec.
Import RankingSpec.

Lemma extract_search_keywords_run (patient : PatientProfile) (tr : trace) :
  exists keywords,
    LLMService.extract_search_keywords patient tr
    = ((tr ++ [Generate (KeywordsPrompt patient)])%list, Ok keywords).
Proof.
  unfold LLMService.extract_search_keywords, try_except, bind,
    LLMService.generate, lift, ret, LLMService.parse_reply, of_option.
  destruct (generate_content tr (KeywordsPrompt patient)) as [text |];
    [| eauto].
  destruct (json_loads (unfence (strip text))); eauto.
Qed.

(** Every record [_parse_study] builds lists its locations as an array. *)
Lemma parse_study_locations (study : json) (trial : dict) :
  _parse_study study = Ok trial -> exists locs, listed_locations trial = Some locs.
Proof.
  unfold _parse_study. intros H. invert_binds H.
  injection H as <-. unfold listed_locations. simpl. eauto.
Qed.

Lemma search_trials_parsed (patient : PatientProfile) (max_results : Z)
    (tr : trace) (trials : list dict) :
  snd (search_trials patient max_results tr) = Ok trials ->
  Forall (fun trial => exists locs, listed_locations trial = Some locs) trials.
Proof.
  unfold search_trials, bind, try_except, lift, ret, http_get.
  destruct (extract_search_keywords_run patient tr) as (keywords & ->).
  destruct (primary_condition patient keywords) as [primary | e]; simpl;
    [| discriminate].
  destruct (registry_get _ primary (Z.min max_results 20)) as [| status body];
    simpl; [intros [= <-]; constructor |].
  match goal with
  | |- context [rbind ?m ?k] => destruct (rbind m k) as [ts | e] eqn:E
  end; simpl; [| intros [= <-]; constructor].
  intros [= <-]. invert_binds E. apply map_result_ok in E.
  eapply Forall_impl; [| exact E].
  intros trial (study & _ & Hp). eapply parse_study_locations; eassumption.
Qed.

Lemma first_location_spec (trial : dict) (o : option Location) (locs : list json) :
  first_location trial = Ok o ->
  listed_locations trial = Some locs ->
  match locs with
  | [] => o = None
  | loc :: _ => exists site, o = Some site /\ site_of loc site
  end.
Proof.
  unfold first_location, listed_locations, getitem. intros H Hl.
  destruct (lookup "locations" trial) as [[| | | | | l |] |]; try discriminate.
  injection Hl as ->. simpl in H.
  destruct locs as [| loc rest]; simpl in H; [congruence |].
  invert_binds H. injection H as <-.
  match goal with
  | Hn : new_Location ?f ?c ?s ?k = Ok ?site |- _ =>
      exists site; split; [reflexivity |];
      unfold new_Location in Hn;
      destruct (validate_str f) eqn:E0, (validate_str c) eqn:E1,
               (validate_opt_str s) eqn:E2, (validate_str k) eqn:E3;
        try discriminate;
      injection Hn as <-; exists f, c, s, k; simpl; repeat split; assumption
  end.
Qed.

Lemma new_TrialMatch_ok (n t p : string) (s c : json) (site : option Location)
    (d : option float) (mc fc mi e : json) (m : TrialMatch) :
  new_TrialMatch n t p s c site d mc fc mi e = Ok m ->
  nct_id m = n /\ title m = t /\ phase m = p /\
  nearest_site m = site /\ distance_km m = d /\
  validate_int s = Some (fit_score m).
Proof.
  unfold new_TrialMatch.
  destruct (validate_int s), (validate_str c), (validate_str_list mc),
           (validate_str_list fc), (validate_str_list mi), (validate_str e);
    try discriminate.
  intros [= <-]. simpl. repeat split.
Qed.

Lemma make_match_spec (evaluations : json) (i : nat) (trial : dict) (m : TrialMatch) :
  make_match evaluations i trial = Ok m ->
  identifies trial m /\ distance_km m = None /\
  first_location trial = Ok (nearest_site m).
Proof.
  unfold make_match. intros H. invert_binds H.
  repeat match goal with
         | Hg : getitem (JObj _) _ = Ok _ |- _ => apply getitem_obj in Hg
         | Ho : of_option _ _ = Ok _ |- _ => apply of_option_ok in Ho
         end.
  apply new_TrialMatch_ok in H.
  destruct H as (Hn & Ht & Hp & Hs & Hd & _).
  split; [| split; [assumption | congruence]].
  unfold identifies. rewrite Hn, Ht, Hp. do 3 eexists.
  repeat split; eassumption.
Qed.

Lemma build_matches_In (evaluations : json) (i : nat) (trials : list dict)
    (m : TrialMatch) :
  In m (build_matches evaluations i trials) ->
  exists trial j, In trial trials /\ make_match evaluations j trial = Ok m.
Proof.
  revert i. induction trials as [| trial rest IH]; intros i; simpl; [tauto |].
  destruct (make_match evaluations i trial) as [m' | e] eqn:E.
  - intros [<- | Hin].
    + exists trial, i. auto.
    + destruct (IH _ Hin) as (t & j & Ht & Hm). exists t, j. auto.
  - intros Hin. destruct (IH _ Hin) as (t & j & Ht & Hm). exists t, j. auto.
Qed.

Lemma match_patient_to_trials_run (patient : PatientProfile) (max_results : Z)
    (tr : trace) (trials : list dict) (matches : list TrialMatch) :
  snd (search_trials patient max_results tr) = Ok trials ->
  snd (match_patient_to_trials patient max_results tr) = Ok matches ->
  exists evaluations,
    matches = PySort.sort_reverse fit_score Z.ltb (build_matches evaluations 0 trials).
Proof.
  unfold match_patient_to_trials, bind.
  destruct (search_trials patient max_results tr) as [tr' r]. simpl.
  intros ->. destruct trials as [| trial rest].
  - intros [= <-]. exists JNull. reflexivity.
  - destruct (LLMService.batch_evaluate_eligibility patient (trial :: rest) tr')
      as [tr'' [evaluations | e]]; [| discriminate].
    intros [= <-]. now exists evaluations.
Qed.

Lemma registry_match_origin (patient : PatientProfile) (max_results : Z)
    (tr : trace) (trials : list dict) (matches : list TrialMatch) (m : TrialMatch) :
  snd (search_trials patient max_results tr) = Ok trials ->
  snd (match_patient_to_trials patient max_results tr) = Ok matches ->
  In m matches ->
  exists trial, In trial trials /\ identifies trial m /\ distance_km m = None /\
                first_location trial = Ok (nearest_site m).
Proof.
  intros Hs Hm Hin.
  destruct (match_patient_to_trials_run _ _ _ Hs Hm) as (evaluations & ->).
  unfold PySort.sort_reverse in Hin.
  apply (Permutation_in _ (sort_perm _ _ _)) in Hin.
  apply build_matches_In in Hin. destruct Hin as (trial & j & Ht & Hmk).
  apply make_match_spec in Hmk. destruct Hmk as (Hid & Hd & Hf).
  exists trial. auto.
Qed.

(** C10.  In the registry pipeline every returned match has no distance,
    and its nearest site is the first location its trial lists, without
    coordinates: or none when the trial lists no location.  Nothing in
    these two fields is computed from the patient. *)
Theorem registry_matches_first_site_no_distance (patient : PatientProfile)
    (max_results : Z) (tr : trace) (trials : list dict) (matches : list TrialMatch) :
  snd (search_trials patient max_results tr) = Ok trials ->
  snd (match_patient_to_trials patient max_results tr) = Ok matches ->
  Forall (fun m => exists trial, In trial trials /\ identifies trial m /\
                                 first_site_no_distance trial m) matches.
Proof.
  intros Hs Hm. apply Forall_forall. intros m Hin.
  destruct (registry_match_origin _ _ _ _ Hs Hm Hin) as (trial & Ht & Hid & Hd & Hf).
  exists trial. split; [assumption | split; [assumption |]].
  split; [assumption |].
  pose proof (search_trials_parsed _ _ _ Hs) as Hp.
  rewrite Forall_forall in Hp. destruct (Hp _ Ht) as (locs & Hl).
  exists locs. split; [assumption |].
  exact (first_location_spec _ Hf Hl).
Qed.

Lemma registry_matches_sorted (patient : PatientProfile) (max_results : Z)
    (tr : trace) (trials : list dict) (matches : list TrialMatch) :
  snd (search_trials patient max_results tr) = Ok trials ->
  snd (match_patient_to_trials patient max_results tr) = Ok matches ->
  StronglySorted score_desc matches /\
  forall m, In m matches -> distance_km m = None.
Proof.
  intros Hs Hm. split.
  - destruct (match_patient_to_trials_run _ _ _ Hs Hm) as (evaluations & ->).
    apply Sorted_StronglySorted.
    + intros a b c. unfold score_desc. lia.
    + unfold PySort.sort_reverse.
      eapply Sorted_weaken; [| apply sort_sorted].
      * intros a b _ _. unfold PySort.not_after, score_desc.
        intros H. apply Z.ltb_ge in H. lia.
      * intros a b H. apply Z.ltb_lt in H. apply Z.ltb_ge. lia.
  - intros m Hin.
    destruct (registry_match_origin _ _ _ _ Hs Hm Hin) as (trial & _ & _ & Hd & _).
    exact Hd.
Qed.

(** C7.  When the registry request is made and fails (network error or a
    status outside 2xx) or answers with zero studies, the pipeline
    returns the empty list, and the only calls it has made are the
    keyword prompt and the registry request: no eligibility evaluation. *)
Theorem no_candidates_no_evaluation (patient : PatientProfile) (max_results : Z)
    (tr : trace) (keywords primary : json) :
  snd (LLMService.extract_search_keywords patient tr) = Ok keywords ->
  primary_condition patient keywords = Ok primary ->
  (let o := registry_get (tr ++ [Generate (KeywordsPrompt patient)])%list primary
              (Z.min max_results 20) in
   request_failed o \/ zero_studies o) ->
  exists calls,
    match_patient_to_trials patient max_results tr = ((tr ++ calls)%list, Ok []) /\
    Forall (fun ev => is_evaluation_call ev = false) calls.
Proof.
  intros Hk Hp Ho.
  exists [Generate (KeywordsPrompt patient); RegistryGet primary (Z.min max_results 20)].
  split; [| repeat constructor].
  unfold match_patient_to_trials, search_trials, bind, try_except, lift, ret, http_get.
  destruct (extract_search_keywords_run patient tr) as (kw & Hrun).
  rewrite Hrun in Hk |- *. simpl in Hk. injection Hk as ->.
  rewrite Hp. simpl in Ho |- *.
  rewrite <- app_assoc. simpl.
  destruct (registry_get _ primary (Z.min max_results 20)) as [| status body];
    simpl; [reflexivity |].
  unfold raise_for_status.
  destruct Ho as [Hf | (Hst & data & Hd & Hg)]; simpl in *.
  - destruct ((200 <=? status) && (status <? 300)) eqn:E; [| reflexivity].
    apply andb_true_iff in E. destruct E as [E1 E2].
    apply Z.leb_le in E1. apply Z.ltb_lt in E2. exfalso. apply Hf. lia.
  - replace ((200 <=? status) && (status <? 300)) with true
      by (symmetry; apply andb_true_iff; split;
          [apply Z.leb_le | apply Z.ltb_lt]; lia).
    simpl. rewrite Hd. simpl. rewrite Hg. reflexivity.
Qed.

End PipelineFacts.

Section PipelineExamples.

Import ClinicalTrialsService.
Import PipelineSpec.
Import Fixtures.

Lemma no_candidates_no_evaluation_witness :
  exists calls,
    match_patient_to_trials (codec := registry_codec) (pydantic := strict_pydantic)
      (oracle := scripted_oracle (Some two_entries_text))
      (registry := fixed_registry (HttpResponse 503 ""))
      a_patient 10 []
    = (([] ++ calls)%list, Ok []) /\
    Forall (fun ev => is_evaluation_call ev = false) calls.
Proof.
  eapply (@no_candidates_no_evaluation registry_codec strict_pydantic
            (scripted_oracle (Some two_entries_text))
            (fixed_registry (HttpResponse 503 "")) a_patient 10 []).
  - reflexivity.
  - reflexivity.
  - left. simpl. lia.
Defined.

Lemma registry_matches_first_site_no_distance_witness :
  Forall (fun m => exists trial, In trial retrieved_trials /\
                     identifies (pydantic := strict_pydantic) trial m /\
                     first_site_no_distance (pydantic := strict_pydantic) trial m)
         returned_matches.
Proof.
  apply (@registry_matches_first_site_no_distance registry_codec strict_pydantic
           (scripted_oracle (Some two_entries_text))
           (fixed_registry (HttpResponse 200 (dumps two_studies)))
           a_patient 10 []).
  - reflexivity.
  - reflexivity.
Defined.

(** The scenario returns both trials, best score first; the first site
    of NCT01 is its first listed facility. *)
Example returned_matches_value :
  map (fun m => (nct_id m, fit_score m, option_map facility (nearest_site m),
                 distance_km m)) returned_matches
  = [("NCT01", 85, Some "Apollo", None); ("NCT02", 10, None, None)].
Proof. reflexivity. Qed.

End PipelineExamples.

(** ** The ambient scan *)

Section SearchFacts.

Context {codec : JsonCodec} {search : SearchOracle}.
Import ClinicalRadarService.

Lemma str_truthy_iff (s : string) : str_truthy s = true <-> s <> "".
Proof. destruct s; simpl; split; congruence. Qed.

Lemma strip_nonempty (s : string) : strip s <> "" -> str_truthy s = true.
Proof. destruct s; simpl; [intros H; now destruct H | reflexivity]. Qed.


End SearchFacts.

Section SearchExamples.

Import ClinicalRadarService.
Import Fixtures.



End SearchExamples.

(** ** Alert storage *)

Section AlertFacts.

Context {av : AlertValue}.
Import ClinicalRadarService.
Import RadarSpec.

Lemma same_key_eq (d t : value) (r : RadarAlertORM) :
  same_key d t r = true <-> drug r = d /\ title r = t.
Proof.
  unfold same_key. rewrite andb_true_iff, !value_eqb_eq. tauto.
Qed.

Lemma key_count_app (d t : value) (l1 l2 : list RadarAlertORM) :
  key_count d t (l1 ++ l2) = (key_count d t l1 + key_count d t l2)%nat.
Proof. unfold key_count. now rewrite filter_app, length_app. Qed.

Lemma unique_keys_add (rows : list RadarAlertORM) (r : RadarAlertORM) :
  unique_keys rows ->
  key_count (drug r) (title r) rows = 0%nat ->
  unique_keys (rows ++ [r]).
Proof.
  intros Hu Hz d t. rewrite key_count_app.
  unfold key_count at 2. simpl.
  destruct (same_key d t r) eqn:E; simpl.
  - apply same_key_eq in E. destruct E as [<- <-]. rewrite Hz. lia.
  - specialize (Hu d t). lia.
Qed.

Lemma save_alert_step (today : string) (s : session) (alert_data : alert)
    (d t : value) :
  unique_keys (session_rows s) ->
  find "drug" alert_data = Some d ->
  find "title" alert_data = Some t ->
  exists s',
    save_alert today s alert_data = Ok s' /\
    unique_keys (session_rows s') /\
    key_count d t (session_rows s') = 1%nat /\
    exists added, session_rows s' = (session_rows s ++ added)%list.
Proof.
  intros Hu Hd Ht. unfold save_alert, item, execute_select.
  rewrite Hd, Ht. simpl. unfold session_rows in *.
  set (rows := (flushed s ++ pending s)%list) in *.
  pose proof (Hu d t) as Hdt. unfold key_count in Hdt.
  destruct (filter (same_key d t) rows) as [| r [| r' more]] eqn:F;
    simpl in *; [| | lia].
  - eexists. split; [reflexivity |]. simpl.
    assert (Hz : key_count d t rows = 0%nat)
      by (unfold key_count; now rewrite F).
    split; [| split].
    + apply unique_keys_add; assumption.
    + rewrite key_count_app, Hz. unfold key_count. simpl.
      replace (same_key d t _) with true; [reflexivity |].
      symmetry. apply same_key_eq. now split.
    + eexists. reflexivity.
  - eexists. split; [reflexivity |]. simpl.
    rewrite app_nil_r.
    split; [assumption | split].
    + unfold key_count. now rewrite F.
    + exists []. now rewrite app_nil_r.
Qed.

Lemma save_loop_spec (today : string) (alerts : list alert) (s : session) :
  unique_keys (session_rows s) ->
  (forall a, In a alerts -> has_key a) ->
  exists s',
    save_loop today s alerts = Ok s' /\
    unique_keys (session_rows s') /\
    (exists added, session_rows s' = (session_rows s ++ added)%list) /\
    forall a d t, In a alerts ->
      find "drug" a = Some d -> find "title" a = Some t ->
      key_count d t (session_rows s') = 1%nat.
Proof.
  revert s. induction alerts as [| a rest IH]; intros s Hu Hk.
  - exists s. split; [reflexivity |]. split; [assumption |].
    split; [exists []; now rewrite app_nil_r | intros a d t []].
  - destruct (Hk a (or_introl eq_refl)) as (d & t & Hd & Ht).
    destruct (save_alert_step today s a Hu Hd Ht)
      as (s1 & Hs1 & Hu1 & Hc1 & added1 & Hr1).
    destruct (IH s1 Hu1 (fun b Hb => Hk b (or_intror Hb)))
      as (s' & Hs' & Hu' & (added & Hr') & Hall).
    exists s'. simpl. rewrite Hs1. simpl.
    split; [assumption |]. split; [assumption |]. split.
    + exists (added1 ++ added)%list. rewrite Hr', Hr1. now rewrite app_assoc.
    + intros b d' t' [<- | Hb] Hd' Ht'.
      * assert (d' = d) by congruence. assert (t' = t) by congruence. subst.
        pose proof (Hu' d t) as Hle.
        rewrite Hr', key_count_app, Hc1 in *. lia.
      * eapply Hall; eassumption.
Qed.

(** C8.  On a table without duplicate keys, saving alerts that carry a
    drug and a title succeeds, only appends rows, and leaves exactly one
    stored alert for the key of every alert saved: whether the
    duplicates come in the same call or were stored by an earlier one;
    the table never holds two alerts with the same (drug, title). *)
Theorem save_alerts_deduplicates (today : string) (table : list RadarAlertORM)
    (alerts : list alert) :
  unique_keys table ->
  (forall a, In a alerts -> has_key a) ->
  exists table',
    save_alerts today table alerts = Ok table' /\
    unique_keys table' /\
    (exists added, table' = (table ++ added)%list) /\
    forall a d t, In a alerts ->
      find "drug" a = Some d -> find "title" a = Some t ->
      key_count d t table' = 1%nat.
Proof.
  intros Hu Hk.
  destruct (@save_loop_spec today alerts {| flushed := table; pending := [] |})
    as (s' & Hs & Hu' & (added & Hr) & Hall).
  - unfold session_rows. simpl. now rewrite app_nil_r.
  - assumption.
  - exists (session_rows s'). unfold save_alerts. rewrite Hs. simpl.
    split; [reflexivity |]. split; [assumption |]. split; [| assumption].
    exists added. rewrite Hr. unfold session_rows. simpl. now rewrite app_nil_r.
Qed.

Lemma save_loop_has_key (today : string) (alerts : list alert) (s s' : session) :
  save_loop today s alerts = Ok s' -> forall a, In a alerts -> has_key a.
Proof.
  revert s. induction alerts as [| a rest IH]; intros s H b Hin; [destruct Hin |].
  simpl in H. apply rbind_ok in H. destruct H as (s1 & H1 & H).
  destruct Hin as [<- | Hin]; [| eapply IH; eassumption].
  unfold save_alert, item in H1.
  destruct (find "drug" a) as [d |] eqn:Ed; [| discriminate].
  destruct (find "title" a) as [t |] eqn:Et; [| discriminate].
  exists d, t. now split.
Qed.

(** Whatever the alerts, a call that commits leaves the table without
    duplicate keys; a call that raises commits nothing. *)
Lemma save_alerts_preserves_unique (today : string) (table table' : list RadarAlertORM)
    (alerts : list alert) :
  unique_keys table ->
  save_alerts today table alerts = Ok table' ->
  unique_keys table'.
Proof.
  intros Hu H. unfold save_alerts in H. apply rbind_ok in H.
  destruct H as (s' & Hs & [= <-]).
  destruct (@save_loop_spec today alerts {| flushed := table; pending := [] |})
    as (s2 & Hs2 & Hu2 & _).
  - unfold session_rows. simpl. now rewrite app_nil_r.
  - eapply save_loop_has_key; eassumption.
  - rewrite Hs in Hs2. injection Hs2 as <-. exact Hu2.
Qed.

End AlertFacts.

Section AlertExamples.

Import ClinicalRadarService.
Import RadarSpec.
Import Fixtures.

Lemma save_alerts_deduplicates_witness :
  exists table',
    save_alerts (av := string_values) "2026-01-15" []
      [an_alert "osimertinib" "FDA label update" "first report";
       an_alert "osimertinib" "FDA label update" "second report";
       an_alert "pembrolizumab" "New trial readout" "phase 3"] = Ok table' /\
    unique_keys table' /\
    (exists added, table' = ([] ++ added)%list) /\
    forall a d t,
      In a [an_alert "osimertinib" "FDA label update" "first report";
            an_alert "osimertinib" "FDA label update" "second report";
            an_alert "pembrolizumab" "New trial readout" "phase 3"] ->
      find "drug" a = Some d -> find "title" a = Some t ->
      key_count d t table' = 1%nat.
Proof.
  apply (@save_alerts_deduplicates string_values).
  - intros d t. unfold key_count. simpl. lia.
  - intros a Hin. simpl in Hin.
    repeat (destruct Hin as [<- | Hin]; [do 2 eexists; split; reflexivity |]).
    contradiction.
Defined.

(** Two alerts with the same key in one call, and the same alert again in
    a later call, leave one row. *)
Example save_twice_one_row :
  let a := an_alert "osimertinib" "FDA label update" "first report" in
  let b := an_alert "osimertinib" "FDA label update" "second report" in
  exists row,
    save_alerts (av := string_values) "2026-01-15" [] [a; b] = Ok [row] /\
    save_alerts (av := string_values) "2026-01-16" [row] [b] = Ok [row] /\
    description row = "first report".
Proof. eexists. repeat split. Qed.

End AlertExamples.


(** ** The matching engine end to end *)

Section MatchingPipelineFacts.

Context {codec : JsonCodec} {pydantic : Pydantic} {oracle : Oracle}
        {geodesy : Geodesy}.
Import MatchingEngine.
Import RankingSpec.

Lemma match_patient_to_trial_distance (patient : PatientProfile) (trial : Trial)
    (tr : trace) (m : TrialMatch) :
  snd (match_patient_to_trial patient trial tr) = Ok m ->
  forall d, distance_km m = Some d -> ~ (d == 0)%Q.
Proof.
  unfold match_patient_to_trial.
  destruct (find_nearest_site (patient_coords patient) (locations trial))
    as [site dist] eqn:F.
  unfold bind, lift.
  destruct (LLMService.evaluate_eligibility _ _ _ _ tr) as [tr1 [ev | e]]; simpl;
    [| discriminate].
  intros H. invert_binds H. apply new_TrialMatch_ok in H.
  destruct H as (_ & _ & _ & _ & Hd & _).
  intros d Hm. subst dist. rewrite Hm in F.
  eapply find_nearest_site_nonzero. exact F.
Qed.

Lemma match_all_nonzero (patient : PatientProfile) (trials : list Trial)
    (tr : trace) (matches : list TrialMatch) :
  snd (match_all patient trials tr) = Ok matches -> nonzero_distances matches.
Proof.
  revert tr matches. induction trials as [| trial rest IH]; intros tr matches; simpl.
  - intros [= <-] m d [].
  - unfold bind, ret.
    destruct (match_patient_to_trial patient trial tr) as [tr1 [m1 | e]] eqn:E1;
      [| discriminate].
    destruct (match_all patient rest tr1) as [tr2 [ms | e]] eqn:E2; [| discriminate].
    simpl. intros [= <-] m d [<- | Hin] Hd.
    + eapply (match_patient_to_trial_distance patient trial tr); [| eassumption].
      now rewrite E1.
    + eapply (IH tr1 ms); [now rewrite E2 | eassumption | eassumption].
Qed.

(** Every list [MatchingEngine.match_patient_to_trials] returns for a
    non-negative bound is within the bound and in the order of the
    specification: the matches it ranks never carry a zero distance. *)
Lemma match_patient_to_trials_ranked (patient : PatientProfile)
    (trials : list Trial) (max_results : Z) (tr : trace) (matches : list TrialMatch) :
  0 <= max_results ->
  snd (match_patient_to_trials patient trials max_results tr) = Ok matches ->
  Z.of_nat (List.length matches) <= max_results /\
  StronglySorted ranked_before matches.
Proof.
  intros Hmax. unfold match_patient_to_trials, bind, ret.
  destruct (match_all patient trials tr) as [tr1 [ms | e]] eqn:E; [| discriminate].
  simpl. intros [= <-]. split.
  - unfold rank_matches. now apply slice_to_length.
  - apply rank_matches_strongly_sorted.
    apply (match_all_nonzero patient trials tr). now rewrite E.
Qed.

End MatchingPipelineFacts.

(* ===================================================================== *)
(** * Part IV: further properties of the services                         *)
(* ===================================================================== *)

(** ** Nearest site and the matching engine *)

Section EngineFacts.

Context {codec : JsonCodec} {pydantic : Pydantic} {oracle : Oracle}
        {geodesy : Geodesy}.
Import MatchingEngine.
Import NearestSpec.
Import BatchSpec.

(** X1.  Without an origin nothing is selected.  With one, the scan
    returns the first of the nearest candidates among those it takes
    into account, together with its distance: every earlier candidate
    is strictly farther, every later one at least as far.  It returns
    nothing exactly when it takes no candidate into account. *)
Theorem find_nearest_site_first_nearest (origin : option (float * float))
    (locs : list Location) :
  match origin with
  | None => find_nearest_site origin locs = (None, None)
  | Some p =>
      (find_nearest_site origin locs = (None, None) /\
       forall l, In l locs -> considered_distance p l = None) \/
      (exists site d, find_nearest_site origin locs = (Some site, Some d) /\
                      first_nearest p locs site d)
  end.
Proof.
  destruct origin as [p |]; [apply find_nearest_site_considered | reflexivity].
Qed.

Lemma match_patient_to_trial_trace (patient : PatientProfile) (trial : Trial)
    (tr : trace) :
  fst (match_patient_to_trial patient trial tr)
  = (tr ++ [evaluation_call patient trial])%list.
Proof.
  unfold match_patient_to_trial, evaluation_call.
  destruct (find_nearest_site _ _) as [site dist].
  unfold bind, lift, LLMService.evaluate_eligibility, try_except, bind,
    LLMService.generate, lift, ret, LLMService.parse_reply, of_option.
  destruct (generate_content tr _) as [text |]; simpl.
  - destruct (json_loads (unfence (strip text))); reflexivity.
  - reflexivity.
Qed.

Lemma match_all_trace (patient : PatientProfile) (trials : list Trial) (tr : trace) :
  exists k,
    (k <= List.length trials)%nat /\
    fst (match_all patient trials tr)
    = (tr ++ map (evaluation_call patient) (firstn k trials))%list /\
    forall matches, snd (match_all patient trials tr) = Ok matches ->
      k = List.length trials /\ List.length matches = List.length trials.
Proof.
  revert tr. induction trials as [| trial rest IH]; intros tr.
  - exists 0%nat. simpl. rewrite app_nil_r.
    split; [lia |]. split; [reflexivity |].
    intros matches [= <-]. split; reflexivity.
  - simpl match_all. unfold bind.
    pose proof (match_patient_to_trial_trace patient trial tr) as Ht.
    destruct (match_patient_to_trial patient trial tr) as [tr1 [m | e]];
      simpl in Ht; subst tr1.
    + destruct (IH (tr ++ [evaluation_call patient trial])%list)
        as (k & Hk & Hf & Hok).
      destruct (match_all patient rest _) as [tr2 [ms | e]]; simpl in *.
      * exists (S k). split; [lia |]. split.
        -- rewrite Hf. simpl. now rewrite <- app_assoc.
        -- intros matches [= <-]. destruct (Hok ms eq_refl). simpl. lia.
      * exists (S k). split; [lia |]. split.
        -- rewrite Hf. simpl. now rewrite <- app_assoc.
        -- discriminate.
    + exists 1%nat. simpl. split; [lia |]. split; [reflexivity | discriminate].
Qed.

(** X2.  The single-trial path asks the oracle once per trial, in trial
    order, and stops at the first trial whose evaluation cannot be turned
    into a match: the calls made are those of a prefix of the trials, of
    all of them when the run returns, and then there is one match per
    trial before truncation. *)
Theorem match_patient_to_trials_calls (patient : PatientProfile)
    (trials : list Trial) (max_results : Z) (tr : trace) :
  exists k,
    (k <= List.length trials)%nat /\
    fst (match_patient_to_trials patient trials max_results tr)
    = (tr ++ map (evaluation_call patient) (firstn k trials))%list /\
    forall matches,
      snd (match_patient_to_trials patient trials max_results tr) = Ok matches ->
      k = List.length trials /\
      (0 <= max_results ->
       List.length matches = Nat.min (Z.to_nat max_results) (List.length trials)).
Proof.
  destruct (match_all_trace patient trials tr) as (k & Hk & Hf & Hok).
  exists k. split; [assumption |].
  unfold match_patient_to_trials, bind, ret.
  destruct (match_all patient trials tr) as [tr1 [ms | e]]; simpl in *.
  - split; [assumption |]. intros matches [= <-].
    destruct (Hok ms eq_refl) as [-> Hlen]. split; [reflexivity |].
    intros Hmax. unfold rank_matches. rewrite slice_to_nonneg by assumption.
    now rewrite length_firstn, sort_length, Hlen.
  - split; [assumption | discriminate].
Qed.

Lemma match_patient_to_trial_origin (patient : PatientProfile) (trial : Trial)
    (tr : trace) (m : TrialMatch) :
  snd (match_patient_to_trial patient trial tr) = Ok m -> match_of patient trial m.
Proof.
  unfold match_patient_to_trial, match_of.
  destruct (find_nearest_site (patient_coords patient) (locations trial))
    as [site dist] eqn:F.
  unfold bind, lift.
  destruct (LLMService.evaluate_eligibility _ _ _ _ tr) as [tr1 [ev | e]]; simpl;
    [| discriminate].
  intros H. invert_binds H. apply new_TrialMatch_ok in H.
  destruct H as (Hn & Ht & Hp & Hs & Hd & _).
  repeat split; try assumption. now rewrite Hs, Hd.
Qed.

Lemma match_all_origin (patient : PatientProfile) (trials : list Trial)
    (tr : trace) (matches : list TrialMatch) :
  snd (match_all patient trials tr) = Ok matches ->
  Forall2 (match_of patient) trials matches.
Proof.
  revert tr matches. induction trials as [| trial rest IH]; intros tr matches; simpl.
  - intros [= <-]. constructor.
  - unfold bind, ret.
    destruct (match_patient_to_trial patient trial tr) as [tr1 [m1 | e]] eqn:E1;
      [| discriminate].
    destruct (match_all patient rest tr1) as [tr2 [ms | e]] eqn:E2; [| discriminate].
    simpl. intros [= <-]. constructor.
    + apply (match_patient_to_trial_origin patient trial tr). now rewrite E1.
    + apply (IH tr1). now rewrite E2.
Qed.

(** X3.  Whatever the trials and the patient, a run of the single-trial
    pipeline that returns for a bound [max_results >= 0] gives at most
    [max_results] matches in the order of the specification (score
    descending, then distance ascending, absent distances last), and
    every match is the match of one of the trials, with the site and the
    distance [find_nearest_site] selects for it. *)
Theorem match_patient_to_trials_end_to_end (patient : PatientProfile)
    (trials : list Trial) (max_results : Z) (tr : trace) (matches : list TrialMatch) :
  0 <= max_results ->
  snd (match_patient_to_trials patient trials max_results tr) = Ok matches ->
  Z.of_nat (List.length matches) <= max_results /\
  StronglySorted RankingSpec.ranked_before matches /\
  Forall (fun m => exists trial, In trial trials /\ match_of patient trial m) matches.
Proof.
  intros Hmax Hrun.
  destruct (match_patient_to_trials_ranked _ _ _ Hmax Hrun) as [Hlen Hsorted].
  split; [assumption |]. split; [assumption |].
  unfold match_patient_to_trials, bind, ret in Hrun.
  destruct (match_all patient trials tr) as [tr1 [ms | e]] eqn:E; [| discriminate].
  simpl in Hrun. injection Hrun as <-.
  assert (Ho : Forall2 (match_of patient) trials ms)
    by (apply (match_all_origin patient trials tr); now rewrite E).
  apply Forall_forall. intros m Hin. apply rank_matches_In in Hin.
  clear -Ho Hin. induction Ho as [| trial m' ts ms' Hm Ho IH]; [destruct Hin |].
  destruct Hin as [<- | Hin].
  - exists trial. split; [now left | assumption].
  - destruct (IH Hin) as (t & Ht & Hmt). exists t. split; [now right | assumption].
Qed.

End EngineFacts.

Section EngineExamples.

Import MatchingEngine.
Import BatchSpec.
Import Fixtures.

Lemma match_patient_to_trials_end_to_end_witness :
  Z.of_nat (List.length engine_matches) <= 2 /\
  StronglySorted RankingSpec.ranked_before engine_matches /\
  Forall (fun m => exists trial,
            In trial engine_trials /\
            match_of (geodesy := flat_geodesy) a_located_patient trial m)
         engine_matches.
Proof.
  apply (@match_patient_to_trials_end_to_end fixture_codec strict_pydantic
           (fixed_oracle (Some inconsistent_text)) flat_geodesy
           a_located_patient engine_trials 2 []).
  - lia.
  - reflexivity.
Defined.

(** The patient sits in Chennai: of three trials with equal scores the
    one with a site in Vellore comes first, Delhi second, and the trial
    without sites is cut by the bound. *)
Example engine_matches_value :
  map (fun m => (nct_id m, option_map facility (nearest_site m))) engine_matches
  = [("NCT21", Some "Vellore"); ("NCT20", Some "Delhi")].
Proof. reflexivity. Qed.

End EngineExamples.

(** ** Batch evaluation beyond padding *)

Section BatchFacts.

Context {codec : JsonCodec} {oracle : Oracle}.
Import LLMService.
Import EvaluationSpec.
Import BatchSpec.

Lemma build_trials_text_ok (trials : list dict) :
  Forall criteria_sliceable trials ->
  exists trials_text,
    build_trials_text trials = Ok trials_text /\
    List.length trials_text = List.length trials.
Proof.
  induction 1 as [| trial rest Hs _ IH]; simpl; [now exists [] |].
  destruct IH as (more & -> & Hlen).
  unfold criteria_sliceable, dict_get in *.
  destruct (lookup "eligibility_criteria" trial) as [[| | | | s | l |] |];
    try contradiction; simpl; eexists; (split; [reflexivity | simpl; lia]).
Qed.

Lemma build_trials_text_raise (trials : list dict) :
  ~ Forall criteria_sliceable trials ->
  build_trials_text trials = Raise TypeError.
Proof.
  induction trials as [| trial rest IH]; intros Hn; [destruct Hn; constructor |].
  simpl. unfold dict_get.
  destruct (lookup "eligibility_criteria" trial) as [[| | | | s | l |] |] eqn:E;
    simpl; try reflexivity;
    (rewrite IH; [reflexivity |];
     intros Hf; apply Hn; constructor; [| assumption];
     unfold criteria_sliceable; now rewrite E).
Qed.

Lemma batch_evaluate_returns (patient : PatientProfile) (trials : list dict)
    (trials_text : list (json * json * json * json)) (tr : trace) :
  build_trials_text trials = Ok trials_text ->
  exists evaluations,
    batch_evaluate_eligibility patient trials tr
    = ((tr ++ [Generate (BatchPrompt patient trials_text)])%list, Ok evaluations).
Proof.
  intros Hb.
  unfold batch_evaluate_eligibility, bind, try_except, lift, ret, generate.
  rewrite Hb.
  destruct (of_option ExternalError (generate_content tr _)) as [text | e];
    [| eauto].
  destruct (parse_reply text) as [ev | e]; [| eauto].
  destruct (len ev) as [n | e]; [| eauto].
  destruct (n <? List.length trials)%nat; [| eauto].
  destruct (pad_evaluations ev (skipn n trials)); eauto.
Qed.

(** X4.  The prompt loop slices each trial's eligibility criteria before
    the [try]: batch evaluation builds its prompt exactly when every
    trial's criteria are absent, a string or a list, and otherwise raises
    [TypeError] to its caller without calling the oracle. *)
Theorem batch_evaluate_raises_on_unsliceable_criteria (patient : PatientProfile)
    (trials : list dict) (tr : trace) :
  (Forall criteria_sliceable trials ->
   exists trials_text evaluations,
     build_trials_text trials = Ok trials_text /\
     batch_evaluate_eligibility patient trials tr
     = ((tr ++ [Generate (BatchPrompt patient trials_text)])%list, Ok evaluations)) /\
  (~ Forall criteria_sliceable trials ->
   batch_evaluate_eligibility patient trials tr = (tr, Raise TypeError)).
Proof.
  split; intros H.
  - destruct (build_trials_text_ok H) as (tt & Hb & _).
    destruct (batch_evaluate_returns patient trials tr Hb) as (ev & Hev).
    exists tt, ev. auto.
  - unfold batch_evaluate_eligibility, bind, lift.
    now rewrite (build_trials_text_raise H).
Qed.

Lemma batch_evaluate_cases (patient : PatientProfile) (trials : list dict)
    (trials_text : list (json * json * json * json)) (tr : trace) :
  build_trials_text trials = Ok trials_text ->
  snd (batch_evaluate_eligibility patient trials tr)
  = Ok match decoded (generate_content tr (BatchPrompt patient trials_text)) with
       | Some (JArr l) =>
           if (List.length l <? List.length trials)%nat
           then JArr (l ++ map evaluation_not_completed
                               (skipn (List.length l) trials))%list
           else JArr l
       | Some v =>
           match len v with
           | Ok n => if (n <? List.length trials)%nat
                     then JArr (map evaluation_batch_failed trials)
                     else v
           | Raise _ => JArr (map evaluation_batch_failed trials)
           end
       | None => JArr (map evaluation_batch_failed trials)
       end.
Proof.
  intros Hb.
  destruct (decoded (generate_content tr (BatchPrompt patient trials_text)))
    as [v |] eqn:Hd.
  - assert (Hskip : forall n, (n < List.length trials)%nat ->
              exists t rest, skipn n trials = t :: rest).
    { intros n Hn. destruct (skipn n trials) as [| t rest] eqn:Hs; [| eauto].
      apply (f_equal (@List.length dict)) in Hs. rewrite length_skipn in Hs.
      simpl in Hs. lia. }
    destruct v as [| b | z | q | s | l | kv];
      try (rewrite (batch_evaluate_array _ _ _ Hb Hd); reflexivity);
      unfold batch_evaluate_eligibility, try_except, bind, generate, lift, ret,
        parse_reply, of_option; rewrite Hb; unfold decoded in Hd;
      (destruct (generate_content tr _) as [text |]; [| discriminate]);
      rewrite Hd; simpl; try reflexivity.
    + destruct (String.length s <? List.length trials)%nat eqn:E; [| reflexivity].
      apply Nat.ltb_lt in E. destruct (Hskip _ E) as (t & rest & ->). reflexivity.
    + destruct (List.length kv <? List.length trials)%nat eqn:E; [| reflexivity].
      apply Nat.ltb_lt in E. destruct (Hskip _ E) as (t & rest & ->). reflexivity.
  - now rewrite (batch_evaluate_failed _ _ _ Hb Hd).
Qed.

(** X5.  Once the prompt is built, batch evaluation makes one oracle call
    and always returns a value whose length is defined and at least the
    number of trials, whatever the oracle answered; callers that index it
    by trial position never run past its end. *)
Theorem batch_evaluate_covers_every_trial (patient : PatientProfile)
    (trials : list dict) (trials_text : list (json * json * json * json))
    (tr : trace) :
  build_trials_text trials = Ok trials_text ->
  exists evaluations n,
    batch_evaluate_eligibility patient trials tr
    = ((tr ++ [Generate (BatchPrompt patient trials_text)])%list, Ok evaluations) /\
    len evaluations = Ok n /\ (List.length trials <= n)%nat.
Proof.
  intros Hb.
  assert (Hfst : fst (batch_evaluate_eligibility patient trials tr)
                 = (tr ++ [Generate (BatchPrompt patient trials_text)])%list).
  { destruct (batch_evaluate_returns patient trials tr Hb) as (ev & ->).
    reflexivity. }
  pose proof (batch_evaluate_cases patient trials tr Hb) as Hsnd.
  destruct (batch_evaluate_eligibility patient trials tr) as [tr' r].
  simpl in *. subst tr' r.
  destruct (decoded _) as [v |];
    [destruct v as [| b | z | q | s | l | kv] |]; simpl;
    try match goal with
        | |- context [(?a <? ?b)%nat] => destruct (Nat.ltb_spec a b)
        end;
    eexists; eexists; (split; [reflexivity |]); (split; [reflexivity |]);
    simpl; rewrite ?length_app, ?length_map, ?length_skipn; lia.
Qed.

(** X6.  When the oracle call fails, its text is not JSON, or the decoded
    value is not an array and cannot cover the trials, every trial gets
    the failure placeholder, by position: score 40, category weak,
    missing_info ["Batch evaluation failed"], under the trial's own
    nct_id. *)
Theorem batch_failure_marks_every_trial (patient : PatientProfile)
    (trials : list dict) (trials_text : list (json * json * json * json))
    (tr : trace) :
  build_trials_text trials = Ok trials_text ->
  unusable_for (List.length trials)
    (decoded (generate_content tr (BatchPrompt patient trials_text))) ->
  exists evaluations,
    snd (batch_evaluate_eligibility patient trials tr) = Ok (JArr evaluations) /\
    Forall2 (fun trial evaluation =>
               getitem evaluation "nct_id"
                 = Ok (dict_get trial "nct_id" (JStr "Unknown")) /\
               getitem evaluation "fit_score" = Ok (JInt 40) /\
               getitem evaluation "fit_category" = Ok (JStr "weak") /\
               getitem evaluation "missing_info"
                 = Ok (JArr [JStr "Batch evaluation failed"]))
            trials evaluations.
Proof.
  intros Hb Hu. exists (map evaluation_batch_failed trials). split.
  - rewrite (batch_evaluate_cases patient trials tr Hb).
    destruct (decoded _) as [v |]; [| reflexivity].
    destruct v as [| b | z | q | s | l | kv]; simpl in Hu |- *;
      try reflexivity; try contradiction.
    + apply Nat.ltb_lt in Hu. now rewrite Hu.
    + apply Nat.ltb_lt in Hu. now rewrite Hu.
  - clear. induction trials as [| t rest IH]; simpl; constructor.
    + repeat split.
    + exact IH.
Qed.

End BatchFacts.

Section BatchExamples.

Import LLMService.
Import EvaluationSpec.
Import BatchSpec.
Import Fixtures.

Lemma batch_evaluate_covers_every_trial_witness :
  exists evaluations n,
    batch_evaluate_eligibility (codec := fixture_codec)
      (oracle := fixed_oracle (Some two_entries_text)) a_patient
      [a_trial "NCT01"] []
    = (([] ++ [Generate (BatchPrompt a_patient
                 [(JStr "NCT01", JStr "Trial NCT01", JStr "PHASE2",
                   JStr "Adults with NSCLC")])])%list, Ok evaluations) /\
    len evaluations = Ok n /\ (List.length [a_trial "NCT01"] <= n)%nat.
Proof.
  apply (@batch_evaluate_covers_every_trial fixture_codec
           (fixed_oracle (Some two_entries_text)) a_patient [a_trial "NCT01"]).
  reflexivity.
Defined.

Lemma batch_failure_marks_every_trial_witness :
  exists evaluations,
    snd (batch_evaluate_eligibility (codec := fixture_codec)
           (oracle := fixed_oracle (Some "Sorry, I cannot help with that.")) a_patient
           [a_trial "NCT01"; a_trial "NCT02"] []) = Ok (JArr evaluations) /\
    Forall2 (fun trial evaluation =>
               getitem evaluation "nct_id"
                 = Ok (dict_get trial "nct_id" (JStr "Unknown")) /\
               getitem evaluation "fit_score" = Ok (JInt 40) /\
               getitem evaluation "fit_category" = Ok (JStr "weak") /\
               getitem evaluation "missing_info"
                 = Ok (JArr [JStr "Batch evaluation failed"]))
            [a_trial "NCT01"; a_trial "NCT02"] evaluations.
Proof.
  eapply (@batch_failure_marks_every_trial fixture_codec
            (fixed_oracle (Some "Sorry, I cannot help with that.")) a_patient
            [a_trial "NCT01"; a_trial "NCT02"]).
  - reflexivity.
  - exact I.
Defined.

End BatchExamples.

(** ** Retrieval *)

Section RetrievalFacts.

Context {codec : JsonCodec} {pydantic : Pydantic} {oracle : Oracle}
        {registry : Registry}.
Import ClinicalTrialsService.
Import EvaluationSpec.
Import PipelineSpec.
Import RecordSpec.
Import BatchSpec.

Lemma map_result_length {A B : Type} (f : A -> result B) (l : list A) (ys : list B) :
  map_result f l = Ok ys -> List.length ys = List.length l.
Proof.
  revert ys. induction l as [| x l IH]; intros ys; simpl.
  - now intros [= <-].
  - intros H. apply rbind_ok in H. destruct H as (y & _ & H).
    apply rbind_ok in H. destruct H as (ys' & Hys & [= <-]).
    simpl. now rewrite (IH _ Hys).
Qed.

Lemma map_result_raise {A B : Type} (f : A -> result B) (l : list A) (x : A) (e : exn) :
  In x l -> f x = Raise e -> exists e', map_result f l = Raise e'.
Proof.
  induction l as [| y l IH]; intros Hin Hx; [destruct Hin |]. simpl.
  destruct Hin as [-> | Hin].
  - rewrite Hx. simpl. eauto.
  - destruct (f y); simpl; [| eauto].
    destruct (IH Hin Hx) as (e' & ->). simpl. eauto.
Qed.

Lemma slice_iter_length (v sliced : json) (n : nat) (items : list json) :
  slice v n = Ok sliced -> iter sliced = Ok items -> (List.length items <= n)%nat.
Proof.
  destruct v; simpl; try discriminate; intros [= <-]; simpl; intros [= <-].
  - rewrite length_map.
    revert n. induction s as [| c s IH]; intros [| n]; simpl; try lia.
    specialize (IH n). lia.
  - apply firstn_le_length.
Qed.

Lemma parse_location_shape (loc parsed : json) :
  parse_location loc = Ok parsed -> parsed_location parsed.
Proof.
  unfold parse_location. intros H. invert_binds H. injection H as <-.
  unfold parsed_location. eauto.
Qed.

(** X7.  Every record [_parse_study] returns has the same twelve keys, a
    string phase, an array of intervention names and an array of at most
    ten locations, each made of facility, city, state and country with
    [lat] and [lng] null. *)
Theorem parse_study_well_formed (study : json) (trial : dict) :
  _parse_study study = Ok trial -> well_formed_record trial.
Proof.
  unfold _parse_study. intros H. invert_binds H. injection H as <-.
  unfold well_formed_record. simpl.
  split; [reflexivity |]. split; [eauto |]. split; [eauto |].
  eexists. split; [reflexivity |].
  repeat match goal with
         | Hs : slice _ 10 = Ok ?x, Hi : iter ?x = Ok ?items |- _ =>
             pose proof (slice_iter_length _ _ Hs Hi); clear Hs
         | Hm : map_result parse_location ?items = Ok ?locs |- _ =>
             pose proof (map_result_length _ _ Hm);
             pose proof (map_result_ok _ _ Hm); clear Hm
         end.
  split; [lia |].
  match goal with
  | Hf : Forall _ ?locs |- Forall _ ?locs =>
      eapply Forall_impl; [| exact Hf]
  end.
  intros parsed (loc & _ & Hp). eapply parse_location_shape; eassumption.
Qed.

Lemma search_trials_run (patient : PatientProfile) (max_results : Z) (tr : trace)
    (keywords primary : json) :
  snd (LLMService.extract_search_keywords patient tr) = Ok keywords ->
  primary_condition patient keywords = Ok primary ->
  search_trials patient max_results tr
  = ((tr ++ [Generate (KeywordsPrompt patient);
             RegistryGet primary (Z.min max_results 20)])%list,
     Ok match registry_get (tr ++ [Generate (KeywordsPrompt patient)])%list primary
                (Z.min max_results 20) with
        | NetworkError => []
        | HttpResponse status body =>
            match (_ <- raise_for_status status ;;
                   data <- of_option JSONDecodeError (json_loads body) ;;
                   studies <- get data "studies" (JArr []) ;;
                   items <- iter studies ;;
                   map_result _parse_study items)%py with
            | Ok trials => trials
            | Raise _ => []
            end
        end).
Proof.
  intros Hk Hp.
  unfold search_trials, bind, try_except, lift, ret, http_get.
  destruct (extract_search_keywords_run patient tr) as (kw & Hrun).
  rewrite Hrun in Hk |- *. simpl in Hk. injection Hk as ->.
  rewrite Hp. rewrite <- app_assoc. simpl.
  destruct (registry_get _ primary (Z.min max_results 20)) as [| status body];
    simpl; [reflexivity |].
  match goal with |- context [rbind ?m ?k] => destruct (rbind m k) end;
    reflexivity.
Qed.

(** X8.  When keyword extraction fails (the oracle call raises or its
    text is not JSON), retrieval still goes ahead and returns: the
    registry is asked for the profile's own condition, with a page size
    of [min(max_results, 20)]. *)
Theorem keyword_failure_searches_condition (patient : PatientProfile)
    (max_results : Z) (tr : trace) :
  decoded (generate_content tr (KeywordsPrompt patient)) = None ->
  exists trials,
    search_trials patient max_results tr
    = ((tr ++ [Generate (KeywordsPrompt patient);
               RegistryGet (JStr (condition patient)) (Z.min max_results 20)])%list,
       Ok trials).
Proof.
  intros Hd. eexists. eapply search_trials_run.
  - unfold LLMService.extract_search_keywords, try_except, bind,
      LLMService.generate, lift, ret, LLMService.parse_reply, of_option.
    unfold decoded in Hd.
    destruct (generate_content tr (KeywordsPrompt patient)) as [text |];
      [rewrite Hd |]; reflexivity.
  - reflexivity.
Qed.

(** X9.  The studies of a page are parsed inside one [try]: when the
    registry answers 2xx with a body whose studies can be iterated, the
    result is every study parsed, in order, if all of them parse, and
    the empty list as soon as one does not: a single entry that is not
    an object discards the whole page. *)
Theorem search_trials_all_or_nothing (patient : PatientProfile) (max_results : Z)
    (tr : trace) (keywords primary data studies : json) (status : Z)
    (body : string) (items : list json) :
  snd (LLMService.extract_search_keywords patient tr) = Ok keywords ->
  primary_condition patient keywords = Ok primary ->
  registry_get (tr ++ [Generate (KeywordsPrompt patient)])%list primary
    (Z.min max_results 20) = HttpResponse status body ->
  200 <= status < 300 ->
  json_loads body = Some data ->
  get data "studies" (JArr []) = Ok studies ->
  iter studies = Ok items ->
  (forall trials, map_result _parse_study items = Ok trials ->
     snd (search_trials patient max_results tr) = Ok trials /\
     List.length trials = List.length items) /\
  (forall s, In s items -> (forall d, s <> JObj d) ->
     snd (search_trials patient max_results tr) = Ok []).
Proof.
  intros Hk Hp Hr Hst Hd Hg Hi.
  rewrite (search_trials_run _ _ _ Hk Hp), Hr. simpl.
  unfold raise_for_status.
  replace ((200 <=? status) && (status <? 300)) with true
    by (symmetry; apply andb_true_iff; split;
        [apply Z.leb_le | apply Z.ltb_lt]; lia).
  simpl. rewrite Hd. simpl. rewrite Hg. simpl. rewrite Hi. simpl. split.
  - intros trials Hm. rewrite Hm. split; [reflexivity |].
    now apply map_result_length in Hm.
  - intros s Hin Hno.
    assert (Hs : _parse_study s = Raise AttributeError).
    { destruct s; try reflexivity. now destruct (Hno kv). }
    destruct (map_result_raise _ _ _ Hin Hs) as (e & ->). reflexivity.
Qed.

End RetrievalFacts.

Section RetrievalExamples.

Import ClinicalTrialsService.
Import RecordSpec.
Import Fixtures.

Lemma parse_study_well_formed_witness : well_formed_record a_record.
Proof.
  apply (@parse_study_well_formed
           (a_study "NCT01" [a_location "Apollo"; a_location "Adyar"])).
  reflexivity.
Defined.

Lemma keyword_failure_searches_condition_witness :
  exists trials,
    search_trials (codec := registry_codec) (oracle := fixed_oracle None)
      (registry := fixed_registry (HttpResponse 200 (dumps two_studies)))
      a_patient 50 []
    = (([] ++ [Generate (KeywordsPrompt a_patient);
               RegistryGet (JStr (condition a_patient)) (Z.min 50 20)])%list,
       Ok trials).
Proof.
  apply (@keyword_failure_searches_condition registry_codec (fixed_oracle None)
           (fixed_registry (HttpResponse 200 (dumps two_studies))) a_patient 50 []).
  reflexivity.
Defined.

Lemma search_trials_all_or_nothing_witness :
  (forall trials,
     map_result _parse_study [a_study "NCT01" []; JStr "withdrawn"] = Ok trials ->
     snd (search_trials (codec := mixed_codec) (oracle := fixed_oracle None)
            (registry := fixed_registry (HttpResponse 200 (dumps mixed_page)))
            a_patient 10 []) = Ok trials /\
     List.length trials = List.length [a_study "NCT01" []; JStr "withdrawn"]) /\
  (forall s, In s [a_study "NCT01" []; JStr "withdrawn"] ->
     (forall d, s <> JObj d) ->
     snd (search_trials (codec := mixed_codec) (oracle := fixed_oracle None)
            (registry := fixed_registry (HttpResponse 200 (dumps mixed_page)))
            a_patient 10 []) = Ok []).
Proof.
  eapply (@search_trials_all_or_nothing mixed_codec (fixed_oracle None)
            (fixed_registry (HttpResponse 200 (dumps mixed_page)))
            a_patient 10 []).
  - reflexivity.
  - reflexivity.
  - reflexivity.
  - lia.
  - reflexivity.
  - reflexivity.
  - reflexivity.
Defined.

(** One entry of the page is a string: the well-formed study next to it
    is lost too. *)
Example mixed_page_gives_nothing :
  snd (search_trials (codec := mixed_codec) (oracle := fixed_oracle None)
         (registry := fixed_registry (HttpResponse 200 (dumps mixed_page)))
         a_patient 10 []) = Ok [].
Proof. reflexivity. Qed.

End RetrievalExamples.

(** ** The registry pipeline as a whole *)

Section RegistryPipelineFacts.

Context {codec : JsonCodec} {pydantic : Pydantic} {oracle : Oracle}
        {registry : Registry}.
Import ClinicalTrialsService.
Import RankingSpec.

Lemma build_matches_length (evaluations : json) (i : nat) (trials : list dict) :
  (List.length (build_matches evaluations i trials) <= List.length trials)%nat.
Proof.
  revert i. induction trials as [| trial rest IH]; intros i; simpl; [lia |].
  destruct (make_match evaluations i trial); simpl; specialize (IH (S i)); lia.
Qed.

Lemma score_sort_sorted (matches : list TrialMatch) :
  StronglySorted score_desc (PySort.sort_reverse fit_score Z.ltb matches).
Proof.
  apply Sorted_StronglySorted.
  - intros a b c. unfold score_desc. lia.
  - unfold PySort.sort_reverse.
    eapply Sorted_weaken; [| apply sort_sorted].
    + intros a b _ _. unfold PySort.not_after, score_desc.
      intros H. apply Z.ltb_ge in H. lia.
    + intros a b H. apply Z.ltb_lt in H. apply Z.ltb_ge. lia.
Qed.

Lemma score_sort_stable (k : Z) (matches : list TrialMatch) :
  filter (fun m => fit_score m =? k) (PySort.sort_reverse fit_score Z.ltb matches)
  = filter (fun m => fit_score m =? k) matches.
Proof.
  unfold PySort.sort_reverse. apply sort_filter_tied.
  intros a b Ha Hb. apply Z.eqb_eq in Ha, Hb. apply Z.ltb_ge. lia.
Qed.

(** X10.  The registry pipeline returns its matches by [fit_score]
    descending, matches with equal scores in the order of their trials;
    it returns at most one match per retrieved trial and applies no
    other bound: [max_results] only reaches the registry's page size. *)
Theorem registry_matches_sorted_by_score (patient : PatientProfile)
    (max_results : Z) (tr : trace) (trials : list dict) (matches : list TrialMatch) :
  snd (search_trials patient max_results tr) = Ok trials ->
  snd (match_patient_to_trials patient max_results tr) = Ok matches ->
  StronglySorted score_desc matches /\
  (List.length matches <= List.length trials)%nat /\
  exists evaluations,
    Permutation matches (build_matches evaluations 0 trials) /\
    forall k, filter (fun m => fit_score m =? k) matches
              = filter (fun m => fit_score m =? k) (build_matches evaluations 0 trials).
Proof.
  intros Hs Hm.
  destruct (match_patient_to_trials_run _ _ _ Hs Hm) as (evaluations & ->).
  split; [apply score_sort_sorted |]. split.
  - unfold PySort.sort_reverse. rewrite sort_length. apply build_matches_length.
  - exists evaluations. split.
    + unfold PySort.sort_reverse. apply sort_perm.
    + intros k. apply score_sort_stable.
Qed.

(** X11.  Once trials are retrieved and the batch prompt can be built,
    the registry pipeline makes exactly one more call, the batch
    evaluation of all trials together, and returns: a trial whose match
    cannot be built is skipped, never raised. *)
Theorem registry_pipeline_one_evaluation_call (patient : PatientProfile)
    (max_results : Z) (tr : trace) (trial : dict) (rest : list dict)
    (trials_text : list (json * json * json * json)) :
  snd (search_trials patient max_results tr) = Ok (trial :: rest) ->
  LLMService.build_trials_text (trial :: rest) = Ok trials_text ->
  exists matches,
    match_patient_to_trials patient max_results tr
    = ((fst (search_trials patient max_results tr)
        ++ [Generate (BatchPrompt patient trials_text)])%list, Ok matches).
Proof.
  intros Hs Hb. unfold match_patient_to_trials, bind, ret.
  destruct (search_trials patient max_results tr) as [tr' r]. simpl in *. subst r.
  destruct (batch_evaluate_returns patient (trial :: rest) tr' Hb) as (ev & ->).
  eauto.
Qed.

End RegistryPipelineFacts.

Section RegistryPipelineExamples.

Import ClinicalTrialsService.
Import RankingSpec.
Import Fixtures.

Lemma registry_matches_sorted_by_score_witness :
  StronglySorted score_desc returned_matches /\
  (List.length returned_matches <= List.length retrieved_trials)%nat /\
  exists evaluations,
    Permutation returned_matches
      (build_matches (pydantic := strict_pydantic) evaluations 0 retrieved_trials) /\
    forall k, filter (fun m => fit_score m =? k) returned_matches
              = filter (fun m => fit_score m =? k)
                  (build_matches (pydantic := strict_pydantic) evaluations 0
                     retrieved_trials).
Proof.
  apply (@registry_matches_sorted_by_score registry_codec strict_pydantic
           (scripted_oracle (Some two_entries_text))
           (fixed_registry (HttpResponse 200 (dumps two_studies)))
           a_patient 10 []).
  - reflexivity.
  - reflexivity.
Defined.

Lemma registry_pipeline_one_evaluation_call_witness :
  exists matches,
    match_patient_to_trials (codec := registry_codec) (pydantic := strict_pydantic)
      (oracle := scripted_oracle (Some two_entries_text))
      (registry := fixed_registry (HttpResponse 200 (dumps two_studies)))
      a_patient 10 []
    = ((fst (search_trials (codec := registry_codec)
               (oracle := scripted_oracle (Some two_entries_text))
               (registry := fixed_registry (HttpResponse 200 (dumps two_studies)))
               a_patient 10 [])
        ++ [Generate (BatchPrompt a_patient
              [(JStr "NCT01", JStr "Trial NCT01", JStr "N/A",
                JStr "No eligibility criteria provided");
               (JStr "NCT02", JStr "Trial NCT02", JStr "N/A",
                JStr "No eligibility criteria provided")])])%list, Ok matches).
Proof.
  eapply (@registry_pipeline_one_evaluation_call registry_codec strict_pydantic
            (scripted_oracle (Some two_entries_text))
            (fixed_registry (HttpResponse 200 (dumps two_studies)))
            a_patient 10 []).
  - reflexivity.
  - reflexivity.
Defined.

End RegistryPipelineExamples.

(** ** Python dicts *)

Section DictFacts.

Lemma lookup_dict_set_eq (d : dict) (k : string) (v : json) :
  lookup k (dict_set d k v) = Some v.
Proof.
  induction d as [| [k' v'] d IH]; simpl.
  - now rewrite String.eqb_refl.
  - destruct (String.eqb k k') eqn:E; simpl; rewrite E; [reflexivity | exact IH].
Qed.

Lemma lookup_dict_set_ne (d : dict) (k k' : string) (v : json) :
  k <> k' -> lookup k' (dict_set d k v) = lookup k' d.
Proof.
  intros Hne. induction d as [| [k0 v0] d IH]; simpl.
  - destruct (String.eqb k' k) eqn:E; [| reflexivity].
    apply String.eqb_eq in E. congruence.
  - destruct (String.eqb k k0) eqn:E; simpl.
    + apply String.eqb_eq in E. subst k0.
      destruct (String.eqb k' k) eqn:E'; [| reflexivity].
      apply String.eqb_eq in E'. congruence.
    + now rewrite IH.
Qed.

End DictFacts.

(** ** The ambient scan, branch by branch *)

Section ScanFacts.

Context {codec : JsonCodec} {search : SearchOracle}.
Import ClinicalRadarService.
Import ScanSpec.

Lemma or_default_nonempty (o : option string) (default : string) :
  default <> "" -> or_default o default <> "".
Proof.
  intros Hd. unfold or_default. destruct o as [s |]; [| assumption].
  destruct s; simpl; [assumption | discriminate].
Qed.

Lemma collect_citations_titled (chunks : list (option web_chunk)) :
  Forall titled_citation (collect_citations chunks) /\
  (List.length (collect_citations chunks) <= List.length chunks)%nat.
Proof.
  induction chunks as [| [web |] rest [IHf IHl]]; simpl.
  - split; [constructor | lia].
  - split; [| lia]. constructor; [| assumption].
    exists (or_default (web_title web) "Source"), (or_default (web_uri web) "").
    split; [reflexivity |]. now apply or_default_nonempty.
  - split; [assumption | lia].
Qed.

Lemma citations_all_titled (response : grounded_response) :
  Forall titled_citation (_extract_citations response).
Proof.
  unfold _extract_citations. destruct (grounding_chunks response) as [chunks |].
  - apply collect_citations_titled.
  - constructor.
Qed.

(** X12.  Every citation extracted from the grounding metadata is a
    [{title, url}] pair whose title is not empty ("Source" stands in for
    a missing or empty one), chunks without a web part are dropped, and
    no metadata gives no citation. *)
Theorem extract_citations_titled (response : grounded_response) :
  Forall titled_citation (_extract_citations response) /\
  match grounding_chunks response with
  | Some chunks =>
      (List.length (_extract_citations response) <= List.length chunks)%nat
  | None => _extract_citations response = []
  end.
Proof.
  unfold _extract_citations. destruct (grounding_chunks response) as [chunks |].
  - apply collect_citations_titled.
  - split; [constructor | reflexivity].
Qed.

Lemma citations_head (response : grounded_response) (first : json) (more : list json) :
  _extract_citations response = first :: more ->
  exists t u, first = citation t u.
Proof.
  intros Hc. pose proof (citations_all_titled response) as Hf.
  rewrite Hc in Hf. inversion Hf as [| ? ? (t & u & -> & _) _]. eauto.
Qed.

Lemma add_citations_dict (d : dict) (citations : list json) :
  Forall titled_citation citations ->
  exists d',
    (match citations with
     | first :: _ =>
         data <- setitem (JObj d) "sources" (JArr citations) ;;
         source <- getitem first "title" ;;
         data <- setitem data "source" source ;;
         source_url <- getitem first "url" ;;
         setitem data "source_url" source_url
     | [] =>
         data <- setitem (JObj d) "source" (JStr "Google Search") ;;
         data <- setitem data "source_url" (JStr "") ;;
         setitem data "sources" (JArr [])
     end)%py = Ok (JObj d') /\
    (lookup "source" d', lookup "source_url" d', lookup "sources" d')
    = (Some (fst (fst (source_fields citations))),
       Some (snd (fst (source_fields citations))),
       Some (snd (source_fields citations))) /\
    forall k, k <> "sources" -> k <> "source" -> k <> "source_url" ->
              lookup k d' = lookup k d.
Proof.
  intros Hf. destruct citations as [| first more].
  - eexists. split; [reflexivity |]. split.
    + rewrite lookup_dict_set_ne, lookup_dict_set_ne, lookup_dict_set_eq by discriminate.
      rewrite lookup_dict_set_ne, lookup_dict_set_eq by discriminate.
      now rewrite lookup_dict_set_eq.
    + intros k H1 H2 H3.
      rewrite !lookup_dict_set_ne by congruence. reflexivity.
  - inversion Hf as [| ? ? (t & u & -> & _) _]; subst.
    eexists. split; [reflexivity |]. split.
    + rewrite lookup_dict_set_ne, lookup_dict_set_eq by discriminate.
      rewrite lookup_dict_set_eq.
      rewrite !lookup_dict_set_ne, lookup_dict_set_eq by discriminate.
      reflexivity.
    + intros k H1 H2 H3.
      rewrite !lookup_dict_set_ne by congruence. reflexivity.
Qed.

Lemma add_citations_not_dict (data : json) (citations : list json) :
  (forall d, data <> JObj d) ->
  (match citations with
   | first :: _ =>
       data <- setitem data "sources" (JArr citations) ;;
       source <- getitem first "title" ;;
       data <- setitem data "source" source ;;
       source_url <- getitem first "url" ;;
       setitem data "source_url" source_url
   | [] =>
       data <- setitem data "source" (JStr "Google Search") ;;
       data <- setitem data "source_url" (JStr "") ;;
       setitem data "sources" (JArr [])
   end)%py = Raise TypeError.
Proof.
  intros Hn. destruct data; try (destruct citations; reflexivity).
  now destruct (Hn kv).
Qed.

Lemma source_fields_sources (citations : list json) :
  Forall titled_citation citations ->
  snd (source_fields citations) = JArr citations.
Proof.
  intros Hf. destruct citations as [| first more]; [reflexivity |].
  inversion Hf as [| ? ? (t & u & -> & _) _]. reflexivity.
Qed.

Lemma search_body_sources (treatment today : string) (response : grounded_response)
    (data : json) :
  search_body treatment today response = Ok data ->
  exists d, data = JObj d /\
            lookup "sources" d = Some (JArr (_extract_citations response)).
Proof.
  pose proof (citations_all_titled response) as Hf.
  unfold search_body.
  set (text := match response_text response with
               | Some t => if str_truthy t then strip t else ""
               | None => ""
               end).
  destruct (negb (str_truthy text)).
  - destruct (_extract_citations response) as [| first more] eqn:Hc.
    + intros [= <-]. eexists. split; reflexivity.
    + destruct (citations_head _ Hc) as (t & u & ->). simpl.
      intros [= <-]. eexists. split; reflexivity.
  - intros H. apply rbind_ok in H. destruct H as (data0 & _ & H).
    assert (Hd : (exists d, data0 = JObj d) \/ (forall d, data0 <> JObj d))
      by (destruct data0; eauto; right; discriminate).
    destruct Hd as [(d & ->) | Hn].
    + destruct (add_citations_dict d Hf) as (d' & Hok & Hl & _).
      rewrite Hok in H. injection H as <-. exists d'. split; [reflexivity |].
      injection Hl as _ _ ->. now rewrite source_fields_sources.
    + rewrite (add_citations_not_dict _ Hn) in H. discriminate.
Qed.

(** X13.  The scan never raises and always returns a dict with a
    [sources] list: the citations extracted from the grounding metadata,
    each with a non-empty title, when the reply could be processed, and
    the empty list when the call or the processing failed. *)
Theorem ambient_search_well_formed (treatment today : string) :
  exists d citations,
    perform_ambient_search treatment today = JObj d /\
    lookup "sources" d = Some (JArr citations) /\
    Forall titled_citation citations /\
    (citations = [] \/
     exists response, grounded_generate treatment today = Some response /\
                      citations = _extract_citations response).
Proof.
  unfold perform_ambient_search.
  destruct (grounded_generate treatment today) as [response |].
  - destruct (search_body treatment today response) as [data | e] eqn:E.
    + destruct (search_body_sources _ _ _ E) as (d & -> & Hl).
      exists d, (_extract_citations response).
      split; [reflexivity |]. split; [assumption |].
      split; [apply citations_all_titled | eauto].
    + eexists. exists []. repeat split; auto.
  - eexists. exists []. repeat split; auto.
Qed.

(** X14.  Whenever the text yields a dict, the scan overwrites its
    [source], [source_url] and [sources] with the extracted citations
    (the first citation's title and url, and the whole list), or with
    "Google Search", "" and the empty list when there is none, and
    leaves every other field of the dict as the oracle gave it. *)
Theorem citations_replace_source_fields (treatment today raw : string)
    (response : grounded_response) (d : dict) :
  grounded_generate treatment today = Some response ->
  response_text response = Some raw ->
  strip raw <> "" ->
  body_decodes_to (unfence (strip raw)) d ->
  exists d',
    perform_ambient_search treatment today = JObj d' /\
    (lookup "source" d', lookup "source_url" d', lookup "sources" d')
    = (Some (fst (fst (source_fields (_extract_citations response)))),
       Some (snd (fst (source_fields (_extract_citations response)))),
       Some (snd (source_fields (_extract_citations response)))) /\
    forall k, k <> "sources" -> k <> "source" -> k <> "source_url" ->
              lookup k d' = lookup k d.
Proof.
  intros Hg Ht Hne Hbody.
  pose proof (citations_all_titled response) as Hf.
  destruct (add_citations_dict d Hf) as (d' & Hok & Hl & Hk).
  exists d'. split; [| split; assumption].
  unfold perform_ambient_search, search_body.
  rewrite Hg, Ht, (strip_nonempty _ Hne).
  destruct (str_truthy (strip raw)) eqn:E;
    [| apply str_truthy_iff in Hne; congruence].
  simpl negb. cbv iota.
  destruct Hbody as [(m & -> & Hm) | (-> & Hn & Hj)].
  - rewrite Hm. cbn [of_option rbind]. now rewrite Hok.
  - apply str_truthy_iff in Hn. rewrite Hn, Hj. cbn [rbind]. now rewrite Hok.
Qed.

(** X15.  When the reply carries no text (none, empty or blank), the
    scan reports an update exactly when there are citations: with
    citations, a generic "Recent updates found" finding whose source is
    the first citation and whose description counts them; without, a
    finding with [found_update] false and no source. *)
Theorem no_text_reports_citations_only (treatment today : string)
    (response : grounded_response) :
  grounded_generate treatment today = Some response ->
  no_text response ->
  (forall t u more, _extract_citations response = citation t u :: more ->
     perform_ambient_search treatment today = JObj [
       ("drug", JStr treatment);
       ("found_update", JBool true);
       ("category", JStr "TRIAL_UPDATE");
       ("severity", JStr "medium");
       ("title", JStr ("Recent updates found for " ++ treatment));
       ("description",
          JStr ("Found " ++ str_of_nat (S (List.length more))
                ++ " relevant sources with recent information."));
       ("date", JStr today);
       ("source", JStr t);
       ("source_url", JStr u);
       ("sources", JArr (citation t u :: more))]) /\
  (_extract_citations response = [] ->
   perform_ambient_search treatment today = JObj [
     ("drug", JStr treatment);
     ("found_update", JBool false);
     ("description", JStr "No response from search");
     ("sources", JArr [])]).
Proof.
  intros Hg Hn. unfold perform_ambient_search, search_body. rewrite Hg.
  assert (Ht : match response_text response with
               | Some t => if str_truthy t then strip t else ""
               | None => ""
               end = "").
  { unfold no_text in Hn. destruct (response_text response) as [raw |];
      [| reflexivity]. now destruct (str_truthy raw). }
  rewrite Ht. simpl negb. cbv iota. split.
  - intros t u more ->. reflexivity.
  - intros ->. reflexivity.
Qed.

End ScanFacts.

Section ScanExamples.

Import ClinicalRadarService.
Import ScanSpec.
Import Fixtures.

Lemma citations_replace_source_fields_witness :
  exists d',
    perform_ambient_search (codec := scan_codec)
      (search := fixed_search (Some grounded_reply)) "Drug-X" "2026-01-15" = JObj d' /\
    (lookup "source" d', lookup "source_url" d', lookup "sources" d')
    = (Some (fst (fst (source_fields (_extract_citations grounded_reply)))),
       Some (snd (fst (source_fields (_extract_citations grounded_reply)))),
       Some (snd (source_fields (_extract_citations grounded_reply)))) /\
    forall k, k <> "sources" -> k <> "source" -> k <> "source_url" ->
              lookup k d'
              = lookup k [("drug", JStr "Drug-X"); ("found_update", JBool true);
                          ("title", JStr "Label change"); ("source", JStr "made up");
                          ("sources", JArr [JStr "made up"])].
Proof.
  apply (@citations_replace_source_fields scan_codec
           (fixed_search (Some grounded_reply)) "Drug-X" "2026-01-15"
           (dumps self_sourced) grounded_reply).
  - reflexivity.
  - reflexivity.
  - discriminate.
  - left. eexists. split; reflexivity.
Defined.

(** The oracle's own "made up" source is replaced by the first grounded
    citation; the chunk without a title is listed as "Source". *)
Example grounded_reply_sources :
  let r := perform_ambient_search (codec := scan_codec)
             (search := fixed_search (Some grounded_reply)) "Drug-X" "2026-01-15" in
  getitem r "source" = Ok (JStr "FDA") /\
  getitem r "sources"
  = Ok (JArr [citation "FDA" "https://fda.example/a";
              citation "Source" "https://news.example/b"]) /\
  getitem r "title" = Ok (JStr "Label change").
Proof. repeat split. Qed.

Lemma no_text_reports_citations_only_witness :
  (forall t u more, _extract_citations blank_reply = citation t u :: more ->
     perform_ambient_search (codec := scan_codec)
       (search := fixed_search (Some blank_reply)) "Drug-X" "2026-01-15" = JObj [
       ("drug", JStr "Drug-X");
       ("found_update", JBool true);
       ("category", JStr "TRIAL_UPDATE");
       ("severity", JStr "medium");
       ("title", JStr ("Recent updates found for " ++ "Drug-X"));
       ("description",
          JStr ("Found " ++ str_of_nat (S (List.length more))
                ++ " relevant sources with recent information."));
       ("date", JStr "2026-01-15");
       ("source", JStr t);
       ("source_url", JStr u);
       ("sources", JArr (citation t u :: more))]) /\
  (_extract_citations blank_reply = [] ->
   perform_ambient_search (codec := scan_codec)
     (search := fixed_search (Some blank_reply)) "Drug-X" "2026-01-15" = JObj [
     ("drug", JStr "Drug-X");
     ("found_update", JBool false);
     ("description", JStr "No response from search");
     ("sources", JArr [])]).
Proof.
  apply (@no_text_reports_citations_only scan_codec
           (fixed_search (Some blank_reply)) "Drug-X" "2026-01-15" blank_reply).
  - reflexivity.
  - reflexivity.
Defined.

End ScanExamples.

(** ** The regular expression of the scan *)

Section RegexFacts.

Import ClinicalRadarService.
Import ScanSpec.

Lemma span_no_brace_spec (s body rest : string) :
  span_no_brace s = (body, rest) ->
  s = body ++ rest /\ brace_free body = true.
Proof.
  revert body rest. induction s as [| c s IH]; intros body rest H; simpl in H.
  - injection H as <- <-. split; reflexivity.
  - destruct (is_brace c) eqn:E.
    + injection H as <- <-. split; reflexivity.
    + destruct (span_no_brace s) as [b r]. injection H as <- <-.
      destruct (IH b r eq_refl) as [-> Hb]. split; [reflexivity |].
      simpl. now rewrite E.
Qed.

Lemma span_no_brace_app (body rest : string) (c : ascii) :
  brace_free body = true -> is_brace c = true ->
  span_no_brace (body ++ String c rest) = (body, String c rest).
Proof.
  induction body as [| a body IH]; simpl; intros Hb Hc.
  - now rewrite Hc.
  - apply andb_true_iff in Hb. destruct Hb as [Ha Hb].
    apply negb_true_iff in Ha. rewrite Ha, IH by assumption. reflexivity.
Qed.

Lemma match_here_sound (s m : string) :
  match_here s = Some m ->
  exists body post,
    s = "{" ++ body ++ "}" ++ post /\ m = "{" ++ body ++ "}" /\
    brace_free body = true /\ contains body quoted_drug = true.
Proof.
  destruct s as [| c s]; [discriminate |]. unfold match_here.
  destruct (Ascii.eqb c "{") eqn:Ec; [| discriminate].
  apply Ascii.eqb_eq in Ec. subst c.
  destruct (span_no_brace s) as [body rest] eqn:Es.
  destruct rest as [| c' post]; [discriminate |].
  destruct (Ascii.eqb c' "}") eqn:Ec'; simpl; [| discriminate].
  destruct (contains body quoted_drug) eqn:Ecd; [| discriminate].
  intros [= <-]. apply Ascii.eqb_eq in Ec'. subst c'.
  apply span_no_brace_spec in Es. destruct Es as [-> Hb].
  exists body, post. repeat split; auto.
Qed.

Lemma match_here_not_brace (c : ascii) (s : string) :
  Ascii.eqb c "{" = false -> match_here (String c s) = None.
Proof. intros E. unfold match_here. now rewrite E. Qed.

Lemma re_search_drug_cons (c : ascii) (text : string) :
  re_search_drug (String c text)
  = match match_here (String c text) with
    | Some m => Some m
    | None => re_search_drug text
    end.
Proof. reflexivity. Qed.

(** X16.  What the scan's regular expression returns is a substring of
    the text of the form [{body}] whose body has no brace and contains
    the quoted key ["drug"], and no such match starts earlier in the
    text. *)
Theorem re_search_drug_sound (text m : string) :
  re_search_drug text = Some m ->
  exists pre body post,
    text = pre ++ "{" ++ body ++ "}" ++ post /\
    m = "{" ++ body ++ "}" /\
    brace_free body = true /\
    contains body quoted_drug = true /\
    forall n, (n < String.length pre)%nat -> match_here (drop n text) = None.
Proof.
  induction text as [| c text IH].
  - discriminate.
  - rewrite re_search_drug_cons. destruct (match_here (String c text)) as [m' |] eqn:E.
    + intros [= ->]. destruct (match_here_sound _ E) as (body & post & Ht & Hm & Hb & Hc).
      exists "", body, post. simpl. repeat split; auto. intros n Hn. lia.
    + intros H. destruct (IH H) as (pre & body & post & -> & Hm & Hb & Hc & Hl).
      exists (String c pre), body, post. repeat split; auto.
      intros [| n] Hn; [exact E |]. simpl in Hn. simpl drop. apply Hl. lia.
Qed.

(** X17.  A flat object (no brace inside) that contains the quoted key
    ["drug"] and is preceded by brace-free prose is what the regular
    expression finds, whatever follows it. *)
Theorem re_search_drug_finds_flat_object (pre body post : string) :
  brace_free pre = true ->
  brace_free body = true ->
  contains body quoted_drug = true ->
  re_search_drug (pre ++ "{" ++ body ++ "}" ++ post) = Some ("{" ++ body ++ "}").
Proof.
  intros Hp Hb Hc. induction pre as [| a pre IH].
  - simpl. rewrite (@span_no_brace_app body post "}"%char Hb eq_refl).
    simpl. now rewrite Hc.
  - simpl in Hp. apply andb_true_iff in Hp. destruct Hp as [Ha Hp].
    apply negb_true_iff in Ha. unfold is_brace in Ha.
    apply orb_false_iff in Ha. destruct Ha as [Ha _].
    change (String a pre ++ "{" ++ body ++ "}" ++ post)
      with (String a (pre ++ "{" ++ body ++ "}" ++ post)).
    rewrite re_search_drug_cons, (@match_here_not_brace _ _ Ha). now apply IH.
Qed.

End RegexFacts.

Section RegexExamples.

Import ClinicalRadarService.
Import ScanSpec.
Import Fixtures.

Lemma re_search_drug_sound_witness :
  exists pre body post,
    "Summary: " ++ dumps (JObj [("drug", JStr "Drug-X")]) ++ " {end}"
    = pre ++ "{" ++ body ++ "}" ++ post /\
    dumps (JObj [("drug", JStr "Drug-X")]) = "{" ++ body ++ "}" /\
    brace_free body = true /\
    contains body quoted_drug = true /\
    forall n, (n < String.length pre)%nat ->
      match_here (drop n ("Summary: " ++ dumps (JObj [("drug", JStr "Drug-X")])
                          ++ " {end}")) = None.
Proof.
  apply (@re_search_drug_sound
           ("Summary: " ++ dumps (JObj [("drug", JStr "Drug-X")]) ++ " {end}")
           (dumps (JObj [("drug", JStr "Drug-X")]))).
  reflexivity.
Defined.

Lemma re_search_drug_finds_flat_object_witness :
  re_search_drug ("Summary: " ++ "{" ++ quoted_drug ++ ": 1" ++ "}" ++ " {end}")
  = Some ("{" ++ quoted_drug ++ ": 1" ++ "}").
Proof.
  apply (@re_search_drug_finds_flat_object "Summary: " (quoted_drug ++ ": 1") " {end}");
    reflexivity.
Defined.

(** An object with a nested object is not matched as a whole: the
    expression finds nothing and the scan falls back to the direct
    parse. *)
Example nested_object_not_matched :
  re_search_drug ("{" ++ quoted_drug ++ ": 1, " ++ quote "meta" ++ ": {}}") = None.
Proof. reflexivity. Qed.

End RegexExamples.

(** ** Saving alerts: atomicity and repetition *)

Section AlertStoreFacts.

Context {av : AlertValue}.
Import ClinicalRadarService.
Import RadarSpec.

Lemma save_alert_existing (today : string) (s : session) (a : alert) (d t : value) :
  find "drug" a = Some d ->
  find "title" a = Some t ->
  key_count d t (session_rows s) = 1%nat ->
  exists s', save_alert today s a = Ok s' /\ session_rows s' = session_rows s.
Proof.
  intros Hd Ht Hc. unfold save_alert, item, execute_select.
  rewrite Hd, Ht. simpl. unfold session_rows, key_count in *.
  destruct (filter (same_key d t) (flushed s ++ pending s)) as [| r [| r' more]];
    simpl in Hc; try discriminate.
  eexists. split; [reflexivity |]. simpl. now rewrite app_nil_r.
Qed.

Lemma save_loop_existing (today : string) (alerts : list alert) (s : session) :
  (forall a, In a alerts ->
     exists d t, find "drug" a = Some d /\ find "title" a = Some t /\
                 key_count d t (session_rows s) = 1%nat) ->
  exists s', save_loop today s alerts = Ok s' /\ session_rows s' = session_rows s.
Proof.
  revert s. induction alerts as [| a rest IH]; intros s H.
  - exists s. split; reflexivity.
  - destruct (H a (or_introl eq_refl)) as (d & t & Hd & Ht & Hc).
    destruct (save_alert_existing today s a Hd Ht Hc) as (s1 & Hs1 & Hr1).
    destruct (IH s1) as (s' & Hs' & Hr').
    + intros b Hb. rewrite Hr1. apply H. now right.
    + exists s'. simpl. rewrite Hs1. simpl. split; [assumption | congruence].
Qed.

(** X18.  Saving is idempotent: after a call that committed, saving the
    same alerts again (on any later day) commits a table equal to the
    one it started from. *)
Theorem save_alerts_idempotent (today today' : string)
    (table table' : list RadarAlertORM) (alerts : list alert) :
  unique_keys table ->
  save_alerts today table alerts = Ok table' ->
  save_alerts today' table' alerts = Ok table'.
Proof.
  intros Hu H. unfold save_alerts in H. apply rbind_ok in H.
  destruct H as (s1 & Hs1 & [= <-]).
  pose proof (save_loop_has_key _ _ _ Hs1) as Hk.
  destruct (@save_loop_spec _ today alerts {| flushed := table; pending := [] |})
    as (s2 & Hs2 & _ & _ & Hall).
  { unfold session_rows. simpl. now rewrite app_nil_r. }
  { assumption. }
  rewrite Hs1 in Hs2. injection Hs2 as <-.
  destruct (@save_loop_existing today' alerts {| flushed := commit s1; pending := [] |})
    as (s3 & Hs3 & Hr3).
  - intros a Hin. destruct (Hk a Hin) as (d & t & Hd & Ht).
    exists d, t. split; [assumption |]. split; [assumption |].
    unfold session_rows at 1. simpl. rewrite app_nil_r.
    exact (Hall a d t Hin Hd Ht).
  - unfold save_alerts. rewrite Hs3. simpl. f_equal.
    unfold session_rows in Hr3. simpl in Hr3. rewrite app_nil_r in Hr3. exact Hr3.
Qed.

Lemma save_alert_adds (today : string) (s s' : session) (a : alert) :
  save_alert today s a = Ok s' ->
  session_rows s' = session_rows s \/
  exists r, session_rows s' = (session_rows s ++ [r])%list /\
            is_new r = true /\
            key_count (drug r) (title r) (session_rows s) = 0%nat /\
            find "drug" a = Some (drug r) /\ find "title" a = Some (title r).
Proof.
  unfold save_alert, item, execute_select.
  destruct (find "drug" a) as [d |]; [| discriminate].
  destruct (find "title" a) as [t |]; [| discriminate]. simpl.
  unfold session_rows, key_count.
  destruct (filter (same_key d t) (flushed s ++ pending s)) as [| r [| r' more]] eqn:F;
    simpl; intros [= <-]; simpl.
  - right. eexists. split; [reflexivity |]. simpl. rewrite F. auto.
  - left. now rewrite app_nil_r.
Qed.

Lemma save_loop_adds (today : string) (alerts : list alert) (s s' : session) :
  save_loop today s alerts = Ok s' ->
  exists added,
    session_rows s' = (session_rows s ++ added)%list /\
    (List.length added <= List.length alerts)%nat /\
    Forall (fun r =>
              is_new r = true /\
              key_count (drug r) (title r) (session_rows s) = 0%nat /\
              exists a, In a alerts /\
                        find "drug" a = Some (drug r) /\
                        find "title" a = Some (title r)) added.
Proof.
  revert s. induction alerts as [| a rest IH]; intros s H; simpl in H.
  - injection H as <-. exists []. rewrite app_nil_r. repeat split; auto.
  - apply rbind_ok in H. destruct H as (s1 & H1 & H).
    destruct (IH _ H) as (added & Hr & Hlen & Hall).
    assert (Hmono : forall r,
               (exists a0, In a0 rest /\ find "drug" a0 = Some (drug r) /\
                           find "title" a0 = Some (title r)) ->
               exists a0, In a0 (a :: rest) /\ find "drug" a0 = Some (drug r) /\
                          find "title" a0 = Some (title r)).
    { intros r (a0 & Hin & Hd & Ht). exists a0. split; [now right | now split]. }
    destruct (save_alert_adds _ _ _ H1) as [E | (r & E & Hn & Hz & Hd & Ht)].
    + exists added. rewrite Hr, E. split; [reflexivity |]. split; [simpl; lia |].
      eapply Forall_impl; [| exact Hall]. rewrite E.
      intros r (Hn & Hz & Hex). split; [assumption |]. split; [assumption |].
      now apply Hmono.
    + exists (r :: added). rewrite Hr, E, <- app_assoc. split; [reflexivity |].
      split; [simpl; lia |]. constructor.
      * split; [assumption |]. split; [assumption |].
        exists a. split; [now left | now split].
      * eapply Forall_impl; [| exact Hall]. rewrite E.
        intros r' (Hn' & Hz' & Hex). split; [assumption |]. split.
        -- rewrite key_count_app in Hz'. lia.
        -- now apply Hmono.
Qed.

(** X19.  A call that commits only appends: the stored rows stay as
    they were and in place, at most one row is added per alert, and
    every added row is flagged new and carries the drug and title of
    one of the alerts, a pair no row of the table had before. *)
Theorem save_alerts_appends_fresh_rows (today : string)
    (table table' : list RadarAlertORM) (alerts : list alert) :
  save_alerts today table alerts = Ok table' ->
  exists added,
    table' = (table ++ added)%list /\
    (List.length added <= List.length alerts)%nat /\
    Forall (fun r =>
              is_new r = true /\
              key_count (drug r) (title r) table = 0%nat /\
              exists a, In a alerts /\
                        find "drug" a = Some (drug r) /\
                        find "title" a = Some (title r)) added.
Proof.
  intros H. unfold save_alerts in H. apply rbind_ok in H.
  destruct H as (s1 & Hs1 & [= <-]).
  destruct (save_loop_adds _ _ _ Hs1) as (added & Hr & Hlen & Hall).
  unfold session_rows in Hr, Hall. simpl in Hr, Hall. rewrite app_nil_r in Hr, Hall.
  exists added. split; [exact Hr |]. split; assumption.
Qed.

Lemma save_loop_key_error (today : string) (alerts : list alert) (s : session) :
  unique_keys (session_rows s) ->
  (exists a, In a alerts /\ ~ has_key a) ->
  save_loop today s alerts = Raise KeyError.
Proof.
  revert s. induction alerts as [| a rest IH]; intros s Hu (b & Hin & Hb).
  - destruct Hin.
  - simpl. destruct (find "drug" a) as [d |] eqn:Ed.
    + destruct (find "title" a) as [t |] eqn:Et.
      * destruct (save_alert_step today s a Hu Ed Et) as (s1 & Hs1 & Hu1 & _).
        rewrite Hs1. simpl. apply IH; [assumption |].
        exists b. split; [| assumption].
        destruct Hin as [<- | Hin]; [| assumption].
        destruct Hb. exists d, t. now split.
      * unfold save_alert, item. rewrite Ed, Et. reflexivity.
    + unfold save_alert, item. rewrite Ed. reflexivity.
Qed.

(** X20.  Saving is all or nothing: on a table without duplicate keys,
    one alert that lacks [drug] or [title] makes the whole call raise
    KeyError before the commit, so the alerts before it are not stored
    either. *)
Theorem save_alerts_aborts_on_malformed_alert (today : string)
    (table : list RadarAlertORM) (alerts : list alert) :
  unique_keys table ->
  (exists a, In a alerts /\ ~ has_key a) ->
  save_alerts today table alerts = Raise KeyError.
Proof.
  intros Hu Hex. unfold save_alerts.
  rewrite save_loop_key_error; [reflexivity | | assumption].
  unfold session_rows. simpl. now rewrite app_nil_r.
Qed.

End AlertStoreFacts.

Section AlertStoreExamples.

Import ClinicalRadarService.
Import RadarSpec.
Import Fixtures.

Lemma save_alerts_idempotent_witness :
  save_alerts (av := string_values) "2026-01-16" [stored_row]
    [an_alert "osimertinib" "FDA label update" "first report";
     an_alert "osimertinib" "FDA label update" "second report"]
  = Ok [stored_row].
Proof.
  apply (@save_alerts_idempotent string_values "2026-01-15" "2026-01-16" [] [stored_row]).
  - intros d t. unfold key_count. simpl. lia.
  - reflexivity.
Defined.

Lemma save_alerts_appends_fresh_rows_witness :
  exists added,
    [stored_row] = ([] ++ added)%list /\
    (List.length added
     <= List.length [an_alert "osimertinib" "FDA label update" "first report";
                     an_alert "osimertinib" "FDA label update" "second report"])%nat /\
    Forall (fun r =>
              is_new r = true /\
              key_count (drug r) (title r) [] = 0%nat /\
              exists a,
                In a [an_alert "osimertinib" "FDA label update" "first report";
                      an_alert "osimertinib" "FDA label update" "second report"] /\
                find "drug" a = Some (drug r) /\
                find "title" a = Some (title r)) added.
Proof.
  apply (@save_alerts_appends_fresh_rows string_values "2026-01-15" [] [stored_row]).
  reflexivity.
Defined.

Lemma save_alerts_aborts_on_malformed_alert_witness :
  save_alerts (av := string_values) "2026-01-15" []
    [an_alert "osimertinib" "FDA label update" "first report";
     [("drug", "pembrolizumab")]]
  = Raise KeyError.
Proof.
  apply (@save_alerts_aborts_on_malformed_alert string_values).
  - intros d t. unfold key_count. simpl. lia.
  - exists [("drug", "pembrolizumab")]. split.
    + right. left. reflexivity.
    + intros (d & t & _ & Ht). discriminate.
Defined.

End AlertStoreExamples.

(** ** Strings: stripping and code fences *)

Section StringFacts.


















End StringFacts.

Section FenceFacts.

Context {codec : JsonCodec}.
Import LLMService.
Import FenceSpec.




End FenceFacts.

Section FenceExamples.

Import LLMService.
Import FenceSpec.
Import Fixtures.


End FenceExamples.

(** ** The condition pre-filter *)

Section FilterFacts.

Import MatchingEngine.

Lemma filter_idem {A : Type} (f : A -> bool) (l : list A) :
  filter f (filter f l) = filter f l.
Proof.
  induction l as [| x l IH]; simpl; [reflexivity |].
  destruct (f x) eqn:E; simpl; [rewrite E, IH |]; auto.
Qed.


(** X23.  Pre-filtering is idempotent: filtering the result again by
    the same condition returns it unchanged. *)
Theorem filter_trials_idempotent (trials : list Trial) (condition : string) :
  filter_trials_by_condition (filter_trials_by_condition trials condition) condition
  = filter_trials_by_condition trials condition.
Proof.
  unfold filter_trials_by_condition.
  set (keep := mentions (relevant_keywords (lower condition))).
  destruct (filter keep trials) as [| t rest] eqn:E.
  - now rewrite E.
  - rewrite <- E, filter_idem. rewrite E. reflexivity.
Qed.

Lemma contains_nil (s : string) : contains s "" = true.
Proof. destruct s; reflexivity. Qed.

(** An empty condition selects nothing: the empty keyword occurs in
    every text, so every trial is kept. *)
Example filter_trials_empty_condition (trials : list Trial) :
  filter_trials_by_condition trials "" = trials.
Proof.
  unfold filter_trials_by_condition.
  assert (H : filter (mentions (relevant_keywords (lower ""))) trials = trials).
  { induction trials as [| x l IH]; simpl; [reflexivity |].
    unfold mentions at 1. simpl existsb. rewrite contains_nil. simpl.
    f_equal. exact IH. }
  rewrite H. now destruct trials.
Qed.

End FilterFacts.

(** ** Ages in the registry's format *)

Section IngestionFacts.

Import TrialIngestion.






End IngestionFacts.

Section IngestionExamples.

Import TrialIngestion.


(** Every digit of the string is read: a decimal point is dropped, and
    "N/A" in any case gives no age. *)
Example parse_age_quirks :
  parse_age "18.5 Years" = Some 185%Z /\
  parse_age "6 Months" = Some 6%Z /\
  parse_age "n/A" = None /\
  parse_age "Adult" = None.
Proof. repeat split. Qed.

End IngestionExamples.

(** ** The treatments the radar watches *)

Section TreatmentFacts.

Import ClinicalRadarService.







End TreatmentFacts.

Section TreatmentExamples.

Import ClinicalRadarService.

(** Two patients on the same drug, written with different blanks, give
    one entry; "None", a two-letter name and a patient without
    treatments give none.  Case is not normalised. *)
Example watch_list :
  get_unique_treatments
    [ {| patient_id := "P001"; orm_current_treatments := Some [" Osimertinib "; "None"] |};
      {| patient_id := "P002"; orm_current_treatments := None |};
      {| patient_id := "P003";
         orm_current_treatments := Some ["Osimertinib"; "5FU"; "TX"; "osimertinib"] |} ]
  = ["Osimertinib"; "5FU"; "osimertinib"].
Proof. reflexivity. Qed.

End TreatmentExamples.

(** ** Retrieval: what is not caught *)

Section RetrievalErrorFacts.

Context {codec : JsonCodec} {pydantic : Pydantic} {oracle : Oracle}
        {registry : Registry}.
Import ClinicalTrialsService.
Import EvaluationSpec.

(** X26.  The keyword reply is used before the [try] of the search: when
    it decodes to JSON that is not an object, the search raises
    AttributeError without asking the registry, and the registry
    pipeline raises with it instead of returning an empty list. *)
Theorem malformed_keywords_abort_retrieval (patient : PatientProfile)
    (max_results : Z) (tr : trace) (keywords : json) :
  decoded (generate_content tr (KeywordsPrompt patient)) = Some keywords ->
  (forall d, keywords <> JObj d) ->
  search_trials patient max_results tr
  = ((tr ++ [Generate (KeywordsPrompt patient)])%list, Raise AttributeError) /\
  match_patient_to_trials patient max_results tr
  = ((tr ++ [Generate (KeywordsPrompt patient)])%list, Raise AttributeError).
Proof.
  intros Hd Hn.
  assert (Hs : search_trials patient max_results tr
               = ((tr ++ [Generate (KeywordsPrompt patient)])%list,
                  Raise AttributeError)).
  { unfold search_trials, LLMService.extract_search_keywords, try_except, bind,
      LLMService.generate, lift, ret, LLMService.parse_reply.
    unfold decoded in Hd.
    destruct (generate_content tr (KeywordsPrompt patient)) as [text |];
      [| discriminate].
    simpl. rewrite Hd. simpl. unfold primary_condition.
    destruct keywords; try reflexivity. now destruct (Hn kv). }
  split; [exact Hs |].
  unfold match_patient_to_trials, bind. now rewrite Hs.
Qed.

End RetrievalErrorFacts.

Section RetrievalErrorExamples.

Import ClinicalTrialsService.
Import Fixtures.

Lemma malformed_keywords_abort_retrieval_witness :
  search_trials (codec := bare_list_codec)
    (oracle := fixed_oracle (Some (dumps bare_list)))
    (registry := fixed_registry (HttpResponse 200 (dumps two_studies)))
    a_patient 10 []
  = (([] ++ [Generate (KeywordsPrompt a_patient)])%list, Raise AttributeError) /\
  match_patient_to_trials (codec := bare_list_codec) (pydantic := strict_pydantic)
    (oracle := fixed_oracle (Some (dumps bare_list)))
    (registry := fixed_registry (HttpResponse 200 (dumps two_studies)))
    a_patient 10 []
  = (([] ++ [Generate (KeywordsPrompt a_patient)])%list, Raise AttributeError).
Proof.
  apply (@malformed_keywords_abort_retrieval bare_list_codec strict_pydantic
           (fixed_oracle (Some (dumps bare_list)))
           (fixed_registry (HttpResponse 200 (dumps two_studies)))
           a_patient 10 [] bare_list).
  - reflexivity.
  - discriminate.
Defined.

End RetrievalErrorExamples.

(** ** The daily briefing *)

Section BriefingFacts.

Context {narrator : Narrator}.
Import ClinicalRadarService.


End BriefingFacts.
